(** * study_bot: session lifecycle, credit accounting and monthly aggregation

    A shallow embedding of [study_bot.py]: the file-system database
    ([FileSystemDB]), the session object ([PomodoroSession]) and the
    [/pomodoro] command, followed by the properties of the specification
    that were checked against it and by further properties of the code.

    Modelling conventions.
    - A [datetime] carries its position on the time line in microseconds
      ([micros]) next to the calendar fields that the code formats.  The
      expression [int(delta.total_seconds() / 60)] is integer division
      truncating toward zero ([Z.quot]) of the microsecond difference by
      60_000_000; for spans below 2^33 seconds the two float divisions of
      the source give exactly this integer.
    - [datetime.now()] consumes the next reading of a clock oracle.  The
      members of a voice channel are given by a presence oracle; what a
      task sees can change only at a suspension point ([await]).
    - Scheduling is cooperative.  The monitor task runs only while the
      main task of its session is suspended, as often as the environment
      decides, and a scan is not interrupted by the main task.
    - The month identifier [strftime("%Y-%m")] is kept as the pair
      (year, month) that [split("-")] and [int] recover from it; years
      are printed as they are ([%Y] for the years 1000 to 9999).
    - The pickle files of a directory are a finite map from file name to
      content.  Storage and network failures are not represented: reads
      and writes succeed, and a send or an edit is logged.
    - The only addition to the source is the list [phases]: [start] and
      the methods it calls note which state of the specification's state
      machine the control flow enters. *)

From Stdlib Require Import ZArith List Bool Lia Ascii String Sorting.Sorted Permutation.
From stdpp Require Import gmap strings list fin_maps pretty.

Local Open Scope Z_scope.

(* ===================================================================== *)
(** ** Data model *)
(* ===================================================================== *)

Record datetime := {
  micros : Z;          (* position on the time line, in microseconds *)
  dt_year : Z;
  dt_month : Z;
  dt_day : Z;
  dt_hour : Z;
  dt_minute : Z;
  dt_second : Z
}.

(** [a > b] on datetimes. *)
Definition dt_gt (a b : datetime) : bool := micros b <? micros a.

(** [int((a - b).total_seconds() / 60)] *)
Definition minutes_between (a b : datetime) : Z :=
  Z.quot (micros a - micros b) 60000000.

(** [str(n)] and the format specifier [{n:02d}] (for [0 <= n]). *)
Definition str (n : Z) : string := pretty n.

Definition fmt02d (n : Z) : string :=
  if (0 <=? n) && (n <? 10) then "0" +:+ str n else str n.

(** [strftime("%Y%m%d_%H%M%S")] *)
Definition strftime_stamp (t : datetime) : string :=
  str (dt_year t) +:+ fmt02d (dt_month t) +:+ fmt02d (dt_day t) +:+ "_"
  +:+ fmt02d (dt_hour t) +:+ fmt02d (dt_minute t) +:+ fmt02d (dt_second t).

(** The month identifier [strftime("%Y-%m")], as the pair of its numbers. *)
Abbreviation month_id := (Z * Z)%type.

Definition strftime_Ym (t : datetime) : month_id := (dt_year t, dt_month t).

(** Python's [needle in hay] on strings. *)
Fixpoint str_in (needle hay : string) : bool :=
  String.prefix needle hay ||
  match hay with
  | EmptyString => false
  | String _ hay' => str_in needle hay'
  end.

Definition ORGANIZATIONS : list string :=
  ["Wina"; "VTK"; "Atmosphere"; "Chemica"; "BIOS";
   "Atlas"; "Politeia"; "VRG"; "Ekonomika"; "Medica"]%string.

Record Role := { role_name : string }.

Record Member := {
  id : Z;
  bot : bool;
  name : string;
  roles : list Role
}.

Record Channel := {
  channel_id : Z;
  channel_name : string
}.

(** A value of [self.participants]. *)
Module Participant.
Record t := {
  user : Member;
  organization : string;
  join_time : datetime;
  late_join : bool
}.
End Participant.

(** The state of the task created for [monitor_late_joiners]. *)
Inductive MonitorPC :=
| MonitorNotCreated
| MonitorCreated      (* created, loop guard not evaluated yet *)
| MonitorSleeping     (* inside [asyncio.sleep(10)] *)
| MonitorDone.        (* loop left, task failed or cancelled *)

Record PomodoroSession := {
  channel : Channel;
  duration : Z;
  break_time : Z;
  participants : list (Z * Participant.t);   (* dict, in insertion order *)
  session_start : option datetime;
  is_running : bool;
  is_study_period : bool;
  monitor_task : MonitorPC
}.

(** The [session_doc] dictionary pickled by [save_study_session]. *)
Module Doc.
Record t := {
  user_id : string;
  username : string;
  organization : string;
  session_start : datetime;
  session_end : datetime;
  duration_minutes : Z;
  month : Z;
  year : Z;
  channel_name : string;
  late_join : bool;
  completed : bool
}.
End Doc.

(** An entry of [stats["top_individuals"]]. *)
Module Ind.
Record t := {
  user_id : string;
  username : string;
  org : string;
  minutes : Z
}.
End Ind.

Record OrgStats := { total_minutes : Z }.

(** The monthly statistics dictionary. *)
Module Stats.
Record t := {
  _id : month_id;
  organizations : gmap string OrgStats;
  top_individuals : list Ind.t;
  last_updated : datetime
}.
End Stats.

(** An entry of [credit_details] in [award_credit]. *)
Module Credit.
Record t := {
  user : Member;
  minutes : Z;
  late : bool
}.
End Credit.

(** What the bot sends: one constructor per [send] or [edit] of the source. *)
Inductive Notice :=
| MustBeInVoice                               (* "You must be in a voice channel!" *)
| ChannelIsEmpty (c : Channel)                (* "<channel> is empty!" *)
| AlreadyActive (c : Channel)                 (* "<channel> already has an active session!" *)
| StudyTimeRange                              (* "Study time must be 1-120 minutes!" *)
| BreakTimeRange                              (* "Break time must be 0-60 minutes!" *)
| VoiceChannelEmpty                           (* "Voice channel is empty!" *)
| SessionStarted (students : nat) (study brk : Z)
| LateWelcome (m : Member) (minutes_late potential_credit : Z)
| StudyTimerPosted                            (* the timer message is created *)
| StudyTimerEdit (remaining : Z) (current_count : nat)
| StudyComplete                               (* "Study Complete" *)
| CreditAwarded (details : list Credit.t) (left_early : Z) (brk : Z)
| BreakPosted (mentions : list Member)        (* "Break Time" *)
| BreakTimerEdit (remaining : Z)
| SessionComplete                             (* "Session Complete" *)
| SessionFinished (mentions : list Member).   (* "Session finished!" *)

(** The states of the specification's session state machine; [start]
    records the one it enters (see [enter]). *)
Inductive Phase := Idle | Starting | Studying | Settling | OnBreak | Completed | Aborted.

Record World := {
  study_sessions : gmap string Doc.t;        (* database/study_sessions/<name> *)
  monthly_stats : gmap month_id Stats.t;     (* database/monthly_stats/<month_id>.pkl *)
  active_sessions : gmap Z PomodoroSession;  (* the global dict *)
  ticks : nat;                               (* clock readings taken so far *)
  epoch : nat;                               (* suspension points passed *)
  outbox : list Notice;                      (* messages sent, oldest first *)
  phases : list Phase                        (* phases entered, oldest first *)
}.

(** The environment: successive clock readings, the occupants of each
    channel at each suspension epoch, and how often the monitor task wakes
    up during each suspension of the session's main task. *)
Record Env := {
  clock : nat -> datetime;
  presence : nat -> Z -> list Member;
  wakeups : nat -> nat
}.

Definition set_study_sessions (f : gmap string Doc.t) (w : World) : World :=
  {| study_sessions := f; monthly_stats := monthly_stats w;
     active_sessions := active_sessions w; ticks := ticks w; epoch := epoch w;
     outbox := outbox w; phases := phases w |}.

Definition set_monthly_stats (f : gmap month_id Stats.t) (w : World) : World :=
  {| study_sessions := study_sessions w; monthly_stats := f;
     active_sessions := active_sessions w; ticks := ticks w; epoch := epoch w;
     outbox := outbox w; phases := phases w |}.

Definition set_active_sessions (f : gmap Z PomodoroSession) (w : World) : World :=
  {| study_sessions := study_sessions w; monthly_stats := monthly_stats w;
     active_sessions := f; ticks := ticks w; epoch := epoch w;
     outbox := outbox w; phases := phases w |}.

Definition set_ticks (n : nat) (w : World) : World :=
  {| study_sessions := study_sessions w; monthly_stats := monthly_stats w;
     active_sessions := active_sessions w; ticks := n; epoch := epoch w;
     outbox := outbox w; phases := phases w |}.

Definition set_epoch (n : nat) (w : World) : World :=
  {| study_sessions := study_sessions w; monthly_stats := monthly_stats w;
     active_sessions := active_sessions w; ticks := ticks w; epoch := n;
     outbox := outbox w; phases := phases w |}.

Definition set_outbox (o : list Notice) (w : World) : World :=
  {| study_sessions := study_sessions w; monthly_stats := monthly_stats w;
     active_sessions := active_sessions w; ticks := ticks w; epoch := epoch w;
     outbox := o; phases := phases w |}.

Definition set_phases (p : list Phase) (w : World) : World :=
  {| study_sessions := study_sessions w; monthly_stats := monthly_stats w;
     active_sessions := active_sessions w; ticks := ticks w; epoch := epoch w;
     outbox := outbox w; phases := p |}.

Definition initial_world : World :=
  {| study_sessions := ∅; monthly_stats := ∅; active_sessions := ∅;
     ticks := 0%nat; epoch := 0%nat; outbox := []; phases := [] |}.

(* ===================================================================== *)
(** ** The monad of the program: global state and exceptions *)
(* ===================================================================== *)

Inductive exn := TypeError.

Inductive result (A : Type) :=
| Ok (a : A)
| Raise (e : exn).
Arguments Ok {A} a.
Arguments Raise {A} e.

Definition M (A : Type) : Type := World -> result A * World.

Definition ret {A} (a : A) : M A := fun w => (Ok a, w).

Definition bind {A B} (m : M A) (k : A -> M B) : M B :=
  fun w =>
    match m w with
    | (Ok a, w') => k a w'
    | (Raise e, w') => (Raise e, w')
    end.

Definition raise {A} (e : exn) : M A := fun w => (Raise e, w).

(** [try: body finally: fin] *)
Definition try_finally {A} (body : M A) (fin : M unit) : M A :=
  fun w =>
    match body w with
    | (r, w1) =>
        match fin w1 with
        | (Ok _, w2) => (r, w2)
        | (Raise e, w2) => (Raise e, w2)
        end
    end.

Definition get {A} (f : World -> A) : M A := fun w => (Ok (f w), w).
Definition modify (f : World -> World) : M unit := fun w => (Ok tt, f w).

Notation "x <- m ;; k" := (bind m (fun x => k))
  (at level 100, m at next level, right associativity).
Notation "m ;;; k" := (bind m (fun _ => k))
  (at level 100, right associativity).

(* ===================================================================== *)
(** ** class FileSystemDB *)
(* ===================================================================== *)

(** [sum(...)] over a list of integers. *)
Definition sum (l : list Z) : Z := foldr Z.add 0 l.

(** [l.sort(key=key, reverse=True)]: a stable sort, descending in the key
    (elements with equal keys keep their order). *)
Section Sort.
Context {A : Type} (key : A -> Z).

Fixpoint insert_desc (x : A) (l : list A) : list A :=
  match l with
  | [] => [x]
  | y :: l' => if key y <=? key x then x :: y :: l' else y :: insert_desc x l'
  end.

Definition sort_desc (l : list A) : list A := foldr insert_desc [] l.
End Sort.

(** Python truthiness of an optional integer argument. *)
Definition truthy (o : option Z) : bool :=
  match o with
  | Some z => negb (z =? 0)
  | None => false
  end.

Section Program.
Context (env : Env).

(** [datetime.now()] *)
Definition now : M datetime :=
  fun w => (Ok (clock env (ticks w)), set_ticks (S (ticks w)) w).

(** The file name built by [save_study_session]. *)
Definition session_file_name (session_data : Doc.t) (timestamp : string) : string :=
  str (Doc.year session_data) +:+ "-" +:+ fmt02d (Doc.month session_data)
  +:+ "-" +:+ fmt02d (dt_day (Doc.session_start session_data))
  +:+ "_" +:+ Doc.user_id session_data +:+ "_" +:+ timestamp +:+ ".pkl".

Definition save_study_session (session_data : Doc.t) : M bool :=
  t <- now ;;
  let timestamp := strftime_stamp t in
  let filename := session_file_name session_data timestamp in
  modify (fun w => set_study_sessions (<[filename := session_data]> (study_sessions w)) w) ;;;
  ret true.

(** The test that [get_user_sessions] applies to a file name. *)
Definition session_file_selected (user_id : Z) (year month : option Z)
    (file_name : string) : bool :=
  str_in ("_" +:+ str user_id +:+ "_") file_name &&
  (if truthy year && truthy month
   then String.prefix (str (default 0 year) +:+ "-" +:+ fmt02d (default 0 month)) file_name
   else true).

Definition get_user_sessions (user_id : Z) (year month : option Z) : M (list Doc.t) :=
  files <- get (fun w => map_to_list (study_sessions w)) ;;
  ret (snd <$> filter (fun f => session_file_selected user_id year month (fst f) = true) files).

Definition default_stats (month_id : month_id) (t : datetime) : Stats.t :=
  {| Stats._id := month_id;
     Stats.organizations :=
       list_to_map ((fun org => (org, {| total_minutes := 0 |})) <$> ORGANIZATIONS);
     Stats.top_individuals := [];
     Stats.last_updated := t |}.

Definition get_monthly_stats (month_id : month_id) : M Stats.t :=
  file <- get (fun w => monthly_stats w !! month_id) ;;
  match file with
  | None => t <- now ;; ret (default_stats month_id t)
  | Some stats => ret stats
  end.

Definition save_monthly_stats (month_id : month_id) (stats_data : Stats.t) : M bool :=
  t <- now ;;
  let stats_data :=
    {| Stats._id := Stats._id stats_data;
       Stats.organizations := Stats.organizations stats_data;
       Stats.top_individuals := Stats.top_individuals stats_data;
       Stats.last_updated := t |} in
  modify (fun w => set_monthly_stats (<[month_id := stats_data]> (monthly_stats w)) w) ;;;
  ret true.

Definition get_user_monthly_total (user_id : Z) (month_id : month_id) : M Z :=
  let '(year, month) := month_id in
  sessions <- get_user_sessions user_id (Some year) (Some month) ;;
  ret (sum (Doc.duration_minutes <$> sessions)).

(** [stats["organizations"][org]["total_minutes"] += minutes], after the
    entry has been created when it was missing. *)
Definition add_org_minutes (org : string) (minutes : Z)
    (orgs : gmap string OrgStats) : gmap string OrgStats :=
  let orgs := match orgs !! org with
              | None => <[org := {| total_minutes := 0 |}]> orgs
              | Some _ => orgs
              end in
  alter (fun o => {| total_minutes := total_minutes o + minutes |}) org orgs.

(** The new value of [stats["top_individuals"]]. *)
Definition upsert_individual (entry : Ind.t) (top : list Ind.t) : list Ind.t :=
  let top := filter (fun ind => Ind.user_id ind <> Ind.user_id entry) top in
  let top := top ++ [entry] in
  let top := sort_desc Ind.minutes top in
  take 100 top.

Definition update_monthly_stats (org : string) (minutes : Z) (user_id : Z)
    (username : string) : M bool :=
  t <- now ;;
  let month_id := strftime_Ym t in
  stats <- get_monthly_stats month_id ;;
  let organizations := add_org_minutes org minutes (Stats.organizations stats) in
  user_total <- get_user_monthly_total user_id month_id ;;
  let entry := {| Ind.user_id := str user_id; Ind.username := username;
                  Ind.org := org; Ind.minutes := user_total |} in
  let stats :=
    {| Stats._id := Stats._id stats;
       Stats.organizations := organizations;
       Stats.top_individuals := upsert_individual entry (Stats.top_individuals stats);
       Stats.last_updated := Stats.last_updated stats |} in
  save_monthly_stats month_id stats.


(* =================================================================== *)
(** ** class PomodoroSession *)
(* =================================================================== *)

Definition set_participants (p : list (Z * Participant.t)) (self : PomodoroSession)
    : PomodoroSession :=
  {| channel := channel self; duration := duration self; break_time := break_time self;
     participants := p; session_start := session_start self;
     is_running := is_running self; is_study_period := is_study_period self;
     monitor_task := monitor_task self |}.

Definition set_session_start (t : option datetime) (self : PomodoroSession)
    : PomodoroSession :=
  {| channel := channel self; duration := duration self; break_time := break_time self;
     participants := participants self; session_start := t;
     is_running := is_running self; is_study_period := is_study_period self;
     monitor_task := monitor_task self |}.

Definition set_is_running (b : bool) (self : PomodoroSession) : PomodoroSession :=
  {| channel := channel self; duration := duration self; break_time := break_time self;
     participants := participants self; session_start := session_start self;
     is_running := b; is_study_period := is_study_period self;
     monitor_task := monitor_task self |}.

Definition set_is_study_period (b : bool) (self : PomodoroSession) : PomodoroSession :=
  {| channel := channel self; duration := duration self; break_time := break_time self;
     participants := participants self; session_start := session_start self;
     is_running := is_running self; is_study_period := b;
     monitor_task := monitor_task self |}.

Definition set_monitor_task (pc : MonitorPC) (self : PomodoroSession) : PomodoroSession :=
  {| channel := channel self; duration := duration self; break_time := break_time self;
     participants := participants self; session_start := session_start self;
     is_running := is_running self; is_study_period := is_study_period self;
     monitor_task := pc |}.

(** [PomodoroSession(channel, interaction, duration, break_time)] *)
Definition new_session (c : Channel) (duration break_time : Z) : PomodoroSession :=
  {| channel := c; duration := duration; break_time := break_time;
     participants := []; session_start := None;
     is_running := true; is_study_period := false;
     monitor_task := MonitorNotCreated |}.

(** Lookup in a dict kept as an association list. *)
Fixpoint dict_get {V : Type} (k : Z) (d : list (Z * V)) : option V :=
  match d with
  | [] => None
  | (k', v) :: d' => if k' =? k then Some v else dict_get k d'
  end.

(** [[m for m in channel.members if not m.bot]] at the current epoch. *)
Definition non_bot_members (c : Channel) : M (list Member) :=
  get (fun w => filter (fun m => bot m = false) (presence env (epoch w) (channel_id c))).

(** A suspension point of a task ([await] of a send, an edit or a sleep). *)
Definition suspend : M unit := modify (fun w => set_epoch (S (epoch w)) w).

(** [await ....send(...)], also used for [edit]. *)
Definition send (n : Notice) : M unit :=
  modify (fun w => set_outbox (outbox w ++ [n]) w) ;;; suspend.

(** Record that the control flow of [start] enters a phase. *)
Definition enter (p : Phase) : M unit :=
  modify (fun w => set_phases (phases w ++ [p]) w).

Definition lift_result {A} (r : result A) : M A := fun w => (r, w).

Fixpoint get_user_org_from (rs : list Role) : string :=
  match rs with
  | [] => "None"
  | role :: rs' =>
      if bool_decide (role_name role ∈ ORGANIZATIONS) then role_name role
      else get_user_org_from rs'
  end.

Definition get_user_org (member : Member) : string := get_user_org_from (roles member).

Definition add_participant (member : Member) (self : PomodoroSession)
    : M PomodoroSession :=
  match dict_get (id member) (participants self) with
  | Some _ => ret self
  | None =>
      let org := get_user_org member in
      join_time <- now ;;
      match session_start self with
      | None => raise TypeError       (* datetime > None *)
      | Some started =>
          let data := {| Participant.user := member;
                         Participant.organization := org;
                         Participant.join_time := join_time;
                         Participant.late_join := dt_gt join_time started |} in
          ret (set_participants (participants self ++ [(id member, data)]) self)
      end
  end.

(** [for member in members: self.add_participant(member)] *)
Fixpoint add_participants (members : list Member) (self : PomodoroSession)
    : M PomodoroSession :=
  match members with
  | [] => ret self
  | member :: rest =>
      self <- add_participant member self ;;
      add_participants rest self
  end.

(** The [for member in current_members] loop of [monitor_late_joiners]. *)
Fixpoint scan_late_joiners (current_members : list Member) (self : PomodoroSession)
    : M PomodoroSession :=
  match current_members with
  | [] => ret self
  | member :: rest =>
      match dict_get (id member) (participants self) with
      | Some _ => scan_late_joiners rest self
      | None =>
          self <- add_participant member self ;;
          t <- now ;;
          match session_start self with
          | None => raise TypeError
          | Some started =>
              let minutes_late := minutes_between t started in
              let potential_credit := Z.max 0 (duration self - minutes_late) in
              send (LateWelcome member minutes_late potential_credit) ;;;
              scan_late_joiners rest self
          end
      end
  end.

(** One scheduling of the monitor task: the first evaluation of the loop
    guard, or the end of a [sleep(10)] followed by the scan and the next
    evaluation of the guard.  An exception ends the task only. *)
Definition monitor_guard (self : PomodoroSession) : MonitorPC :=
  if is_running self && is_study_period self then MonitorSleeping else MonitorDone.

Definition monitor_late_joiners_step (self : PomodoroSession) : M PomodoroSession :=
  match monitor_task self with
  | MonitorCreated => ret (set_monitor_task (monitor_guard self) self)
  | MonitorSleeping =>
      fun w =>
        match (current_members <- non_bot_members (channel self) ;;
               scan_late_joiners current_members self) w with
        | (Ok self', w') => (Ok (set_monitor_task (monitor_guard self') self'), w')
        | (Raise _, w') => (Ok (set_monitor_task MonitorDone self), w')
        end
  | _ => ret self
  end.

Fixpoint monitor_late_joiners (steps : nat) (self : PomodoroSession)
    : M PomodoroSession :=
  match steps with
  | O => ret self
  | S steps' =>
      self <- monitor_late_joiners_step self ;;
      monitor_late_joiners steps' self
  end.

(** The main task of the session is suspended; the monitor task runs as
    often as the environment lets it before the main task resumes. *)
Definition await (self : PomodoroSession) : M PomodoroSession :=
  suspend ;;;
  steps <- get (fun w => wakeups env (epoch w)) ;;
  monitor_late_joiners steps self.

Definition await_send (n : Notice) (self : PomodoroSession) : M PomodoroSession :=
  modify (fun w => set_outbox (outbox w ++ [n]) w) ;;;
  await self.

(** [range(0, stop, step)] for a positive step. *)
Definition py_range (stop step : Z) : list Z :=
  (fun i => Z.of_nat i * step) <$> seq 0 (Z.to_nat ((stop + step - 1) / step)).

Fixpoint study_ticks (total_sec : Z) (elapseds : list Z) (self : PomodoroSession)
    : M PomodoroSession :=
  match elapseds with
  | [] => ret self
  | elapsed :: rest =>
      if negb (is_running self) then ret self
      else
        let remaining := total_sec - elapsed in
        members <- non_bot_members (channel self) ;;
        let current_count := length members in
        self <- await_send (StudyTimerEdit remaining current_count) self ;;
        self <- await self ;;                 (* asyncio.sleep(min(update_int, remaining)) *)
        study_ticks total_sec rest self
  end.

Definition study_period (self : PomodoroSession) : M PomodoroSession :=
  enter Studying ;;;
  let self := set_is_study_period true self in
  self <- await_send StudyTimerPosted self ;;
  let total_sec := duration self * 60 in
  let update_int := 30 in
  self <- study_ticks total_sec (py_range total_sec update_int) self ;;
  let self := set_is_study_period false self in
  if is_running self then await_send StudyComplete self else ret self.

(** Lines 415-422 of [award_credit]: the minutes of a participant who is
    present at the end of the study period. *)
Definition minutes_to_award (data : Participant.t) (session_start : option datetime)
    (study_end : datetime) (duration : Z) : result Z :=
  let time_in_session := minutes_between study_end (Participant.join_time data) in
  let minutes_to_award := Z.min time_in_session duration in
  if Participant.late_join data then
    match session_start with
    | None => Raise TypeError
    | Some started =>
        let session_elapsed := minutes_between (Participant.join_time data) started in
        let max_possible := Z.max 0 (duration - session_elapsed) in
        Ok (Z.min minutes_to_award max_possible)
    end
  else Ok minutes_to_award.

Record AwardAcc := {
  credit_details : list Credit.t;
  awarded_users : list Member;
  left_early : Z
}.

(** The body of [for user_id, data in self.participants.items()]. *)
Definition award_one (self : PomodoroSession) (current : list Member)
    (study_end : datetime) (acc : AwardAcc) (item : Z * Participant.t) : M AwardAcc :=
  let '(user_id, data) := item in
  if existsb (fun m => id m =? user_id) current then
    let awarded := awarded_users acc ++ [Participant.user data] in
    minutes <- lift_result
      (minutes_to_award data (session_start self) study_end (duration self)) ;;
    if 0 <? minutes then
      t_month <- now ;;
      t_year <- now ;;
      let session_doc :=
        {| Doc.user_id := str user_id;
           Doc.username := name (Participant.user data);
           Doc.organization := Participant.organization data;
           Doc.session_start := Participant.join_time data;
           Doc.session_end := study_end;
           Doc.duration_minutes := minutes;
           Doc.month := dt_month t_month;
           Doc.year := dt_year t_year;
           Doc.channel_name := channel_name (channel self);
           Doc.late_join := Participant.late_join data;
           Doc.completed := true |} in
      save_study_session session_doc ;;;
      update_monthly_stats (Participant.organization data) minutes user_id
        (name (Participant.user data)) ;;;
      ret {| credit_details :=
               credit_details acc ++
               [{| Credit.user := Participant.user data; Credit.minutes := minutes;
                   Credit.late := Participant.late_join data |}];
             awarded_users := awarded; left_early := left_early acc |}
    else
      ret {| credit_details := credit_details acc; awarded_users := awarded;
             left_early := left_early acc |}
  else
    ret {| credit_details := credit_details acc; awarded_users := awarded_users acc;
           left_early := left_early acc + 1 |}.

Fixpoint award_all (self : PomodoroSession) (current : list Member)
    (study_end : datetime) (acc : AwardAcc) (items : list (Z * Participant.t))
    : M AwardAcc :=
  match items with
  | [] => ret acc
  | item :: rest =>
      acc <- award_one self current study_end acc item ;;
      award_all self current study_end acc rest
  end.

Definition award_credit (self : PomodoroSession) : M PomodoroSession :=
  if negb (is_running self) then ret self
  else
    enter Settling ;;;
    current <- non_bot_members (channel self) ;;
    study_end <- now ;;
    acc <- award_all self current study_end
             {| credit_details := []; awarded_users := []; left_early := 0 |}
             (participants self) ;;
    match awarded_users acc with
    | [] => ret self
    | _ :: _ =>
        await_send (CreditAwarded (sort_desc Credit.minutes (credit_details acc))
                      (left_early acc) (break_time self)) self
    end.

Fixpoint break_ticks (total_sec : Z) (elapseds : list Z) (self : PomodoroSession)
    : M PomodoroSession :=
  match elapseds with
  | [] => ret self
  | elapsed :: rest =>
      if negb (is_running self) then ret self
      else
        let remaining := total_sec - elapsed in
        self <- await_send (BreakTimerEdit remaining) self ;;
        self <- await self ;;                 (* asyncio.sleep(min(update_int, remaining)) *)
        break_ticks total_sec rest self
  end.

Definition break_period (self : PomodoroSession) : M PomodoroSession :=
  if negb (is_running self) then ret self
  else
    enter OnBreak ;;;
    current_members <- non_bot_members (channel self) ;;
    self <- await_send (BreakPosted current_members) self ;;
    let total_sec := break_time self * 60 in
    let update_int := 15 in
    self <- break_ticks total_sec (py_range total_sec update_int) self ;;
    if is_running self then
      final_members <- non_bot_members (channel self) ;;
      self <- await_send SessionComplete self ;;
      match final_members with
      | [] => ret self
      | _ :: _ => await_send (SessionFinished final_members) self
      end
    else ret self.

Definition start (self : PomodoroSession) : M PomodoroSession :=
  enter Starting ;;;
  members <- non_bot_members (channel self) ;;
  match members with
  | [] =>
      self <- await_send VoiceChannelEmpty self ;;
      enter Aborted ;;;
      ret self
  | _ :: _ =>
      t <- now ;;
      let self := set_session_start (Some t) self in
      self <- add_participants members self ;;
      self <- await_send (SessionStarted (length members) (duration self)
                            (break_time self)) self ;;
      let self := set_monitor_task MonitorCreated self in   (* asyncio.create_task *)
      self <- study_period self ;;
      self <- award_credit self ;;
      self <- break_period self ;;
      let self := set_is_running false self in
      let self := set_monitor_task MonitorDone self in      (* monitor_task.cancel() *)
      enter Completed ;;;
      ret self
  end.

(* =================================================================== *)
(** ** The /pomodoro command *)
(* =================================================================== *)

(** [interaction.user.voice]: the voice channel of the caller, if any. *)
Record Interaction := { user_voice : option Channel }.

Section Command.
  (** [session.start()], kept abstract so that the command can be
      studied for every behaviour of the session, raising included. *)
Context (session_start_method : PomodoroSession -> M PomodoroSession).

Definition pomodoro_slash (interaction : Interaction)
      (study_minutes break_minutes : Z) : M unit :=
    suspend ;;;                         (* await interaction.response.defer() *)
    match user_voice interaction with
    | None => send MustBeInVoice
    | Some channel =>
        non_bot_members <- non_bot_members channel ;;
        match non_bot_members with
        | [] => send (ChannelIsEmpty channel)
        | _ :: _ =>
            registry <- get active_sessions ;;
            if bool_decide (is_Some (registry !! channel_id channel)) then
              send (AlreadyActive channel)
            else if (study_minutes >? 120) || (study_minutes <? 1) then
              send StudyTimeRange
            else if (break_minutes >? 60) || (break_minutes <? 0) then
              send BreakTimeRange
            else
              let session := new_session channel study_minutes break_minutes in
              modify (fun w => set_active_sessions
                                 (<[channel_id channel := session]> (active_sessions w)) w) ;;;
              try_finally
                (session_start_method session ;;; ret tt)
                (modify (fun w =>
                   if bool_decide (is_Some (active_sessions w !! channel_id channel))
                   then set_active_sessions (delete (channel_id channel) (active_sessions w)) w
                   else w))
        end
    end.
End Command.

End Program.

(* =================================================================== *)
(** ** The /dashboard command *)
(* =================================================================== *)

(** A line of the field "Organizations": [idx] is the position among the
    sorted organizations (the medal for 0, 1 and 2, the number idx + 1
    after that). *)
Record OrgLine := {
  org_idx : nat;
  org_name : string;
  org_hours : Z;
  org_mins : Z
}.

(** A line of the field "Top Students". *)
Record StudentLine := {
  student_idx : nat;
  student_name : string;
  student_org : string;
  student_hours : Z;
  student_mins : Z
}.

(** What the command answers: "No data yet!", or the embed with its
    description (month and year) and its two fields; a field without a
    line is not added. *)
Inductive Dashboard :=
| NoDataYet
| Competition (description : month_id) (organizations : list OrgLine)
    (top_students : list StudentLine).

Definition org_minutes (item : string * OrgStats) : Z := total_minutes (snd item).

(** [for idx, (org, data) in enumerate(sorted_orgs[:10])], from [idx] on. *)
Fixpoint org_lines (idx : nat) (sorted_orgs : list (string * OrgStats)) : list OrgLine :=
  match sorted_orgs with
  | [] => []
  | (org, data) :: rest =>
      (if 0 <? total_minutes data
       then [{| org_idx := idx; org_name := org;
                org_hours := total_minutes data / 60;
                org_mins := total_minutes data mod 60 |}]
       else [])
      ++ org_lines (S idx) rest
  end.

(** [for i, s in enumerate(stats['top_individuals'][:3]) if s['minutes'] > 0] *)
Fixpoint student_lines (i : nat) (top : list Ind.t) : list StudentLine :=
  match top with
  | [] => []
  | s :: rest =>
      (if 0 <? Ind.minutes s
       then [{| student_idx := i; student_name := Ind.username s;
                student_org := Ind.org s;
                student_hours := Ind.minutes s / 60;
                student_mins := Ind.minutes s mod 60 |}]
       else [])
      ++ student_lines (S i) rest
  end.

Section Dashboard.
Context (env : Env).

(** The order in which a dict of organizations is iterated is the order
    of its insertions, which the finite map does not keep: [dict_items]
    gives the items of the dict in that order. *)
Context (dict_items : gmap string OrgStats -> list (string * OrgStats)).

Definition dashboard_slash : M Dashboard :=
  t <- now env ;;
  let month_id := strftime_Ym t in
  stats <- get_monthly_stats env month_id ;;
  if negb (existsb (fun d => 0 <? total_minutes d)
             (snd <$> dict_items (Stats.organizations stats)))
  then
    suspend ;;;
    ret NoDataYet
  else
    t' <- now env ;;
    let sorted_orgs := sort_desc org_minutes (dict_items (Stats.organizations stats)) in
    let leaderboard := org_lines 0 (take 10 sorted_orgs) in
    let top := student_lines 0 (take 3 (Stats.top_individuals stats)) in
    suspend ;;;
    ret (Competition (strftime_Ym t') leaderboard top).
End Dashboard.

(* ===================================================================== *)
(** ** Vocabulary of the specification *)
(* ===================================================================== *)

(** Credit Accountant, as the specification words it (times in
    microseconds, [/] is the floor division). *)
Definition credit_formula (join_time session_start study_end : Z) (late_join : bool)
    (studyMinutes : Z) : Z :=
  let time_in_session_minutes := (study_end - join_time) / 60000000 in
  let minutes := Z.min time_in_session_minutes studyMinutes in
  if late_join then
    let session_elapsed_at_join := (join_time - session_start) / 60000000 in
    let max_possible := Z.max 0 (studyMinutes - session_elapsed_at_join) in
    Z.min minutes max_possible
  else minutes.

(** The sum that [get_user_monthly_total] computes: over the files whose
    NAME passes the test of [get_user_sessions]. *)
Definition selected_total (files : gmap string Doc.t) (user_id : Z) (mid : month_id) : Z :=
  sum (Doc.duration_minutes <$>
       (snd <$> filter (fun f => session_file_selected user_id (Some (fst mid))
                                   (Some (snd mid)) (fst f) = true)
                  (map_to_list files))).

(** The sum that the specification words: over the persisted records OF
    the user for the month. *)
Definition records_total (files : gmap string Doc.t) (user_id : Z) (mid : month_id) : Z :=
  sum (Doc.duration_minutes <$>
       filter (fun d => Doc.user_id d = str user_id /\
                        Doc.year d = fst mid /\ Doc.month d = snd mid)
         (snd <$> map_to_list files)).

(** The aggregate that [update_monthly_stats] starts from. *)
Definition loaded_stats (env : Env) (w : World) (mid : month_id) : Stats.t :=
  match monthly_stats w !! mid with
  | Some stats => stats
  | None => default_stats mid (clock env (S (ticks w)))
  end.

Definition org_total (stats : Stats.t) (org : string) : Z :=
  match Stats.organizations stats !! org with
  | Some o => total_minutes o
  | None => 0
  end.

Definition descending {A : Type} (key : A -> Z) (a b : A) : Prop := key b <= key a.

(** The invariant of [top_individuals]. *)
Definition leaderboard_ok (top : list Ind.t) : Prop :=
  (length top <= 100)%nat /\
  NoDup (Ind.user_id <$> top) /\
  StronglySorted (descending Ind.minutes) top.

Definition leaderboards_ok (w : World) : Prop :=
  forall mid stats, monthly_stats w !! mid = Some stats ->
                    leaderboard_ok (Stats.top_individuals stats).

(** Calls on the database, to speak of any number of them in any order. *)
Inductive DbCall :=
| SaveSession (session_data : Doc.t)
| FoldSession (org : string) (minutes : Z) (user_id : Z) (username : string).

Definition db_call (env : Env) (c : DbCall) : M bool :=
  match c with
  | SaveSession d => save_study_session env d
  | FoldSession org minutes user_id username =>
      update_monthly_stats env org minutes user_id username
  end.

Fixpoint db_calls (env : Env) (cs : list DbCall) : M unit :=
  match cs with
  | [] => ret tt
  | c :: cs' => db_call env c ;;; db_calls env cs'
  end.

(** The errors of [startSession]; [NotInVoice] is the rejection of a
    caller who is in no voice channel. *)
Inductive StartError := InvalidConfig | ChannelEmpty | Conflict | NotInVoice.

Definition start_error (n : Notice) : option StartError :=
  match n with
  | MustBeInVoice => Some NotInVoice
  | ChannelIsEmpty _ => Some ChannelEmpty
  | AlreadyActive _ => Some Conflict
  | StudyTimeRange | BreakTimeRange => Some InvalidConfig
  | _ => None
  end.

(** The occupants that [pomodoro_slash] sees: the snapshot after its first
    suspension. *)
Definition occupants_at_command (env : Env) (w : World) (c : Channel) : list Member :=
  filter (fun m => bot m = false) (presence env (S (epoch w)) (channel_id c)).

(** The occupants that [start] sees when it is called in [w]. *)
Definition occupants_at_start (env : Env) (w : World) (c : Channel) : list Member :=
  filter (fun m => bot m = false) (presence env (epoch w) (channel_id c)).

(** The world after a command that did nothing but send the notice [n]. *)
Definition only_notified (n : Notice) (w : World) : World :=
  set_epoch (S (S (epoch w))) (set_outbox (outbox w ++ [n]) w).

(** The world in which the session of an admitted command starts. *)
Definition admitted_world (c : Channel) (study_minutes break_minutes : Z) (w : World)
    : World :=
  set_active_sessions
    (<[channel_id c := new_session c study_minutes break_minutes]> (active_sessions w))
    (set_epoch (S (epoch w)) w).

(** The [finally] block of [pomodoro_slash]. *)
Definition retire (c : Channel) : M unit :=
  modify (fun w =>
    if bool_decide (is_Some (active_sessions w !! channel_id c))
    then set_active_sessions (delete (channel_id c) (active_sessions w)) w
    else w).

(** [m] run in [w] returns normally, with a value and a world that satisfy [Q]. *)
Definition returns {A} (m : M A) (w : World) (Q : A -> World -> Prop) : Prop :=
  exists a w', m w = (Ok a, w') /\ Q a w'.

(** What the monitor task and the timers leave alone. *)
Definition stable (self : PomodoroSession) (w : World)
    (self' : PomodoroSession) (w' : World) : Prop :=
  channel self' = channel self /\ duration self' = duration self /\
  break_time self' = break_time self /\ session_start self' = session_start self /\
  is_running self' = is_running self /\ is_study_period self' = is_study_period self /\
  (forall uid data, dict_get uid (participants self) = Some data ->
                    dict_get uid (participants self') = Some data) /\
  study_sessions w' = study_sessions w /\ monthly_stats w' = monthly_stats w /\
  active_sessions w' = active_sessions w /\ phases w' = phases w.

(** What every step of [start] leaves alone once the participants are seeded. *)
Definition carries (self self' : PomodoroSession) : Prop :=
  channel self' = channel self /\ duration self' = duration self /\
  break_time self' = break_time self /\ session_start self' = session_start self /\
  is_running self' = is_running self /\
  (forall uid data, dict_get uid (participants self) = Some data ->
                    dict_get uid (participants self') = Some data).

(** The character [c] does not occur in [s]. *)
Fixpoint lacks (c : ascii) (s : string) : Prop :=
  match s with
  | EmptyString => True
  | String a s' => a <> c /\ lacks c s'
  end.

Definition is_digit (a : ascii) : bool :=
  ((48 <=? nat_of_ascii a) && (nat_of_ascii a <=? 57))%nat.

Fixpoint digits (s : string) : Prop :=
  match s with
  | EmptyString => True
  | String a s' => is_digit a = true /\ digits s'
  end.

(** The two halves of [strftime("%Y%m%d_%H%M%S")]. *)
Definition stamp_date (t : datetime) : string :=
  str (dt_year t) +:+ fmt02d (dt_month t) +:+ fmt02d (dt_day t).

Definition stamp_time (t : datetime) : string :=
  fmt02d (dt_hour t) +:+ fmt02d (dt_minute t) +:+ fmt02d (dt_second t).

Definition calendar_ok (t : datetime) : Prop :=
  0 <= dt_year t /\ 0 <= dt_month t /\ 0 <= dt_day t /\
  0 <= dt_hour t /\ 0 <= dt_minute t /\ 0 <= dt_second t.

(** Every stored file was written by [save_study_session], for some user
    and at some time whose date does not print as [user_id]. *)
Definition written_for_others_dates (user_id : Z) (files : gmap string Doc.t) : Prop :=
  forall file_name d, files !! file_name = Some d ->
    exists owner t,
      file_name = session_file_name d (strftime_stamp t) /\
      0 <= owner /\ Doc.user_id d = str owner /\
      0 <= Doc.year d /\ 1 <= Doc.month d <= 12 /\
      0 <= dt_day (Doc.session_start d) /\ calendar_ok t /\
      str user_id <> stamp_date t.

(** A Discord id is a snowflake: the milliseconds since the start of 2015
    shifted left by 22 bits.  From the first second of 2015 on it prints
    with ten digits or more; nine are enough here. *)
Definition snowflake (user_id : Z) : Prop := 100000000 <= user_id.

(** The fields of a [datetime] (years 1 to 9999). *)
Definition calendar_date (t : datetime) : Prop :=
  1 <= dt_year t <= 9999 /\ 1 <= dt_month t <= 12 /\ 1 <= dt_day t <= 31 /\
  0 <= dt_hour t <= 23 /\ 0 <= dt_minute t <= 59 /\ 0 <= dt_second t <= 59.

(** Every stored file was written by [save_study_session], for some user
    and at some time. *)
Definition written_by_save (files : gmap string Doc.t) : Prop :=
  forall file_name d, files !! file_name = Some d ->
    exists owner t,
      file_name = session_file_name d (strftime_stamp t) /\
      0 <= owner /\ Doc.user_id d = str owner /\
      0 <= Doc.year d /\ 1 <= Doc.month d <= 12 /\
      0 <= dt_day (Doc.session_start d) /\ calendar_date t.

(* ===================================================================== *)
(** ** Vocabulary of the further properties *)
(* ===================================================================== *)

(** A file that [save_study_session] wrote for the user [owner]. *)
Definition written_for (owner : Z) (file_name : string) (d : Doc.t) : Prop :=
  exists t,
    file_name = session_file_name d (strftime_stamp t) /\
    0 <= owner /\ Doc.user_id d = str owner /\
    0 <= Doc.year d /\ 1 <= Doc.month d <= 12 /\
    0 <= dt_day (Doc.session_start d) /\ calendar_ok t.

(** A participant record as [add_participant] makes it for [m]. *)
Definition record_of (m : Member) (uid : Z) (data : Participant.t) : Prop :=
  uid = id m /\ Participant.user data = m /\
  Participant.organization data = get_user_org m.

(** Every participant is a non-bot member, filed under the member's id
    with the organization of the member's roles. *)
Definition participants_ok (self : PomodoroSession) : Prop :=
  Forall (fun kv => bot (Participant.user (snd kv)) = false /\
                    fst kv = id (Participant.user (snd kv)) /\
                    Participant.organization (snd kv) =
                      get_user_org (Participant.user (snd kv)))
         (participants self).

(** What every step of a session keeps. *)
Definition flows (self : PomodoroSession) (w : World)
    (self' : PomodoroSession) (w' : World) : Prop :=
  carries self self' /\
  (participants_ok self -> participants_ok self') /\
  (leaderboards_ok w -> leaderboards_ok w') /\
  active_sessions w' = active_sessions w.

(** The tallies of the loop of [award_credit] over [n] participants:
    everyone is counted once, as awarded or as left early, and a credit
    line is written for awarded users only and within the study time. *)
Definition tallies_step (self : PomodoroSession) (n : nat) (acc acc' : AwardAcc) : Prop :=
  Z.of_nat (length (awarded_users acc')) + left_early acc' =
    Z.of_nat (length (awarded_users acc)) + left_early acc + Z.of_nat n /\
  left_early acc <= left_early acc' /\
  (length (credit_details acc') + length (awarded_users acc) <=
   length (awarded_users acc') + length (credit_details acc))%nat /\
  (Forall (fun c => 0 < Credit.minutes c <= duration self) (credit_details acc) ->
   Forall (fun c => 0 < Credit.minutes c <= duration self) (credit_details acc')).

(** A record that the settlement writes for one of [items] who is in
    [current] at [study_end]. *)
Definition settled_record (self : PomodoroSession) (current : list Member)
    (study_end : datetime) (items : list (Z * Participant.t)) (d : Doc.t) : Prop :=
  exists user_id data,
    (user_id, data) ∈ items /\
    existsb (fun m => id m =? user_id) current = true /\
    Doc.user_id d = str user_id /\
    Doc.session_start d = Participant.join_time data /\
    Doc.session_end d = study_end /\
    Doc.late_join d = Participant.late_join data /\
    Doc.organization d = Participant.organization data /\
    0 < Doc.duration_minutes d <= duration self.

(** The remaining seconds that the study timer and the break timer were
    edited to, oldest first. *)
Definition study_timer_values (o : list Notice) : list Z :=
  omap (fun n => match n with StudyTimerEdit r _ => Some r | _ => None end) o.

Definition break_timer_values (o : list Notice) : list Z :=
  omap (fun n => match n with BreakTimerEdit r => Some r | _ => None end) o.

(** The notices of the monitor task. *)
Definition is_welcome (n : Notice) : Prop :=
  match n with LateWelcome _ _ _ => True | _ => False end.

(** The outbox grew by welcome notices only. *)
Definition welcomed (w w' : World) : Prop :=
  exists l, outbox w' = outbox w ++ l /\ Forall is_welcome l.

(** The minutes that a line of the dashboard shows. *)
Definition org_line_minutes (l : OrgLine) : Z := org_hours l * 60 + org_mins l.

Definition student_line_minutes (l : StudentLine) : Z :=
  student_hours l * 60 + student_mins l.

(** [dict_items] lists the items of every dict, in some order. *)
Definition lists_items (dict_items : gmap string OrgStats -> list (string * OrgStats))
    : Prop :=
  forall orgs, dict_items orgs ≡ₚ map_to_list orgs.

(* ===================================================================== *)
(** ** Scenarios *)
(* ===================================================================== *)

Definition on_3_may (us hh mm : Z) : datetime :=
  {| micros := us; dt_year := 2024; dt_month := 5; dt_day := 3;
     dt_hour := hh; dt_minute := mm; dt_second := 0 |}.

Definition alice : Member :=
  {| id := 7; bot := false; name := "alice"; roles := [{| role_name := "VTK" |}] |}.

Definition bob : Member :=
  {| id := 20240503; bot := false; name := "bob"; roles := [{| role_name := "Wina" |}] |}.

Definition library : Channel := {| channel_id := 1; channel_name := "library" |}.

(** Alice and Bob sit in the library on 3 May 2024.  The session starts at
    14:15; the clock advances by a microsecond from one reading to the
    next, and by 25 minutes during the study period. *)
Definition library_env : Env :=
  {| clock := fun n => if (n <? 3)%nat then on_3_may (Z.of_nat n) 14 15
                       else on_3_may (1500000000 + Z.of_nat n) 14 40;
     presence := fun _ _ => [alice; bob];
     wakeups := fun _ => 1%nat |}.

(** Alice is in the library when the session starts and leaves at once:
    the channel is empty from the first suspension on. *)
Definition deserted_env : Env :=
  {| clock := fun n => on_3_may (Z.of_nat n) 14 15;
     presence := fun e _ => match e with O => [alice] | S _ => [] end;
     wakeups := fun _ => 1%nat |}.

(** Nobody is ever in the library. *)
Definition empty_env : Env :=
  {| clock := fun n => on_3_may (Z.of_nat n) 14 15;
     presence := fun _ _ => [];
     wakeups := fun _ => 0%nat |}.

(** A participant who joined ten minutes after the start of the session. *)
Definition ten_minutes_late : Participant.t :=
  {| Participant.user := bob; Participant.organization := "Wina";
     Participant.join_time := on_3_may 600000000 14 25;
     Participant.late_join := true |}.

(** A session of 25 minutes started at 14:15 that knows Bob. *)
Definition running_session : PomodoroSession :=
  {| channel := library; duration := 25; break_time := 5;
     participants := [(id bob, ten_minutes_late)];
     session_start := Some (on_3_may 0 14 15);
     is_running := true; is_study_period := true;
     monitor_task := MonitorSleeping |}.

(** A participant found by the last scan, seconds before the study period ends. *)
Definition joined_at_the_end : Participant.t :=
  {| Participant.user := alice; Participant.organization := "VTK";
     Participant.join_time := on_3_may 1490000000 14 39;
     Participant.late_join := true |}.

Definition empty_acc : AwardAcc :=
  {| credit_details := []; awarded_users := []; left_early := 0 |}.

(** Alice's record of the whole study period, and of a shorter stay. *)
Definition alice_record : Doc.t :=
  {| Doc.user_id := "7"; Doc.username := "alice"; Doc.organization := "VTK";
     Doc.session_start := on_3_may 0 14 15; Doc.session_end := on_3_may 1500000000 14 40;
     Doc.duration_minutes := 25; Doc.month := 5; Doc.year := 2024;
     Doc.channel_name := "library"; Doc.late_join := false; Doc.completed := true |}.

Definition alice_short_record : Doc.t :=
  {| Doc.user_id := "7"; Doc.username := "alice"; Doc.organization := "VTK";
     Doc.session_start := on_3_may 0 14 15; Doc.session_end := on_3_may 600000000 14 25;
     Doc.duration_minutes := 10; Doc.month := 5; Doc.year := 2024;
     Doc.channel_name := "library"; Doc.late_join := false; Doc.completed := true |}.

Definition bob_record : Doc.t :=
  {| Doc.user_id := "20240503"; Doc.username := "bob"; Doc.organization := "Wina";
     Doc.session_start := on_3_may 0 14 15; Doc.session_end := on_3_may 1500000000 14 40;
     Doc.duration_minutes := 25; Doc.month := 5; Doc.year := 2024;
     Doc.channel_name := "library"; Doc.late_join := false; Doc.completed := true |}.

(** The database that holds Bob's record and nothing else. *)
Definition bobs_file : string :=
  session_file_name bob_record (strftime_stamp (on_3_may 0 14 15)).

Definition after_bobs_save : World :=
  set_study_sessions {[ bobs_file := bob_record ]} initial_world.

(** A leaderboard of a hundred members with 50 minutes each. *)
Definition full_board : list Ind.t :=
  (fun i => {| Ind.user_id := str (1000 + Z.of_nat i); Ind.username := "member";
               Ind.org := "VTK"; Ind.minutes := 50 |}) <$> seq 0 100.

Definition full_board_world : World :=
  set_monthly_stats
    {[ (2024, 5) := {| Stats._id := (2024, 5); Stats.organizations := ∅;
                       Stats.top_individuals := full_board;
                       Stats.last_updated := on_3_may 0 14 15 |} ]}
    initial_world.

(** A participant seeded at the start of the session, and one whom
    [add_participant] recorded a microsecond after the start. *)
Definition on_time : Participant.t :=
  {| Participant.user := alice; Participant.organization := "VTK";
     Participant.join_time := on_3_may 0 14 15;
     Participant.late_join := false |}.

Definition seeded_a_microsecond_late : Participant.t :=
  {| Participant.user := alice; Participant.organization := "VTK";
     Participant.join_time := on_3_may 1 14 15;
     Participant.late_join := true |}.

(** The statistics of May 2024 after Alice's session. *)
Definition may_stats : Stats.t :=
  {| Stats._id := (2024, 5);
     Stats.organizations := {[ "VTK"%string := {| total_minutes := 25 |} ]};
     Stats.top_individuals :=
       [{| Ind.user_id := "7"; Ind.username := "alice"; Ind.org := "VTK";
           Ind.minutes := 25 |}];
     Stats.last_updated := on_3_may 1500000000 14 40 |}.

Definition world_in_may : World :=
  set_monthly_stats {[ (2024, 5) := may_stats ]} initial_world.

(** Carol and Dave, with ids as Discord gives them, sit in the library on
    3 May 2024 under the clock of [library_env]. *)
Definition carol : Member :=
  {| id := 1235813213455891442; bot := false; name := "carol";
     roles := [{| role_name := "VTK" |}] |}.

Definition dave : Member :=
  {| id := 1235813213455891443; bot := false; name := "dave";
     roles := [{| role_name := "Wina" |}] |}.

Definition reading_room_env : Env :=
  {| clock := clock library_env;
     presence := fun _ _ => [carol; dave];
     wakeups := fun _ => 1%nat |}.

(** The database after their session of 25 minutes. *)
Definition after_reading_room : World :=
  snd (start reading_room_env (new_session library 25 5) initial_world).

(* ===================================================================== *)
(** ** Rules for running the monad *)
(* ===================================================================== *)

Lemma returns_ret {A} (a : A) w (Q : A -> World -> Prop) : Q a w -> returns (ret a) w Q.
Proof. intros H. exists a, w. split; [reflexivity | exact H]. Qed.

Lemma returns_bind {A B} (m : M A) (k : A -> M B) w (Q : B -> World -> Prop) :
  returns m w (fun a w' => returns (k a) w' Q) -> returns (bind m k) w Q.
Proof.
  intros (a & w' & Hm & b & w'' & Hk & HQ).
  exists b, w''. split; [| exact HQ]. unfold bind. rewrite Hm. exact Hk.
Qed.

Lemma returns_get {A} (f : World -> A) w (Q : A -> World -> Prop) :
  Q (f w) w -> returns (get f) w Q.
Proof. intros H. exists (f w), w. split; [reflexivity | exact H]. Qed.

Lemma returns_modify (f : World -> World) w (Q : unit -> World -> Prop) :
  Q tt (f w) -> returns (modify f) w Q.
Proof. intros H. exists tt, (f w). split; [reflexivity | exact H]. Qed.

Lemma returns_weaken {A} (m : M A) w (P Q : A -> World -> Prop) :
  returns m w P -> (forall a w', P a w' -> Q a w') -> returns m w Q.
Proof. intros (a & w' & Hm & HP) HPQ. exists a, w'. split; [exact Hm | auto]. Qed.

(** Run a sub-computation by a lemma about it, then continue. *)
Ltac step_by lem :=
  first [apply returns_bind | idtac];
  eapply returns_weaken; [solve [apply lem; eauto] |]; cbn beta.

Lemma stable_refl self w : stable self w self w.
Proof. unfold stable. repeat split; auto. Qed.

Lemma stable_trans s1 w1 s2 w2 s3 w3 :
  stable s1 w1 s2 w2 -> stable s2 w2 s3 w3 -> stable s1 w1 s3 w3.
Proof.
  unfold stable. intros (?&?&?&?&?&?&HP&?&?&?&?) (?&?&?&?&?&?&HP'&?&?&?&?).
  repeat split; try congruence. intros uid data H'. apply HP', HP, H'.
Qed.

Lemma carries_refl self : carries self self.
Proof. unfold carries. repeat split; auto. Qed.

Lemma stable_carries self w self' w' : stable self w self' w' -> carries self self'.
Proof. unfold stable, carries. intros (?&?&?&?&?&?&?&?). repeat split; auto. Qed.

Lemma dict_get_app {V} (k : Z) (d1 d2 : list (Z * V)) :
  dict_get k (d1 ++ d2) =
  match dict_get k d1 with Some v => Some v | None => dict_get k d2 end.
Proof.
  induction d1 as [| [k' v] d1 IH]; simpl; [reflexivity |].
  destruct (k' =? k); [reflexivity | exact IH].
Qed.

(* ===================================================================== *)
(** ** The database: what each call computes *)
(* ===================================================================== *)

Section Runs.
Context (env : Env).

Lemma save_study_session_run d w :
  save_study_session env d w =
  (Ok true,
   set_study_sessions
     (<[session_file_name d (strftime_stamp (clock env (ticks w))) := d]> (study_sessions w))
     (set_ticks (S (ticks w)) w)).
Proof. reflexivity. Qed.

Lemma get_user_monthly_total_run uid mid w :
  get_user_monthly_total uid mid w = (Ok (selected_total (study_sessions w) uid mid), w).
Proof. destruct mid as [y m]. reflexivity. Qed.

Lemma update_monthly_stats_run org minutes uid uname w :
  let mid := strftime_Ym (clock env (ticks w)) in
  let stats := loaded_stats env w mid in
  exists n t,
    update_monthly_stats env org minutes uid uname w =
    (Ok true,
     set_monthly_stats
       (<[mid := {| Stats._id := Stats._id stats;
                    Stats.organizations := add_org_minutes org minutes (Stats.organizations stats);
                    Stats.top_individuals :=
                      upsert_individual
                        {| Ind.user_id := str uid; Ind.username := uname; Ind.org := org;
                           Ind.minutes := selected_total (study_sessions w) uid mid |}
                        (Stats.top_individuals stats);
                    Stats.last_updated := t |}]> (monthly_stats w))
       (set_ticks n w)).
Proof.
  intros mid stats. subst stats. unfold loaded_stats, update_monthly_stats, bind, now.
  unfold get_monthly_stats, bind, get. cbn [ticks set_ticks monthly_stats].
  fold mid.
  destruct (monthly_stats w !! mid) as [s|] eqn:E.
  - exists (S (S (ticks w))), (clock env (S (ticks w))).
    unfold ret. rewrite get_user_monthly_total_run. reflexivity.
  - exists (S (S (S (ticks w)))), (clock env (S (S (ticks w)))).
    unfold now, ret. rewrite get_user_monthly_total_run. reflexivity.
Qed.

End Runs.

(* ===================================================================== *)
(** ** The stable sort and the leaderboard *)
(* ===================================================================== *)

Section Sorting.
Context {A : Type} (key : A -> Z).

Lemma insert_desc_perm x l : insert_desc key x l ≡ₚ x :: l.
Proof.
  induction l as [| y l IH]; simpl; [reflexivity |].
  destruct (key y <=? key x); [reflexivity |].
  rewrite IH. apply perm_swap.
Qed.

Lemma sort_desc_perm l : sort_desc key l ≡ₚ l.
Proof.
  induction l as [| x l IH]; simpl; [reflexivity |].
  rewrite insert_desc_perm. f_equiv. exact IH.
Qed.

Lemma insert_desc_sorted x l :
  StronglySorted (descending key) l -> StronglySorted (descending key) (insert_desc key x l).
Proof.
  induction l as [| y l IH]; simpl; intros Hs.
  - constructor; [constructor | constructor].
  - apply StronglySorted_inv in Hs as [Hl Hy].
    destruct (key y <=? key x) eqn:E.
    + apply Z.leb_le in E. constructor; [constructor; assumption |].
      constructor; [exact E |].
      eapply Forall_impl; [exact Hy |]. intros z Hz. unfold descending in *. lia.
    + apply Z.leb_gt in E. constructor; [apply IH, Hl |].
      rewrite insert_desc_perm. constructor; [unfold descending; lia | exact Hy].
Qed.

Lemma sort_desc_sorted l : StronglySorted (descending key) (sort_desc key l).
Proof.
  induction l as [| x l IH]; simpl; [constructor |].
  apply insert_desc_sorted, IH.
Qed.

Lemma take_sorted n : forall l,
  StronglySorted (descending key) l -> StronglySorted (descending key) (take n l).
Proof.
  induction n as [| n IH]; intros [| x l] Hs; simpl; try constructor.
  - apply IH. apply StronglySorted_inv in Hs. tauto.
  - apply StronglySorted_inv in Hs as [_ Hx]. apply Forall_take, Hx.
Qed.

End Sorting.

Lemma sorted_app_inv {A} (key : A -> Z) (l1 l2 : list A) :
  StronglySorted (descending key) (l1 ++ l2) ->
  StronglySorted (descending key) l1 /\
  forall x y, x ∈ l1 -> y ∈ l2 -> key y <= key x.
Proof.
  induction l1 as [| a l1 IH]; cbn; intros Hs.
  - split; [constructor | intros x y Hx; inversion Hx].
  - apply StronglySorted_inv in Hs as [Hs Ha]. destruct (IH Hs) as [Hl1 Hcross].
    apply Forall_app in Ha as [Ha1 Ha2]. split; [constructor; assumption |].
    intros x y Hx Hy. apply elem_of_cons in Hx as [-> | Hx]; [| apply Hcross; assumption].
    rewrite Forall_forall in Ha2. apply Ha2, Hy.
Qed.

Lemma filter_other_users_NoDup entry (top : list Ind.t) :
  NoDup (Ind.user_id <$> top) ->
  NoDup (Ind.user_id <$> filter (fun ind => Ind.user_id ind <> Ind.user_id entry) top).
Proof.
  induction top as [| x top IH]; simpl; intros Hnd; [constructor |].
  apply NoDup_cons in Hnd as [Hx Hnd]. rewrite filter_cons.
  destruct (decide (Ind.user_id x <> Ind.user_id entry)); [| auto].
  simpl. apply NoDup_cons. split; [| auto].
  intros Hin. apply Hx. apply list_elem_of_fmap in Hin as (y & -> & Hy).
  apply list_elem_of_fmap. exists y. split; [reflexivity |].
  apply list_elem_of_filter in Hy. tauto.
Qed.

Lemma upsert_individual_ok entry top :
  NoDup (Ind.user_id <$> top) -> leaderboard_ok (upsert_individual entry top).
Proof.
  intros Hnd. unfold upsert_individual, leaderboard_ok. split; [| split].
  - rewrite length_take. lia.
  - rewrite fmap_take. eapply sublist_NoDup; [| apply sublist_take].
    rewrite sort_desc_perm, fmap_app. simpl.
    apply NoDup_app. split; [| split].
    + apply filter_other_users_NoDup, Hnd.
    + intros u Hu Hin. apply list_elem_of_fmap in Hu as (y & -> & Hy).
      apply list_elem_of_filter in Hy as [Hne _].
      apply list_elem_of_singleton in Hin. contradiction.
    + apply NoDup_singleton.
  - apply take_sorted, sort_desc_sorted.
Qed.

(** The entry of a user on the board after the upsert is the new one. *)
Lemma upsert_individual_entry entry top ind :
  ind ∈ upsert_individual entry top -> Ind.user_id ind = Ind.user_id entry -> ind = entry.
Proof.
  unfold upsert_individual. intros Hin Hid.
  apply (fun H => elem_of_sublist _ _ _ H (sublist_take _ _)) in Hin.
  rewrite sort_desc_perm in Hin. apply elem_of_app in Hin as [Hin | Hin].
  - apply list_elem_of_filter in Hin as [Hne _]. contradiction.
  - apply list_elem_of_singleton in Hin. exact Hin.
Qed.

Lemma add_org_minutes_lookup org minutes orgs :
  add_org_minutes org minutes orgs !! org =
  Some {| total_minutes :=
            match orgs !! org with Some o => total_minutes o | None => 0 end + minutes |}.
Proof.
  unfold add_org_minutes. destruct (orgs !! org) as [o|] eqn:E.
  - rewrite lookup_alter_eq, E. reflexivity.
  - rewrite lookup_alter_eq, lookup_insert_eq. reflexivity.
Qed.

Lemma add_org_minutes_other org minutes orgs other :
  other <> org -> add_org_minutes org minutes orgs !! other = orgs !! other.
Proof.
  intros Hne. unfold add_org_minutes. rewrite lookup_alter_ne by congruence.
  destruct (orgs !! org); [reflexivity |]. apply lookup_insert_ne. congruence.
Qed.

(* ===================================================================== *)
(** ** The participant set, the monitor task and the timers *)
(* ===================================================================== *)

Section Frame.
Context (env : Env).

Lemma add_participant_known member self w :
  is_Some (dict_get (id member) (participants self)) ->
  add_participant env member self w = (Ok self, w).
Proof. intros [data H]. unfold add_participant. rewrite H. reflexivity. Qed.

(** The record that [add_participant] makes for a member it does not know:
    the join time is a fresh reading of the clock, and the flag compares
    it with the start of the session. *)
Lemma add_participant_new member self started w :
  dict_get (id member) (participants self) = None ->
  session_start self = Some started ->
  add_participant env member self w =
  (Ok (set_participants
         (participants self ++
          [(id member,
            {| Participant.user := member;
               Participant.organization := get_user_org member;
               Participant.join_time := clock env (ticks w);
               Participant.late_join := dt_gt (clock env (ticks w)) started |})]) self),
   set_ticks (S (ticks w)) w).
Proof. intros Hget Hs. unfold add_participant. rewrite Hget. unfold bind, now. rewrite Hs. reflexivity. Qed.

(** Whatever [add_participant] does, a participant already recorded keeps
    the record of the first join. *)
Lemma add_participant_stable member self w r w' :
  add_participant env member self w = (r, w') ->
  study_sessions w' = study_sessions w /\ monthly_stats w' = monthly_stats w /\
  active_sessions w' = active_sessions w /\ phases w' = phases w /\
  match r with
  | Ok self' => stable self w self' w' /\ monitor_task self' = monitor_task self
  | Raise _ => session_start self = None
  end.
Proof.
  unfold add_participant.
  destruct (dict_get (id member) (participants self)) as [data|] eqn:Hget.
  - intros [= <- <-]. repeat split; auto.
  - unfold bind, now. destruct (session_start self) as [started|] eqn:Hs.
    + intros [= <- <-]. unfold stable, set_participants; cbn -[dict_get].
      repeat split; auto.
      intros uid data H. rewrite dict_get_app, H. reflexivity.
    + intros [= <- <-]. cbn. repeat split; auto.
Qed.

Lemma add_participant_returns member self w :
  is_Some (session_start self) ->
  returns (add_participant env member self) w
    (fun self' w' => stable self w self' w' /\ monitor_task self' = monitor_task self).
Proof.
  intros [started Hs].
  destruct (add_participant env member self w) as [r w'] eqn:E.
  pose proof (add_participant_stable _ _ _ _ _ E) as (?&?&?&?&Hr).
  destruct r as [self'|e]; [| congruence].
  exists self', w'. destruct Hr. auto.
Qed.

Lemma add_participants_returns members : forall self w,
  is_Some (session_start self) ->
  returns (add_participants env members self) w
    (fun self' w' => stable self w self' w' /\ monitor_task self' = monitor_task self).
Proof.
  induction members as [| member rest IH]; intros self w Hs; simpl.
  - apply returns_ret. split; [apply stable_refl | reflexivity].
  - step_by add_participant_returns.
    intros s1 w1 (St1 & Hm1).
    assert (Hs1 : is_Some (session_start s1)).
    { destruct St1 as (_&_&_&E&_). rewrite E. exact Hs. }
    eapply returns_weaken; [apply IH; exact Hs1 |].
    intros s2 w2 (St2 & Hm2). split; [eapply stable_trans; eauto | congruence].
Qed.

Lemma send_run n w :
  send n w = (Ok tt, set_epoch (S (epoch w)) (set_outbox (outbox w ++ [n]) w)).
Proof. reflexivity. Qed.

Lemma scan_late_joiners_stable members : forall self w r w',
  scan_late_joiners env members self w = (r, w') ->
  study_sessions w' = study_sessions w /\ monthly_stats w' = monthly_stats w /\
  active_sessions w' = active_sessions w /\ phases w' = phases w /\
  match r with
  | Ok self' => stable self w self' w' /\ monitor_task self' = monitor_task self
  | Raise _ => True
  end.
Proof.
  induction members as [| member rest IH]; intros self w r w'; simpl.
  - intros [= <- <-]. repeat split; auto.
  - destruct (dict_get (id member) (participants self)) eqn:Hget; [apply IH |].
    unfold bind at 1.
    destruct (add_participant env member self w) as [r1 w1] eqn:E1.
    pose proof (add_participant_stable _ _ _ _ _ E1) as (S1&S2&S3&S4&Hr1).
    destruct r1 as [self1|e].
    + destruct Hr1 as [St1 Hm1]. unfold bind at 1, now.
      destruct (session_start self1) as [started|].
      * unfold bind at 1. rewrite send_run.
        intros E. apply IH in E. cbn in E. destruct E as (T1&T2&T3&T4&Hr).
        repeat split; try congruence.
        destruct r as [self'|e]; [| exact I].
        destruct Hr as [St' Hm']. split; [| congruence].
        eapply stable_trans; [exact St1 |].
        unfold stable in *. cbn in St'. destruct St' as (?&?&?&?&?&?&?&?&?&?&?).
        repeat split; try congruence; auto.
      * intros [= <- <-]. cbn. repeat split; auto.
    + intros [= <- <-]. repeat split; auto.
Qed.

Lemma monitor_step_returns self w :
  returns (monitor_late_joiners_step env self) w (fun self' w' => stable self w self' w').
Proof.
  unfold monitor_late_joiners_step.
  destruct (monitor_task self).
  - apply returns_ret, stable_refl.
  - apply returns_ret. unfold stable; cbn. repeat split; auto.
  - unfold returns, bind, non_bot_members, get. cbn beta iota.
    match goal with
    | |- context [scan_late_joiners env ?l self w] =>
        destruct (scan_late_joiners env l self w) as [r w'] eqn:E
    end.
    pose proof (scan_late_joiners_stable _ _ _ _ _ E) as (S1&S2&S3&S4&Hr).
    destruct r as [self'|e].
    + destruct Hr as [St Hm]. eexists _, _. split; [reflexivity |].
      unfold stable in *. cbn. exact St.
    + eexists _, _. split; [reflexivity |]. unfold stable. cbn. repeat split; auto.
  - apply returns_ret, stable_refl.
Qed.

Lemma monitor_late_joiners_returns steps : forall self w,
  returns (monitor_late_joiners env steps self) w (fun self' w' => stable self w self' w').
Proof.
  induction steps as [| steps IH]; intros self w; simpl.
  - apply returns_ret, stable_refl.
  - step_by monitor_step_returns. intros self1 w1 St1.
    eapply returns_weaken; [apply IH |].
    intros self2 w2 St2. eapply stable_trans; eauto.
Qed.

Lemma await_returns self w :
  returns (await env self) w (fun self' w' => stable self w self' w').
Proof.
  unfold await. apply returns_bind, returns_modify.
  apply returns_bind, returns_get.
  eapply returns_weaken; [apply monitor_late_joiners_returns |].
  intros self' w' St. unfold stable in *. cbn in St. exact St.
Qed.

Lemma await_send_returns n self w :
  returns (await_send env n self) w (fun self' w' => stable self w self' w').
Proof.
  unfold await_send. apply returns_bind, returns_modify.
  eapply returns_weaken; [apply await_returns |].
  intros self' w' St. unfold stable in *. cbn in St. exact St.
Qed.

Lemma study_ticks_returns total_sec elapseds : forall self w,
  returns (study_ticks env total_sec elapseds self) w
    (fun self' w' => stable self w self' w').
Proof.
  induction elapseds as [| elapsed rest IH]; intros self w; simpl.
  - apply returns_ret, stable_refl.
  - destruct (negb (is_running self)); [apply returns_ret, stable_refl |].
    apply returns_bind, returns_get.
    step_by await_send_returns. intros s1 w1 St1.
    step_by await_returns. intros s2 w2 St2.
    eapply returns_weaken; [apply IH |]. intros s3 w3 St3.
    eapply stable_trans; [| exact St3]. eapply stable_trans; eauto.
Qed.

Lemma break_ticks_returns total_sec elapseds : forall self w,
  returns (break_ticks env total_sec elapseds self) w
    (fun self' w' => stable self w self' w').
Proof.
  induction elapseds as [| elapsed rest IH]; intros self w; simpl.
  - apply returns_ret, stable_refl.
  - destruct (negb (is_running self)); [apply returns_ret, stable_refl |].
    step_by await_send_returns. intros s1 w1 St1.
    step_by await_returns. intros s2 w2 St2.
    eapply returns_weaken; [apply IH |]. intros s3 w3 St3.
    eapply stable_trans; [| exact St3]. eapply stable_trans; eauto.
Qed.

End Frame.

(* ===================================================================== *)
(** ** Settlement and the flow of [start] *)
(* ===================================================================== *)

Section Flow.
Context (env : Env).

Lemma study_period_returns self w :
  returns (study_period env self) w
    (fun self' w' =>
       carries self self' /\ is_study_period self' = false /\
       phases w' = phases w ++ [Studying] /\
       active_sessions w' = active_sessions w).
Proof.
  unfold study_period. apply returns_bind, returns_modify.
  step_by await_send_returns. intros s1 w1 St1.
  step_by study_ticks_returns. intros s2 w2 St2.
  pose proof (stable_trans _ _ _ _ _ _ St1 St2) as St.
  assert (Hgoal : forall s3 w3, stable (set_is_study_period false s2) w2 s3 w3 ->
            carries self s3 /\ is_study_period s3 = false /\
            phases w3 = phases w ++ [Studying] /\
            active_sessions w3 = active_sessions w).
  { intros s3 w3 St3. unfold stable, carries in *. cbn in St, St3.
    destruct St as (?&?&?&?&?&?&HP&?&?&?&?). destruct St3 as (?&?&?&?&?&?&HP3&?&?&?&?).
    repeat split; try congruence. intros uid data H'. apply HP3, HP, H'. }
  destruct (is_running (set_is_study_period false s2)).
  - eapply returns_weaken; [apply await_send_returns |]. exact Hgoal.
  - apply returns_ret, Hgoal, stable_refl.
Qed.

Lemma break_period_returns self w :
  is_running self = true ->
  returns (break_period env self) w
    (fun self' w' => stable self (set_phases (phases w ++ [OnBreak]) w) self' w').
Proof.
  intros Hrun. unfold break_period. rewrite Hrun. cbn [negb].
  apply returns_bind, returns_modify. apply returns_bind, returns_get.
  step_by await_send_returns. intros s1 w1 St1.
  step_by break_ticks_returns. intros s2 w2 St2.
  pose proof (stable_trans _ _ _ _ _ _ St1 St2) as St.
  destruct (is_running s2); [| apply returns_ret; exact St].
  apply returns_bind, returns_get.
  step_by await_send_returns. intros s3 w3 St3.
  pose proof (stable_trans _ _ _ _ _ _ St St3) as St'.
  match goal with |- returns (match ?l with _ => _ end) _ _ => destruct l end.
  - apply returns_ret; exact St'.
  - eapply returns_weaken; [apply await_send_returns |]. intros s4 w4 St4.
    eapply stable_trans; eauto.
Qed.

(** A participant who is present and earns [minutes > 0]: one record is
    written, one fold is made, one line of credit is noted. *)
Lemma award_one_credited self current study_end acc user_id data minutes w :
  existsb (fun m => id m =? user_id) current = true ->
  minutes_to_award data (session_start self) study_end (duration self) = Ok minutes ->
  0 < minutes ->
  returns (award_one env self current study_end acc (user_id, data)) w
    (fun acc' w' =>
       credit_details acc' =
         credit_details acc ++
         [{| Credit.user := Participant.user data; Credit.minutes := minutes;
             Credit.late := Participant.late_join data |}] /\
       left_early acc' = left_early acc /\
       exists file_name doc,
         study_sessions w' = <[file_name := doc]> (study_sessions w) /\
         Doc.user_id doc = str user_id /\
         Doc.duration_minutes doc = minutes /\
         Doc.session_start doc = Participant.join_time data /\
         Doc.session_end doc = study_end).
Proof.
  intros Hin Hm Hpos. unfold award_one. rewrite Hin.
  apply returns_bind. unfold lift_result. rewrite Hm.
  eexists _, _. split; [reflexivity |]. cbn beta.
  replace (0 <? minutes) with true by (symmetry; apply Z.ltb_lt; exact Hpos).
  unfold returns, bind, now. rewrite save_study_session_run.
  match goal with
  | |- context [update_monthly_stats env ?o ?mi ?u ?n ?w0] =>
      destruct (update_monthly_stats_run env o mi u n w0) as (n' & t' & ->)
  end.
  eexists _, _. split; [reflexivity |]. cbn -[session_file_name].
  split; [reflexivity |]. split; [reflexivity |].
  eexists _, _. split; [reflexivity |]. cbn. auto.
Qed.

(** The settlement of one participant never fails once the session has a
    start time, and touches only the database and the clock. *)
Lemma award_one_returns self current study_end acc item w :
  is_Some (session_start self) ->
  returns (award_one env self current study_end acc item) w
    (fun _ w' => phases w' = phases w /\ active_sessions w' = active_sessions w /\
                 epoch w' = epoch w /\ outbox w' = outbox w).
Proof.
  intros [started Hs]. destruct item as [user_id data]. unfold award_one.
  destruct (existsb _ current); [| apply returns_ret; auto].
  assert (Hok : exists m,
    minutes_to_award data (session_start self) study_end (duration self) = Ok m).
  { unfold minutes_to_award. rewrite Hs. destruct (Participant.late_join data); eauto. }
  destruct Hok as [m Hm].
  apply returns_bind. unfold lift_result. rewrite Hm.
  eexists _, _. split; [reflexivity |]. cbn beta.
  destruct (0 <? m); [| apply returns_ret; auto].
  unfold returns, bind, now. rewrite save_study_session_run.
  match goal with
  | |- context [update_monthly_stats env ?o ?mi ?u ?n ?w0] =>
      destruct (update_monthly_stats_run env o mi u n w0) as (n' & t' & ->)
  end.
  eexists _, _. split; [reflexivity |]. cbn. auto.
Qed.

Lemma award_all_returns self current study_end items : forall acc w,
  is_Some (session_start self) ->
  returns (award_all env self current study_end acc items) w
    (fun _ w' => phases w' = phases w /\ active_sessions w' = active_sessions w /\
                 epoch w' = epoch w /\ outbox w' = outbox w).
Proof.
  induction items as [| item rest IH]; intros acc w Hs; simpl.
  - apply returns_ret; auto.
  - step_by award_one_returns. intros acc1 w1 (P1&A1&E1&O1).
    eapply returns_weaken; [apply IH; exact Hs |].
    intros acc2 w2 (P2&A2&E2&O2). repeat split; congruence.
Qed.

Lemma award_credit_returns self w :
  is_running self = true -> is_Some (session_start self) ->
  returns (award_credit env self) w
    (fun self' w' => carries self self' /\ phases w' = phases w ++ [Settling] /\
                     active_sessions w' = active_sessions w).
Proof.
  intros Hrun Hs. unfold award_credit. rewrite Hrun. cbn [negb].
  apply returns_bind, returns_modify. apply returns_bind, returns_get.
  apply returns_bind. unfold now at 1. eexists _, _. split; [reflexivity |]. cbn beta.
  step_by award_all_returns.
  intros acc w1 (P1&A1&E1&O1). cbn in P1, A1.
  destruct (awarded_users acc).
  - apply returns_ret. split; [apply carries_refl | auto].
  - eapply returns_weaken; [apply await_send_returns |]. intros s2 w2 St.
    split; [eapply stable_carries; exact St |].
    unfold stable in St. cbn in St. destruct St as (?&?&?&?&?&?&?&?&?&?&?).
    split; congruence.
Qed.

(** [start] always returns.  Which phases it goes through depends on one
    thing only: whether the channel is empty when [start] looks at it. *)
Lemma start_returns self w :
  is_running self = true ->
  returns (start env self) w
    (fun self' w' =>
       active_sessions w' = active_sessions w /\
       match occupants_at_start env w (channel self) with
       | [] =>
           phases w' = phases w ++ [Starting; Aborted] /\
           study_sessions w' = study_sessions w /\ monthly_stats w' = monthly_stats w
       | _ :: _ =>
           phases w' = phases w ++ [Starting; Studying; Settling; OnBreak; Completed]
       end).
Proof.
  intros Hrun. unfold start, occupants_at_start. apply returns_bind, returns_modify.
  apply returns_bind, returns_get. cbn [epoch set_phases].
  destruct (filter _ _) as [| m ms].
  - step_by await_send_returns. intros s1 w1 St1.
    apply returns_bind, returns_modify. apply returns_ret.
    unfold stable in St1. cbn in St1. destruct St1 as (?&?&?&?&?&?&?&Hd&Hm&Ha&Hp).
    cbn. rewrite Hp, Ha, Hd, Hm, <- app_assoc. auto.
  - apply returns_bind. unfold now at 1. eexists _, _. split; [reflexivity |]. cbn beta.
    step_by add_participants_returns.
    intros s1 w1 (St1 & _).
    step_by await_send_returns. intros s2 w2 St2.
    pose proof (stable_trans _ _ _ _ _ _ St1 St2) as St.
    unfold stable in St. cbn in St. destruct St as (C1&C2&C3&C4&C5&C6&C7&D1&D2&D3&D4).
    step_by study_period_returns.
    intros s3 w3 (Ca3 & _ & P3 & A3).
    unfold carries in Ca3. cbn in Ca3. destruct Ca3 as (E1&E2&E3&E4&E5&E6).
    apply returns_bind.
    eapply returns_weaken;
      [apply award_credit_returns; [congruence | rewrite E4, C4; eauto] |].
    intros s4 w4 (Ca4 & P4 & A4). cbn beta.
    destruct Ca4 as (F1&F2&F3&F4&F5&F6).
    apply returns_bind.
    eapply returns_weaken; [apply break_period_returns; congruence |].
    intros s5 w5 St5. cbn beta.
    unfold stable in St5. cbn in St5. destruct St5 as (_&_&_&_&_&_&_&_&_&A5&P5).
    apply returns_bind, returns_modify. apply returns_ret. cbn.
    split; [congruence |].
    rewrite P5, P4, P3, D4. rewrite <- !app_assoc. reflexivity.
Qed.

End Flow.

(* ===================================================================== *)
(** ** The /pomodoro command, check by check *)
(* ===================================================================== *)

Section CommandRuns.
Context (env : Env) (run : PomodoroSession -> M PomodoroSession).

Lemma pomodoro_slash_not_in_voice interaction s b w :
  user_voice interaction = None ->
  pomodoro_slash env run interaction s b w = (Ok tt, only_notified MustBeInVoice w).
Proof. intros H. unfold pomodoro_slash. rewrite H. reflexivity. Qed.

Lemma pomodoro_slash_empty interaction c s b w :
  user_voice interaction = Some c ->
  occupants_at_command env w c = [] ->
  pomodoro_slash env run interaction s b w = (Ok tt, only_notified (ChannelIsEmpty c) w).
Proof.
  intros H He. unfold pomodoro_slash. rewrite H.
  unfold bind, suspend, modify, non_bot_members, get. cbn [epoch set_epoch].
  unfold occupants_at_command in He. rewrite He. reflexivity.
Qed.

Lemma pomodoro_slash_conflict interaction c s b w :
  user_voice interaction = Some c ->
  occupants_at_command env w c <> [] ->
  is_Some (active_sessions w !! channel_id c) ->
  pomodoro_slash env run interaction s b w = (Ok tt, only_notified (AlreadyActive c) w).
Proof.
  intros H He Ha. unfold pomodoro_slash. rewrite H.
  unfold bind, suspend, modify, non_bot_members, get. cbn [epoch set_epoch].
  unfold occupants_at_command in He.
  destruct (filter _ _) as [| m ms]; [contradiction |].
  cbn [active_sessions set_epoch]. rewrite bool_decide_eq_true_2 by exact Ha.
  reflexivity.
Qed.

Lemma pomodoro_slash_study_range interaction c s b w :
  user_voice interaction = Some c ->
  occupants_at_command env w c <> [] ->
  active_sessions w !! channel_id c = None ->
  s < 1 \/ 120 < s ->
  pomodoro_slash env run interaction s b w = (Ok tt, only_notified StudyTimeRange w).
Proof.
  intros H He Ha Hs. unfold pomodoro_slash. rewrite H.
  unfold bind, suspend, modify, non_bot_members, get. cbn [epoch set_epoch].
  unfold occupants_at_command in He.
  destruct (filter _ _) as [| m ms]; [contradiction |].
  cbn [active_sessions set_epoch]. rewrite Ha.
  rewrite bool_decide_eq_false_2 by (intros [? ?]; discriminate).
  replace ((s >? 120) || (s <? 1)) with true; [reflexivity |].
  symmetry. apply orb_true_iff. destruct Hs; [right; lia | left; lia].
Qed.

Lemma pomodoro_slash_break_range interaction c s b w :
  user_voice interaction = Some c ->
  occupants_at_command env w c <> [] ->
  active_sessions w !! channel_id c = None ->
  1 <= s <= 120 ->
  b < 0 \/ 60 < b ->
  pomodoro_slash env run interaction s b w = (Ok tt, only_notified BreakTimeRange w).
Proof.
  intros H He Ha Hs Hb. unfold pomodoro_slash. rewrite H.
  unfold bind, suspend, modify, non_bot_members, get. cbn [epoch set_epoch].
  unfold occupants_at_command in He.
  destruct (filter _ _) as [| m ms]; [contradiction |].
  cbn [active_sessions set_epoch]. rewrite Ha.
  rewrite bool_decide_eq_false_2 by (intros [? ?]; discriminate).
  replace ((s >? 120) || (s <? 1)) with false by (symmetry; apply orb_false_iff; lia).
  replace ((b >? 60) || (b <? 0)) with true; [reflexivity |].
  symmetry. apply orb_true_iff. destruct Hb; [right; lia | left; lia].
Qed.

(** When every check passes the handle is registered and the session runs
    under the [finally] block. *)
Lemma pomodoro_slash_admitted interaction c s b w :
  user_voice interaction = Some c ->
  occupants_at_command env w c <> [] ->
  active_sessions w !! channel_id c = None ->
  1 <= s <= 120 ->
  0 <= b <= 60 ->
  pomodoro_slash env run interaction s b w =
  try_finally (run (new_session c s b) ;;; ret tt) (retire c) (admitted_world c s b w).
Proof.
  intros H He Ha Hs Hb. unfold pomodoro_slash. rewrite H.
  unfold bind at 1, suspend, modify. unfold bind at 1, non_bot_members, get.
  cbn [epoch set_epoch].
  unfold occupants_at_command in He.
  destruct (filter _ _) as [| m ms]; [contradiction |].
  unfold bind at 1. cbn [active_sessions set_epoch]. rewrite Ha.
  rewrite bool_decide_eq_false_2 by (intros [? ?]; discriminate).
  replace ((s >? 120) || (s <? 1)) with false by (symmetry; apply orb_false_iff; lia).
  replace ((b >? 60) || (b <? 0)) with false by (symmetry; apply orb_false_iff; lia).
  reflexivity.
Qed.

End CommandRuns.

Lemma retire_run c w :
  exists w', retire c w = (Ok tt, w') /\
    active_sessions w' = delete (channel_id c) (active_sessions w) /\
    study_sessions w' = study_sessions w /\ monthly_stats w' = monthly_stats w /\
    ticks w' = ticks w /\ epoch w' = epoch w /\ outbox w' = outbox w /\
    phases w' = phases w.
Proof.
  unfold retire, modify. case_bool_decide as Hin.
  - eexists. split; [reflexivity |]. cbn. repeat split; auto.
  - eexists. split; [reflexivity |]. repeat split; auto.
    symmetry. apply delete_id. apply eq_None_not_Some. exact Hin.
Qed.

(** The [finally] block runs whether the body returns or raises. *)
Lemma try_finally_retire {A} (body : M A) c w outcome w_exit :
  body w = (outcome, w_exit) ->
  exists w', try_finally body (retire c) w = (outcome, w') /\
    active_sessions w' = delete (channel_id c) (active_sessions w_exit) /\
    study_sessions w' = study_sessions w_exit /\ monthly_stats w' = monthly_stats w_exit /\
    ticks w' = ticks w_exit /\ epoch w' = epoch w_exit /\ outbox w' = outbox w_exit /\
    phases w' = phases w_exit.
Proof.
  intros Hbody. destruct (retire_run c w_exit) as (w' & Hr & Hw').
  exists w'. split; [| exact Hw']. unfold try_finally. rewrite Hbody, Hr. reflexivity.
Qed.

(* ===================================================================== *)
(** ** File names *)
(* ===================================================================== *)

Lemma append_nil (b : string) : EmptyString +:+ b = b.
Proof. reflexivity. Qed.

Lemma append_cons (x : ascii) (a b : string) : String x a +:+ b = String x (a +:+ b).
Proof. reflexivity. Qed.

Lemma append_assoc (a b c : string) : (a +:+ b) +:+ c = a +:+ (b +:+ c).
Proof.
  induction a as [| x a IH]; [reflexivity |].
  rewrite !append_cons. f_equal. exact IH.
Qed.

Lemma lacks_app c a b : lacks c a -> lacks c b -> lacks c (a +:+ b).
Proof.
  induction a as [| x a IH]; [auto |].
  rewrite append_cons. simpl. intros [? ?] ?; auto.
Qed.

Lemma digits_app a b : digits a -> digits b -> digits (a +:+ b).
Proof.
  induction a as [| x a IH]; [auto |].
  rewrite append_cons. simpl. intros [? ?] ?; auto.
Qed.

Lemma digits_lacks c s : is_digit c = false -> digits s -> lacks c s.
Proof.
  intros Hc. induction s as [| a s IH]; simpl; [auto |].
  intros [Ha Hs]. split; [congruence | auto].
Qed.

Lemma pretty_N_char_digit x : is_digit (pretty_N_char x) = true.
Proof. unfold pretty_N_char. repeat case_match; reflexivity. Qed.

Lemma pretty_N_go_digits x : forall s, digits s -> digits (pretty_N_go x s).
Proof.
  induction (N.lt_wf_0 x) as [x _ IH]; intros s Hs.
  destruct (N.eq_dec x 0%N) as [-> | Hx]; [rewrite pretty_N_go_0; exact Hs |].
  rewrite pretty_N_go_step by lia. apply IH.
  - apply N.div_lt; lia.
  - simpl. split; [apply pretty_N_char_digit | exact Hs].
Qed.

Lemma str_digits n : 0 <= n -> digits (str n).
Proof.
  intros Hn. unfold str, pretty, pretty_Z. destruct n as [| p | p]; [| | lia].
  - simpl. split; [reflexivity | exact I].
  - unfold pretty, pretty_positive, pretty, pretty_N.
    case_decide; [discriminate |]. apply pretty_N_go_digits. exact I.
Qed.

Lemma fmt02d_digits n : 0 <= n -> digits (fmt02d n).
Proof.
  intros Hn. unfold fmt02d. destruct ((0 <=? n) && (n <? 10)).
  - simpl. split; [reflexivity | apply str_digits, Hn].
  - apply str_digits, Hn.
Qed.

Lemma str_inj a b : str a = str b -> a = b.
Proof. apply pretty_Z_inj. Qed.

(** The month as [{month:02d}]: two digits, one string per month. *)
Lemma fmt02d_month m :
  1 <= m <= 12 -> exists a b, fmt02d m = String a (String b EmptyString) /\
                             is_digit a = true /\ is_digit b = true.
Proof.
  intros Hm.
  assert (Hc : m = 1 \/ m = 2 \/ m = 3 \/ m = 4 \/ m = 5 \/ m = 6 \/ m = 7 \/ m = 8 \/
               m = 9 \/ m = 10 \/ m = 11 \/ m = 12) by lia.
  repeat (destruct Hc as [-> | Hc]; [eexists _, _; vm_compute; repeat split |]).
  subst m. eexists _, _; vm_compute; repeat split.
Qed.

Lemma fmt02d_month_inj m m' :
  1 <= m <= 12 -> 1 <= m' <= 12 -> fmt02d m = fmt02d m' -> m = m'.
Proof.
  intros Hm Hm'. unfold fmt02d.
  destruct (Z.ltb_spec m 10) as [Hlt | Hge], (Z.ltb_spec m' 10) as [Hlt' | Hge'];
    replace (0 <=? m) with true by (symmetry; apply Z.leb_le; lia);
    replace (0 <=? m') with true by (symmetry; apply Z.leb_le; lia); simpl.
  - intros [= H]. apply str_inj, H.
  - intros H.
    assert (Hc : m' = 10 \/ m' = 11 \/ m' = 12) by lia.
    assert (Hd : m = 1 \/ m = 2 \/ m = 3 \/ m = 4 \/ m = 5 \/ m = 6 \/ m = 7 \/ m = 8 \/
                 m = 9) by lia.
    exfalso. destruct Hc as [-> | [-> | ->]];
      repeat (destruct Hd as [-> | Hd]; [vm_compute in H; discriminate H |]);
      subst m; vm_compute in H; discriminate H.
  - intros H.
    assert (Hc : m = 10 \/ m = 11 \/ m = 12) by lia.
    assert (Hd : m' = 1 \/ m' = 2 \/ m' = 3 \/ m' = 4 \/ m' = 5 \/ m' = 6 \/ m' = 7 \/
                 m' = 8 \/ m' = 9) by lia.
    exfalso. destruct Hc as [-> | [-> | ->]];
      repeat (destruct Hd as [-> | Hd]; [vm_compute in H; discriminate H |]);
      subst m'; vm_compute in H; discriminate H.
  - apply str_inj.
Qed.

Lemma prefix_empty s : String.prefix EmptyString s = true.
Proof. destruct s; reflexivity. Qed.

(** [prefix] across a separator that the two heads lack. *)
Lemma prefix_separator c : forall A A' B R,
  lacks c A -> lacks c A' ->
  (String.prefix (A +:+ String c B) (A' +:+ String c R) = true <->
   A = A' /\ String.prefix B R = true).
Proof.
  induction A as [| a A IH]; intros [| a' A'] B R HA HA';
    rewrite ?append_nil, ?append_cons; simpl in *.
  - destruct (ascii_dec c c); [| contradiction]. tauto.
  - destruct HA' as [Ha' _]. destruct (ascii_dec c a'); [subst; contradiction |].
    split; [discriminate | intros [? _]; discriminate].
  - destruct HA as [Ha _]. destruct (ascii_dec a c); [contradiction |].
    split; [discriminate | intros [? _]; discriminate].
  - destruct HA as [Ha HA], HA' as [Ha' HA'].
    destruct (ascii_dec a a') as [-> | Hne].
    + rewrite IH by assumption. split; [intros [-> ?]; auto | intros [[= ->] ?]; auto].
    + split; [discriminate | intros [[= ? ?] _]; contradiction].
Qed.

Lemma prefix_needs_separator c : forall A B H,
  lacks c H -> String.prefix (A +:+ String c B) H = false.
Proof.
  induction A as [| a A IH]; intros B [| h H] HH;
    rewrite ?append_nil, ?append_cons; simpl in *; try reflexivity.
  - destruct HH as [Hh _]. destruct (ascii_dec c h); [subst; contradiction | reflexivity].
  - destruct HH as [_ HH]. destruct (ascii_dec a h); [apply IH, HH | reflexivity].
Qed.

Lemma str_in_skip_char c r a h :
  a <> c -> str_in (String c r) (String a h) = str_in (String c r) h.
Proof.
  intros Hne. simpl. destruct (ascii_dec c a); [subst; contradiction | reflexivity].
Qed.

Lemma str_in_skip c r : forall s h,
  lacks c s -> str_in (String c r) (s +:+ h) = str_in (String c r) h.
Proof.
  induction s as [| a s IH]; intros h Hs; [reflexivity |].
  destruct Hs as [Ha Hs]. rewrite append_cons.
  rewrite str_in_skip_char by exact Ha. apply IH, Hs.
Qed.

Lemma str_in_at_separator c r h :
  str_in (String c r) (String c h) = String.prefix r h || str_in (String c r) h.
Proof. simpl. destruct (ascii_dec c c); [reflexivity | contradiction]. Qed.

Lemma str_in_needs_separator c r : forall h, lacks c h -> str_in (String c r) h = false.
Proof.
  induction h as [| a h IH]; intros Hh; [reflexivity |].
  destruct Hh as [Ha Hh]. rewrite str_in_skip_char by exact Ha. apply IH, Hh.
Qed.

Lemma strftime_stamp_halves t :
  strftime_stamp t = stamp_date t +:+ String "_" (stamp_time t).
Proof.
  unfold strftime_stamp, stamp_date, stamp_time.
  rewrite !append_assoc. reflexivity.
Qed.

Lemma underscore_not_digit : is_digit "_" = false.
Proof. reflexivity. Qed.

Lemma dash_not_digit : is_digit "-" = false.
Proof. reflexivity. Qed.

(** The test by file name, on a file that [save_study_session] wrote for
    the user [owner]: it selects the file when the file is of the user and
    of the month, and also when the user id prints as the date of the write. *)
Lemma session_file_selected_spec (uid owner y m : Z) (d : Doc.t) (t : datetime) :
  0 <= uid -> 0 <= owner -> Doc.user_id d = str owner ->
  0 < y -> 0 <= Doc.year d -> 1 <= m <= 12 -> 1 <= Doc.month d <= 12 ->
  0 <= dt_day (Doc.session_start d) -> calendar_ok t ->
  session_file_selected uid (Some y) (Some m) (session_file_name d (strftime_stamp t)) = true
  <-> (owner = uid \/ str uid = stamp_date t) /\ Doc.year d = y /\ Doc.month d = m.
Proof.
  intros Huid Howner Hd Hy Hdy Hm Hdm Hday (Ht1 & Ht2 & Ht3 & Ht4 & Ht5 & Ht6).
  unfold session_file_selected, truthy. cbn [default].
  replace (y =? 0) with false by (symmetry; apply Z.eqb_neq; lia).
  replace (m =? 0) with false by (symmetry; apply Z.eqb_neq; lia).
  cbn [negb andb]. rewrite andb_true_iff.
  assert (Hu : lacks "_" (str uid))
    by (apply digits_lacks; [reflexivity | apply str_digits, Huid]).
  assert (Ho : lacks "_" (str owner))
    by (apply digits_lacks; [reflexivity | apply str_digits, Howner]).
  assert (Hdate : lacks "_" (stamp_date t)).
  { apply digits_lacks; [reflexivity |]. unfold stamp_date.
    repeat apply digits_app; auto using str_digits, fmt02d_digits. }
  assert (Htime : lacks "_" (stamp_time t +:+ ".pkl")).
  { apply lacks_app; [| simpl; repeat split; discriminate].
    apply digits_lacks; [reflexivity |]. unfold stamp_time.
    repeat apply digits_app; auto using fmt02d_digits. }
  assert (Hname : session_file_name d (strftime_stamp t) =
    str (Doc.year d) +:+ String "-" (fmt02d (Doc.month d) +:+ String "-"
      (fmt02d (dt_day (Doc.session_start d)) +:+ String "_"
        (str owner +:+ String "_" (stamp_date t +:+ String "_" (stamp_time t +:+ ".pkl")))))).
  { unfold session_file_name. rewrite Hd, strftime_stamp_halves.
    rewrite !append_assoc. reflexivity. }
  rewrite Hname. clear Hname.
  assert (Hsub : str_in ("_" +:+ str uid +:+ "_")
      (str (Doc.year d) +:+ String "-" (fmt02d (Doc.month d) +:+ String "-"
        (fmt02d (dt_day (Doc.session_start d)) +:+ String "_"
          (str owner +:+ String "_" (stamp_date t +:+ String "_" (stamp_time t +:+ ".pkl"))))))
      = true <-> owner = uid \/ str uid = stamp_date t).
  { change ("_" +:+ str uid +:+ "_") with (String "_" (str uid +:+ String "_" "")).
    rewrite str_in_skip
      by (apply digits_lacks; [reflexivity | apply str_digits, Hdy]).
    rewrite str_in_skip_char by discriminate.
    rewrite str_in_skip
      by (apply digits_lacks; [reflexivity | apply fmt02d_digits; lia]).
    rewrite str_in_skip_char by discriminate.
    rewrite str_in_skip
      by (apply digits_lacks; [reflexivity | apply fmt02d_digits, Hday]).
    rewrite str_in_at_separator, str_in_skip by exact Ho.
    rewrite str_in_at_separator, str_in_skip by exact Hdate.
    rewrite str_in_at_separator.
    rewrite (prefix_needs_separator "_" (str uid) "" _ Htime).
    rewrite (str_in_needs_separator "_" _ _ Htime).
    rewrite !orb_false_r, orb_true_iff.
    rewrite (prefix_separator "_" (str uid) (str owner) "" _ Hu Ho).
    rewrite (prefix_separator "_" (str uid) (stamp_date t) "" _ Hu Hdate).
    split.
    - intros [[E _] | [E _]]; [left; symmetry; apply str_inj, E | right; exact E].
    - intros [-> | E]; [left | right]; split; auto using prefix_empty. }
  assert (Hpre : String.prefix (str y +:+ "-" +:+ fmt02d m)
      (str (Doc.year d) +:+ String "-" (fmt02d (Doc.month d) +:+ String "-"
        (fmt02d (dt_day (Doc.session_start d)) +:+ String "_"
          (str owner +:+ String "_" (stamp_date t +:+ String "_" (stamp_time t +:+ ".pkl"))))))
      = true <-> Doc.year d = y /\ Doc.month d = m).
  { change (str y +:+ "-" +:+ fmt02d m) with (str y +:+ String "-" (fmt02d m)).
    rewrite (prefix_separator "-")
      by (apply digits_lacks; [reflexivity | apply str_digits; lia]).
    destruct (fmt02d_month m Hm) as (a & b & Em & Da & Db).
    destruct (fmt02d_month (Doc.month d) Hdm) as (a' & b' & Em' & Da' & Db').
    split.
    - intros [Ey Hp]. apply str_inj in Ey. split; [congruence |].
      apply fmt02d_month_inj; [assumption.. |].
      rewrite Em, Em' in *. simpl in Hp.
      destruct (ascii_dec a a'); [| discriminate].
      destruct (ascii_dec b b'); [| discriminate]. congruence.
    - intros [<- <-]. split; [reflexivity |].
      rewrite Em. simpl.
      destruct (ascii_dec a a); [| contradiction].
      destruct (ascii_dec b b); [| contradiction]. reflexivity. }
  rewrite Hsub, Hpre. tauto.
Qed.

(* ===================================================================== *)
(** ** The monthly total of a user *)
(* ===================================================================== *)

(** Whatever the aggregate held, the entry of the user after a fold carries
    the total selected from the session files. *)
Lemma fold_upserts_selected_total env org minutes user_id username w :
  let mid := strftime_Ym (clock env (ticks w)) in
  exists w' after,
    update_monthly_stats env org minutes user_id username w = (Ok true, w') /\
    monthly_stats w' !! mid = Some after /\
    forall ind, ind ∈ Stats.top_individuals after -> Ind.user_id ind = str user_id ->
                Ind.minutes ind = selected_total (study_sessions w) user_id mid.
Proof.
  intros mid.
  destruct (update_monthly_stats_run env org minutes user_id username w) as (n & t & E).
  fold mid in E. eexists _, _. split; [exact E |].
  cbn [monthly_stats set_monthly_stats]. split; [apply lookup_insert_eq |].
  cbn [Stats.top_individuals]. intros ind Hin Hid.
  apply upsert_individual_entry in Hin; [| exact Hid]. subst ind. reflexivity.
Qed.

(** The total selected by file name is the total of the user's records as
    soon as the two selections agree on the stored files. *)
Lemma selected_total_exact files user_id mid :
  (forall file_name d, files !! file_name = Some d ->
     session_file_selected user_id (Some (fst mid)) (Some (snd mid)) file_name = true <->
     (Doc.user_id d = str user_id /\ Doc.year d = fst mid /\ Doc.month d = snd mid)) ->
  selected_total files user_id mid = records_total files user_id mid.
Proof.
  intros Hagree. unfold selected_total, records_total. do 2 f_equal.
  assert (Hl : forall f, f ∈ map_to_list files ->
            session_file_selected user_id (Some (fst mid)) (Some (snd mid)) (fst f) = true <->
            (Doc.user_id (snd f) = str user_id /\ Doc.year (snd f) = fst mid /\
             Doc.month (snd f) = snd mid)).
  { intros [file_name d] Hin. apply elem_of_map_to_list in Hin. apply Hagree, Hin. }
  induction (map_to_list files) as [| f l IH]; [reflexivity |].
  rewrite fmap_cons, !filter_cons.
  pose proof (Hl f (list_elem_of_here _ _)) as Hf.
  assert (IH' := IH (fun g Hg => Hl g (list_elem_of_further _ _ _ Hg))).
  destruct (decide (session_file_selected user_id (Some mid.1) (Some mid.2) f.1 = true)) as [Hs | Hs];
    destruct (decide (Doc.user_id f.2 = str user_id /\ Doc.year f.2 = mid.1 /\
                      Doc.month f.2 = mid.2)) as [Hd | Hd];
    try tauto.
  - rewrite fmap_cons, IH'. reflexivity.
Qed.

(** On files written by [save_study_session], none of them on a date that
    prints as the user id, the scan by file name finds the records of the
    user for the month and no other. *)
Lemma selected_total_of_undated_user files user_id y m :
  0 <= user_id -> 0 < y -> 1 <= m <= 12 ->
  written_for_others_dates user_id files ->
  selected_total files user_id (y, m) = records_total files user_id (y, m).
Proof.
  intros Huid Hy Hm Hfiles. apply selected_total_exact.
  intros file_name d Hlookup. cbn [fst snd].
  destruct (Hfiles file_name d Hlookup)
    as (owner & t & -> & Howner & Hd & Hdy & Hdm & Hday & Ht & Hstamp).
  rewrite (session_file_selected_spec user_id owner y m d t) by assumption.
  rewrite Hd. split.
  - intros ([-> | E] & Ey & Em); [auto | contradiction].
  - intros (E & Ey & Em). apply str_inj in E. auto.
Qed.

(** Then the fold puts on the leaderboard the sum of [duration_minutes]
    over the records of the user for the month, whatever the aggregate
    held and in whatever order the settlements were folded. *)
Lemma fold_upserts_records_total env org minutes user_id username w :
  let mid := strftime_Ym (clock env (ticks w)) in
  0 <= user_id -> 0 < fst mid -> 1 <= snd mid <= 12 ->
  written_for_others_dates user_id (study_sessions w) ->
  exists w' after,
    update_monthly_stats env org minutes user_id username w = (Ok true, w') /\
    monthly_stats w' !! mid = Some after /\
    forall ind, ind ∈ Stats.top_individuals after -> Ind.user_id ind = str user_id ->
                Ind.minutes ind = records_total (study_sessions w) user_id mid.
Proof.
  intros mid Huid Hy Hm Hfiles.
  destruct (fold_upserts_selected_total env org minutes user_id username w)
    as (w' & after & E & Hl & Hind).
  exists w', after. split; [exact E |]. split; [exact Hl |].
  intros ind Hin Hid. rewrite (Hind ind Hin Hid). fold mid.
  destruct mid as [y m]. apply selected_total_of_undated_user; assumption.
Qed.

(** In the library scenario Alice's id is not the date of a write: the
    board shows the 25 minutes of her record. *)
Example alice_total_is_her_record :
  let w := snd (start library_env (new_session library 25 5) initial_world) in
  written_for_others_dates (id alice) (study_sessions w) /\
  selected_total (study_sessions w) (id alice) (2024, 5) = 25 /\
  records_total (study_sessions w) (id alice) (2024, 5) = 25.
Proof.
  split; [| split; vm_compute; reflexivity].
  intros file_name d H. apply elem_of_map_to_list in H. vm_compute in H.
  apply elem_of_cons in H as [[= -> ->] | H];
    [| apply elem_of_cons in H as [[= -> ->] | H]; [| inversion H]].
  - exists 7, (on_3_may 0 14 40). unfold calendar_ok. cbn.
    repeat split; try lia; try reflexivity. vm_compute. discriminate.
  - exists 20240503, (on_3_may 0 14 40). unfold calendar_ok. cbn.
    repeat split; try lia; try reflexivity. vm_compute. discriminate.
Qed.

(* ===================================================================== *)
(** ** Credit Accountant *)
(* ===================================================================== *)

Lemma minutes_between_floor (a b : datetime) :
  micros b <= micros a ->
  minutes_between a b = (micros a - micros b) / 60000000.
Proof.
  intros H. unfold minutes_between.
  apply Z.quot_div_nonneg; lia.
Qed.

(** C1.  A participant who is in the occupant snapshot taken at
    [study_end] is awarded min(floor(minutes from the join to the end),
    studyMinutes), capped for a late joiner at
    max(0, studyMinutes - floor(minutes from the start to the join)).  The
    award is never negative; when it is positive it is the duration of the
    record that the settlement persists and the minutes that it reports.
    With 25 study minutes, a participant who joined 10 minutes after the
    start and stays to the end is awarded exactly 15 minutes.  The three
    times are readings of one clock in program order: start, join, end. *)
Theorem award_matches_credit_formula
    (env : Env) (self : PomodoroSession) (current : list Member) (study_end : datetime)
    (acc : AwardAcc) (user_id : Z) (data : Participant.t) (started : datetime) (w : World) :
  session_start self = Some started ->
  micros started <= micros (Participant.join_time data) ->
  micros (Participant.join_time data) <= micros study_end ->
  0 <= duration self ->
  existsb (fun m => id m =? user_id) current = true ->
  let credit := credit_formula (micros (Participant.join_time data)) (micros started)
                  (micros study_end) (Participant.late_join data) (duration self) in
  minutes_to_award data (session_start self) study_end (duration self) = Ok credit /\
  0 <= credit /\
  (0 < credit ->
   returns (award_one env self current study_end acc (user_id, data)) w
     (fun acc' w' =>
        credit_details acc' =
          credit_details acc ++
          [{| Credit.user := Participant.user data; Credit.minutes := credit;
              Credit.late := Participant.late_join data |}] /\
        exists file_name doc,
          study_sessions w' = <[file_name := doc]> (study_sessions w) /\
          Doc.user_id doc = str user_id /\ Doc.duration_minutes doc = credit)) /\
  (duration self = 25 ->
   micros (Participant.join_time data) = micros started + 10 * 60000000 ->
   Participant.late_join data = dt_gt (Participant.join_time data) started ->
   micros started + 25 * 60000000 <= micros study_end ->
   credit = 15).
Proof.
  intros Hs Hjoin Hend Hdur Hin credit.
  assert (Hq1 := minutes_between_floor study_end (Participant.join_time data) Hend).
  assert (Hq2 := minutes_between_floor (Participant.join_time data) started Hjoin).
  assert (Hp1 : 0 <= (micros study_end - micros (Participant.join_time data)) / 60000000)
    by (apply Z.div_pos; lia).
  assert (Haward : minutes_to_award data (session_start self) study_end (duration self)
                   = Ok credit).
  { unfold minutes_to_award, credit, credit_formula.
    rewrite Hs, Hq1, Hq2. destruct (Participant.late_join data); reflexivity. }
  split; [exact Haward |]. split; [| split].
  - subst credit. unfold credit_formula.
    destruct (Participant.late_join data); lia.
  - intros Hpos.
    eapply returns_weaken; [apply (award_one_credited env _ _ _ _ _ _ _ _ Hin Haward Hpos) |].
    intros acc' w' (Hc & _ & file_name & doc & Hf & Hu & Hd & _).
    split; [exact Hc |]. exists file_name, doc. auto.
  - intros Hd Hten Hlate Hstay. subst credit. unfold credit_formula.
    rewrite Hd, Hlate. unfold dt_gt.
    replace (micros started <? micros (Participant.join_time data)) with true
      by (symmetry; apply Z.ltb_lt; lia).
    rewrite Hten.
    replace (micros started + 10 * 60000000 - micros started) with (10 * 60000000) by lia.
    rewrite Z.div_mul by lia.
    assert (15 <= (micros study_end - (micros started + 10 * 60000000)) / 60000000).
    { apply Z.div_le_lower_bound; lia. }
    lia.
Qed.

Lemma award_matches_credit_formula_witness :
  (session_start running_session = Some (on_3_may 0 14 15) /\
   micros (on_3_may 0 14 15) <= micros (Participant.join_time ten_minutes_late) /\
   micros (Participant.join_time ten_minutes_late) <= micros (on_3_may 1500000000 14 40) /\
   0 <= duration running_session /\
   existsb (fun m => id m =? id bob) [alice; bob] = true) /\
  minutes_to_award ten_minutes_late (session_start running_session)
    (on_3_may 1500000000 14 40) (duration running_session) = Ok 15 /\
  returns (award_one library_env running_session [alice; bob] (on_3_may 1500000000 14 40)
             empty_acc (id bob, ten_minutes_late)) initial_world
    (fun acc' w' =>
       credit_details acc' =
         [{| Credit.user := bob; Credit.minutes := 15; Credit.late := true |}] /\
       exists file_name doc,
         study_sessions w' = <[file_name := doc]> ∅ /\
         Doc.user_id doc = "20240503"%string /\ Doc.duration_minutes doc = 15).
Proof.
  assert (H1 : session_start running_session = Some (on_3_may 0 14 15)) by reflexivity.
  assert (H2 : micros (on_3_may 0 14 15) <= micros (Participant.join_time ten_minutes_late))
    by (simpl; lia).
  assert (H3 : micros (Participant.join_time ten_minutes_late)
               <= micros (on_3_may 1500000000 14 40)) by (simpl; lia).
  assert (H4 : 0 <= duration running_session) by (simpl; lia).
  assert (H5 : existsb (fun m => id m =? id bob) [alice; bob] = true) by reflexivity.
  split; [auto |].
  destruct (award_matches_credit_formula library_env running_session [alice; bob]
              (on_3_may 1500000000 14 40) empty_acc (id bob) ten_minutes_late
              (on_3_may 0 14 15) initial_world H1 H2 H3 H4 H5)
    as (Haward & _ & Hsettle & Hexample).
  assert (H15 : credit_formula (micros (Participant.join_time ten_minutes_late))
                  (micros (on_3_may 0 14 15)) (micros (on_3_may 1500000000 14 40))
                  (Participant.late_join ten_minutes_late) (duration running_session) = 15).
  { apply Hexample; [reflexivity | reflexivity | reflexivity | simpl; lia]. }
  rewrite H15 in Haward, Hsettle.
  split; [exact Haward |]. apply Hsettle. lia.
Defined.

(** C5.  At settlement a participant who is absent from the snapshot
    taken at [study_end], or who is present with a computed award of 0
    minutes (or less), leaves the world as it was: no session record is
    written and nothing is folded into the monthly aggregate, and no line
    of credit is noted.  The absent participant is counted in the
    left-early tally and nowhere else. *)
Theorem no_credit_no_record
    (env : Env) (self : PomodoroSession) (current : list Member) (study_end : datetime)
    (acc : AwardAcc) (user_id : Z) (data : Participant.t) (w : World) :
  let present := existsb (fun m => id m =? user_id) current in
  (present = false \/
   exists minutes,
     minutes_to_award data (session_start self) study_end (duration self) = Ok minutes /\
     minutes <= 0) ->
  award_one env self current study_end acc (user_id, data) w =
  (Ok {| credit_details := credit_details acc;
         awarded_users := if present then awarded_users acc ++ [Participant.user data]
                          else awarded_users acc;
         left_early := if present then left_early acc else left_early acc + 1 |},
   w).
Proof.
  intros present Hcase. subst present. unfold award_one.
  destruct (existsb (fun m => id m =? user_id) current) eqn:Hin.
  - destruct Hcase as [Habs | (minutes & Hm & Hle)]; [discriminate |].
    unfold bind, lift_result. rewrite Hm.
    replace (0 <? minutes) with false by (symmetry; apply Z.ltb_ge; exact Hle).
    reflexivity.
  - reflexivity.
Qed.

Lemma no_credit_no_record_witness :
  (existsb (fun m => id m =? id bob) [alice] = false /\
   existsb (fun m => id m =? id alice) [alice] = true /\
   minutes_to_award joined_at_the_end (session_start running_session)
     (on_3_may 1500000000 14 40) (duration running_session) = Ok 0) /\
  award_one library_env running_session [alice] (on_3_may 1500000000 14 40) empty_acc
    (id bob, ten_minutes_late) initial_world =
  (Ok {| credit_details := []; awarded_users := []; left_early := 1 |}, initial_world) /\
  award_one library_env running_session [alice] (on_3_may 1500000000 14 40) empty_acc
    (id alice, joined_at_the_end) initial_world =
  (Ok {| credit_details := []; awarded_users := [alice]; left_early := 0 |}, initial_world).
Proof.
  assert (H1 : existsb (fun m => id m =? id bob) [alice] = false) by reflexivity.
  assert (H2 : existsb (fun m => id m =? id alice) [alice] = true) by reflexivity.
  assert (H3 : minutes_to_award joined_at_the_end (session_start running_session)
                 (on_3_may 1500000000 14 40) (duration running_session) = Ok 0)
    by reflexivity.
  split; [auto |]. split.
  - exact (no_credit_no_record library_env running_session [alice]
             (on_3_may 1500000000 14 40) empty_acc (id bob) ten_minutes_late initial_world
             (or_introl H1)).
  - exact (no_credit_no_record library_env running_session [alice]
             (on_3_may 1500000000 14 40) empty_acc (id alice) joined_at_the_end
             initial_world
             (or_intror (ex_intro _ 0 (conj H3 (Z.le_refl 0))))).
Defined.

(* ===================================================================== *)
(** ** Participant set *)
(* ===================================================================== *)

(** C10.  [add_participant] does nothing for a member whose id is already
    in the participant set: the set and the world are unchanged.  And
    however often the monitor task runs its scan, every participant keeps
    the record of the first join: join time, organization and late flag. *)
Theorem add_participant_idempotent
    (env : Env) (member : Member) (self : PomodoroSession) (w : World) :
  is_Some (dict_get (id member) (participants self)) ->
  add_participant env member self w = (Ok self, w) /\
  forall steps, exists self' w',
    monitor_late_joiners env steps self w = (Ok self', w') /\
    forall uid data, dict_get uid (participants self) = Some data ->
                     dict_get uid (participants self') = Some data.
Proof.
  intros Hknown. split; [apply add_participant_known, Hknown |].
  intros steps.
  destruct (monitor_late_joiners_returns env steps self w) as (self' & w' & E & St).
  exists self', w'. split; [exact E |].
  destruct St as (_&_&_&_&_&_&HP&_). exact HP.
Qed.

Lemma add_participant_idempotent_witness :
  is_Some (dict_get (id bob) (participants running_session)) /\
  add_participant library_env bob running_session initial_world
  = (Ok running_session, initial_world).
Proof.
  assert (H : is_Some (dict_get (id bob) (participants running_session)))
    by (exists ten_minutes_late; reflexivity).
  split; [exact H |].
  exact (proj1 (add_participant_idempotent library_env bob running_session initial_world H)).
Defined.

(* ===================================================================== *)
(** ** Aggregation Engine *)
(* ===================================================================== *)

Section Aggregation.
Context (env : Env).

Lemma update_monthly_stats_keeps_leaderboards org minutes user_id username w :
  leaderboards_ok w ->
  returns (update_monthly_stats env org minutes user_id username) w
    (fun _ w' => leaderboards_ok w').
Proof.
  intros Hok.
  destruct (update_monthly_stats_run env org minutes user_id username w) as (n & t & E).
  eexists _, _. split; [exact E |].
  intros mid stats. cbn [monthly_stats set_monthly_stats].
  rewrite lookup_insert. case_decide as Hmid.
  - intros [= <-]. cbn [Stats.top_individuals]. apply upsert_individual_ok.
    unfold loaded_stats.
    destruct (monthly_stats w !! strftime_Ym (clock env (ticks w))) as [s|] eqn:Es.
    + apply Hok in Es. apply Es.
    + simpl. constructor.
  - apply Hok.
Qed.

(** C7.  A fold adds exactly [minutes] to the total of the named
    organization in the aggregate of the current month (an organization
    that had no entry starts from 0), whatever the session records hold,
    and leaves the total of every other organization, and every other
    month, as they were. *)
Theorem fold_increments_named_organization
    (org : string) (minutes user_id : Z) (username : string) (w : World) :
  let mid := strftime_Ym (clock env (ticks w)) in
  let before := loaded_stats env w mid in
  exists w' after,
    update_monthly_stats env org minutes user_id username w = (Ok true, w') /\
    monthly_stats w' !! mid = Some after /\
    org_total after org = org_total before org + minutes /\
    (forall other, other <> org ->
       Stats.organizations after !! other = Stats.organizations before !! other) /\
    (forall mid', mid' <> mid -> monthly_stats w' !! mid' = monthly_stats w !! mid').
Proof.
  intros mid before.
  destruct (update_monthly_stats_run env org minutes user_id username w) as (n & t & E).
  fold mid in E. fold before in E.
  eexists _, _. split; [exact E |].
  cbn [monthly_stats set_monthly_stats study_sessions set_ticks].
  split; [apply lookup_insert_eq |]. split; [| split].
  - unfold org_total. cbn [Stats.organizations]. rewrite add_org_minutes_lookup. reflexivity.
  - intros other Hne. cbn [Stats.organizations]. apply add_org_minutes_other, Hne.
  - intros mid' Hne. apply lookup_insert_ne. congruence.
Qed.

(** C3.  Starting from aggregates whose leaderboards are well formed (the
    empty database is), after any number of folds and session writes in
    any order every monthly aggregate has a leaderboard of at most 100
    entries, with at most one entry per user id, sorted in descending
    order of minutes. *)
Theorem leaderboard_invariant (calls : list DbCall) : forall w,
  leaderboards_ok w ->
  exists w', db_calls env calls w = (Ok tt, w') /\ leaderboards_ok w'.
Proof.
  induction calls as [| c calls IH]; intros w Hok; simpl.
  - exists w. split; [reflexivity | exact Hok].
  - assert (Hc : returns (db_call env c) w (fun _ w' => leaderboards_ok w')).
    { destruct c as [d | org minutes user_id username]; simpl.
      - eexists _, _. split; [apply save_study_session_run | exact Hok].
      - apply update_monthly_stats_keeps_leaderboards, Hok. }
    destruct Hc as (b & w1 & E1 & Hok1).
    destruct (IH w1 Hok1) as (w2 & E2 & Hok2).
    exists w2. split; [| exact Hok2]. unfold bind. rewrite E1. exact E2.
Qed.

End Aggregation.

Lemma leaderboard_invariant_witness :
  leaderboards_ok initial_world /\
  exists w',
    db_calls library_env
      [FoldSession "VTK" 25 7 "alice"; FoldSession "Wina" 25 8 "bob";
       FoldSession "VTK" 30 7 "alice"] initial_world = (Ok tt, w') /\
    leaderboards_ok w'.
Proof.
  assert (H : leaderboards_ok initial_world).
  { intros mid stats Hl. cbn in Hl. rewrite lookup_empty in Hl. discriminate Hl. }
  split; [exact H |].
  exact (leaderboard_invariant library_env _ initial_world H).
Defined.

(* ===================================================================== *)
(** ** User ids and dates in file names *)
(* ===================================================================== *)

Lemma length_append (a b : string) :
  String.length (a +:+ b) = (String.length a + String.length b)%nat.
Proof.
  induction a as [| x a IH]; [reflexivity |].
  rewrite append_cons. simpl. rewrite IH. reflexivity.
Qed.

(** A number of [k] digits or fewer prints with [k] characters or fewer. *)
Lemma pretty_N_go_short (k : nat) : forall (x : N) (s : string),
  (0 < x < 10 ^ N.of_nat k)%N ->
  (String.length (pretty_N_go x s) <= String.length s + k)%nat.
Proof.
  induction k as [| k IH]; intros x s Hx.
  - simpl in Hx. lia.
  - rewrite pretty_N_go_step by lia.
    destruct (N.eq_dec (x / 10)%N 0%N) as [E | E].
    + rewrite E, pretty_N_go_0. simpl. lia.
    + assert (Hq : (0 < x / 10 < 10 ^ N.of_nat k)%N).
      { split; [apply N.neq_0_lt_0; exact E |]. apply N.Div0.div_lt_upper_bound.
        rewrite Nat2N.inj_succ, N.pow_succ_r' in Hx. lia. }
      pose proof (IH _ (String (pretty_N_char (x `mod` 10)%N) s) Hq) as H.
      simpl in H. lia.
Qed.

(** A number of more than [k] digits prints with more than [k] characters. *)
Lemma pretty_N_go_long (k : nat) : forall (x : N) (s : string),
  (10 ^ N.of_nat k <= x)%N ->
  (String.length s + k + 1 <= String.length (pretty_N_go x s))%nat.
Proof.
  induction k as [| k IH]; intros x s Hx.
  - simpl in Hx. rewrite pretty_N_go_step by lia.
    assert (Hge : forall y t, (String.length t <= String.length (pretty_N_go y t))%nat).
    { intros y. induction (N.lt_wf_0 y) as [y _ IHy]. intros t.
      destruct (N.eq_dec y 0%N) as [-> | Hy]; [rewrite pretty_N_go_0; lia |].
      rewrite pretty_N_go_step by lia.
      assert (Hlt : (y / 10 < y)%N) by (apply N.div_lt; lia).
      pose proof (IHy _ Hlt (String (pretty_N_char (y `mod` 10)%N) t)) as H.
      simpl in H. lia. }
    pose proof (Hge (x / 10)%N (String (pretty_N_char (x `mod` 10)%N) s)) as H.
    simpl in H. lia.
  - assert (H10 : (0 < 10 ^ N.of_nat k)%N) by (apply N.neq_0_lt_0, N.pow_nonzero; lia).
    rewrite Nat2N.inj_succ, N.pow_succ_r' in Hx.
    rewrite pretty_N_go_step by lia.
    assert (Hq : (10 ^ N.of_nat k <= x / 10)%N) by (apply N.div_le_lower_bound; lia).
    pose proof (IH _ (String (pretty_N_char (x `mod` 10)%N) s) Hq) as H.
    simpl in H. lia.
Qed.

Lemma str_short (n : Z) : 0 <= n <= 9999 -> (String.length (str n) <= 4)%nat.
Proof.
  intros Hn. unfold str, pretty, pretty_Z. destruct n as [| p | p]; [simpl; lia | | lia].
  unfold pretty, pretty_positive, pretty, pretty_N.
  case_decide; [discriminate |].
  apply (pretty_N_go_short 4 (N.pos p) EmptyString). simpl. lia.
Qed.

Lemma fmt02d_short (n : Z) : 0 <= n <= 99 -> (String.length (fmt02d n) <= 2)%nat.
Proof.
  intros Hn. unfold fmt02d.
  destruct (Z.leb_spec 0 n) as [_ | ?]; [| lia].
  destruct (Z.ltb_spec n 10) as [Hlt | Hge]; cbn [andb].
  - rewrite append_cons, append_nil. simpl.
    unfold str, pretty, pretty_Z. destruct n as [| p | p]; [simpl; lia | | lia].
    unfold pretty, pretty_positive, pretty, pretty_N.
    case_decide; [discriminate |].
    pose proof (pretty_N_go_short 1 (N.pos p) EmptyString) as Hlen. simpl in Hlen. lia.
  - unfold str, pretty, pretty_Z. destruct n as [| p | p]; [simpl; lia | | lia].
    unfold pretty, pretty_positive, pretty, pretty_N.
    case_decide; [discriminate |].
    apply (pretty_N_go_short 2 (N.pos p) EmptyString). simpl. lia.
Qed.

Lemma snowflake_long (user_id : Z) :
  snowflake user_id -> (9 <= String.length (str user_id))%nat.
Proof.
  unfold snowflake. intros Hn. unfold str, pretty, pretty_Z.
  destruct user_id as [| p | p]; [lia | | lia].
  unfold pretty, pretty_positive, pretty, pretty_N.
  case_decide; [discriminate |].
  pose proof (pretty_N_go_long 8 (N.pos p) EmptyString) as Hlen. simpl in Hlen.
  apply Hlen. lia.
Qed.

(** A date prints with eight characters at most: no snowflake prints as
    the date of a write. *)
Lemma snowflake_is_no_date (user_id : Z) (t : datetime) :
  snowflake user_id -> calendar_date t -> str user_id <> stamp_date t.
Proof.
  intros Hid (Hy & Hm & Hd & _) E. apply snowflake_long in Hid.
  rewrite E in Hid. unfold stamp_date in Hid. rewrite !length_append in Hid.
  pose proof (str_short (dt_year t) ltac:(lia)).
  pose proof (fmt02d_short (dt_month t) ltac:(lia)).
  pose proof (fmt02d_short (dt_day t) ltac:(lia)). lia.
Qed.

Lemma written_by_save_others_dates (user_id : Z) (files : gmap string Doc.t) :
  snowflake user_id -> written_by_save files -> written_for_others_dates user_id files.
Proof.
  intros Hid Hfiles file_name d Hl.
  destruct (Hfiles file_name d Hl) as (owner & t & E & Ho & Hu & Hy & Hm & Hd & Ht).
  exists owner, t. repeat (split; [assumption |]). split.
  - unfold calendar_ok. destruct Ht as (?&?&?&?&?&?). lia.
  - apply snowflake_is_no_date; assumption.
Qed.

(** The new entry is on the leaderboard unless a hundred entries with at
    least as many minutes stand before it. *)
Lemma upsert_individual_present (entry : Ind.t) (top : list Ind.t) :
  entry ∈ upsert_individual entry top \/
  (length (upsert_individual entry top) = 100%nat /\
   forall ind, ind ∈ upsert_individual entry top -> Ind.minutes entry <= Ind.minutes ind).
Proof.
  unfold upsert_individual.
  set (s := sort_desc Ind.minutes
              (filter (fun ind => Ind.user_id ind <> Ind.user_id entry) top ++ [entry])).
  assert (Hin : entry ∈ s).
  { unfold s. rewrite sort_desc_perm. apply elem_of_app. right. left. }
  assert (Hs : StronglySorted (descending Ind.minutes) s) by apply sort_desc_sorted.
  rewrite <- (take_drop 100 s) in Hin, Hs.
  apply elem_of_app in Hin as [Hin | Hin]; [left; exact Hin | right].
  split.
  - apply length_take_le.
    destruct (Nat.le_gt_cases 100 (length s)) as [? | Hlt]; [assumption |].
    rewrite drop_ge in Hin by lia. inversion Hin.
  - intros ind Hind. exact (proj2 (sorted_app_inv Ind.minutes _ _ Hs) ind entry Hind Hin).
Qed.

(** C2.  For a user with a Discord id, in a database of files written by
    [save_study_session], the fold upserts the entry of the user with the
    sum of [duration_minutes] over the user's records of the month.  The
    value is computed from the session files alone: it is the same for
    every aggregate that earlier folds, in whatever order, have left.
    The entry is the only one of the user afterwards, and it is on the
    leaderboard unless the slice to 100 entries cuts it off behind a
    hundred entries with at least as many minutes. *)
Theorem fold_upserts_sum_of_user_records
    (env : Env) (org : string) (minutes user_id : Z) (username : string)
    (aggregate : gmap month_id Stats.t) (w : World) :
  let mid := strftime_Ym (clock env (ticks w)) in
  let entry := {| Ind.user_id := str user_id; Ind.username := username; Ind.org := org;
                  Ind.minutes := records_total (study_sessions w) user_id mid |} in
  snowflake user_id ->
  calendar_date (clock env (ticks w)) ->
  written_by_save (study_sessions w) ->
  exists w' after,
    update_monthly_stats env org minutes user_id username (set_monthly_stats aggregate w)
      = (Ok true, w') /\
    study_sessions w' = study_sessions w /\
    monthly_stats w' !! mid = Some after /\
    (forall ind, ind ∈ Stats.top_individuals after -> Ind.user_id ind = str user_id ->
                 ind = entry) /\
    (entry ∈ Stats.top_individuals after \/
     (length (Stats.top_individuals after) = 100%nat /\
      forall ind, ind ∈ Stats.top_individuals after ->
                  Ind.minutes entry <= Ind.minutes ind)).
Proof.
  intros mid entry Hid Hnow Hfiles.
  destruct (update_monthly_stats_run env org minutes user_id username
              (set_monthly_stats aggregate w)) as (n & t & E).
  cbn [ticks set_monthly_stats study_sessions] in E. fold mid in E.
  assert (Htotal : selected_total (study_sessions w) user_id mid =
                   records_total (study_sessions w) user_id mid).
  { destruct Hnow as (Hy & Hm & _). unfold snowflake in Hid.
    apply (selected_total_of_undated_user _ user_id (fst mid) (snd mid));
      [lia | cbn; lia | cbn; lia |].
    apply written_by_save_others_dates; assumption. }
  rewrite Htotal in E. fold entry in E.
  eexists _, _. split; [exact E |]. split; [reflexivity |].
  cbn [monthly_stats set_monthly_stats]. split; [apply lookup_insert_eq |].
  cbn [Stats.top_individuals]. split.
  - intros ind Hin Huser. apply (upsert_individual_entry entry _ ind Hin Huser).
  - apply upsert_individual_present.
Qed.

Lemma fold_upserts_sum_of_user_records_witness :
  (snowflake (id carol) /\
   calendar_date (clock reading_room_env (ticks after_reading_room)) /\
   written_by_save (study_sessions after_reading_room)) /\
  exists w' after,
    update_monthly_stats reading_room_env "VTK" 25 (id carol) "carol"
      (set_monthly_stats ∅ after_reading_room) = (Ok true, w') /\
    study_sessions w' = study_sessions after_reading_room /\
    monthly_stats w' !! strftime_Ym (clock reading_room_env (ticks after_reading_room))
      = Some after /\
    (forall ind, ind ∈ Stats.top_individuals after ->
       Ind.user_id ind = str (id carol) ->
       ind = {| Ind.user_id := str (id carol); Ind.username := "carol"; Ind.org := "VTK";
                Ind.minutes :=
                  records_total (study_sessions after_reading_room) (id carol)
                    (strftime_Ym (clock reading_room_env (ticks after_reading_room))) |}) /\
    ({| Ind.user_id := str (id carol); Ind.username := "carol"; Ind.org := "VTK";
        Ind.minutes :=
          records_total (study_sessions after_reading_room) (id carol)
            (strftime_Ym (clock reading_room_env (ticks after_reading_room))) |}
       ∈ Stats.top_individuals after \/
     (length (Stats.top_individuals after) = 100%nat /\
      forall ind, ind ∈ Stats.top_individuals after ->
        Ind.minutes
          {| Ind.user_id := str (id carol); Ind.username := "carol"; Ind.org := "VTK";
             Ind.minutes :=
               records_total (study_sessions after_reading_room) (id carol)
                 (strftime_Ym (clock reading_room_env (ticks after_reading_room))) |}
        <= Ind.minutes ind)).
Proof.
  assert (H1 : snowflake (id carol)) by (unfold snowflake; cbn; lia).
  assert (H2 : calendar_date (clock reading_room_env (ticks after_reading_room)))
    by (vm_compute; repeat split; discriminate).
  assert (H3 : written_by_save (study_sessions after_reading_room)).
  { intros file_name d H. apply elem_of_map_to_list in H. vm_compute in H.
    apply elem_of_cons in H as [[= -> ->] | H];
      [| apply elem_of_cons in H as [[= -> ->] | H]; [| inversion H]].
    - exists 1235813213455891443, (on_3_may 0 14 40). unfold calendar_date. cbn.
      repeat split; try lia; reflexivity.
    - exists 1235813213455891442, (on_3_may 0 14 40). unfold calendar_date. cbn.
      repeat split; try lia; reflexivity. }
  split; [auto |].
  exact (fold_upserts_sum_of_user_records reading_room_env "VTK" 25 (id carol) "carol"
           ∅ after_reading_room H1 H2 H3).
Defined.

(** In the reading room each of the two is on the leaderboard with the 25
    minutes of the own record, and the selection by file name finds just
    that record. *)
Example snowflakes_are_counted_apart :
  records_total (study_sessions after_reading_room) (id carol) (2024, 5) = 25 /\
  selected_total (study_sessions after_reading_room) (id carol) (2024, 5) = 25 /\
  records_total (study_sessions after_reading_room) (id dave) (2024, 5) = 25 /\
  selected_total (study_sessions after_reading_room) (id dave) (2024, 5) = 25 /\
  Ind.minutes <$> (default [] (Stats.top_individuals <$>
                     monthly_stats after_reading_room !! (2024, 5))) = [25; 25].
Proof. vm_compute. repeat split; reflexivity. Qed.

(** The condition on the user id is needed.  Alice (id 7) and Bob, whose
    id 20240503 prints as the date of the write, study together on 3 May
    2024 and each earn 25 minutes.  Bob's only record holds 25 minutes,
    yet the fold puts 50 on the leaderboard for him: the name of Alice's
    file contains "_20240503_", the date of the write, so the scan by file
    name takes her record for one of his.  No id that Discord gives is as
    short as a date. *)
Remark leaderboard_counts_another_users_record :
  let w := snd (start library_env (new_session library 25 5) initial_world) in
  fst <$> map_to_list (study_sessions w) =
    ["2024-05-03_7_20240503_144000.pkl"; "2024-05-03_20240503_20240503_144000.pkl"]%string /\
  records_total (study_sessions w) (id bob) (2024, 5) = 25 /\
  selected_total (study_sessions w) (id bob) (2024, 5) = 50 /\
  Stats.top_individuals <$> monthly_stats w !! (2024, 5) =
    Some [{| Ind.user_id := "20240503"; Ind.username := "bob"; Ind.org := "Wina";
             Ind.minutes := 50 |};
          {| Ind.user_id := "7"; Ind.username := "alice"; Ind.org := "VTK";
             Ind.minutes := 25 |}].
Proof. vm_compute. repeat split; reflexivity. Qed.

(* ===================================================================== *)
(** ** Seeding the participant set *)
(* ===================================================================== *)

(** C4 fails on the code.  The clock advances by a microsecond between
    the reading that [start] stores as the start of the session and the
    reading that [add_participant] takes: Alice, who is in the channel when
    the session starts, is recorded with a join time after the start and
    with the late flag set, and her persisted record says so too. *)
Theorem seeded_participant_recorded_as_late :
  let exit := start library_env (new_session library 25 5) initial_world in
  exists self',
    fst exit = Ok self' /\
    session_start self' = Some (on_3_may 0 14 15) /\
    dict_get (id alice) (participants self') =
      Some {| Participant.user := alice; Participant.organization := "VTK";
              Participant.join_time := on_3_may 1 14 15;
              Participant.late_join := true |} /\
    Doc.late_join <$> study_sessions (snd exit) !! "2024-05-03_7_20240503_144000.pkl"%string
      = Some true.
Proof. vm_compute. eexists. repeat split; reflexivity. Qed.

(** The claim does hold for a member whose join is read at the very
    instant of the start: the clock did not advance in between. *)
Lemma seeded_on_time_when_clock_stands_still env member self started w :
  dict_get (id member) (participants self) = None ->
  session_start self = Some started ->
  clock env (ticks w) = started ->
  exists self' w',
    add_participant env member self w = (Ok self', w') /\
    exists data, dict_get (id member) (participants self') = Some data /\
                 Participant.join_time data = started /\
                 Participant.late_join data = false.
Proof.
  intros Hnew Hs Hclock.
  rewrite (add_participant_new env member self started w Hnew Hs).
  eexists _, _. split; [reflexivity |]. cbn [participants set_participants].
  eexists. split.
  - rewrite dict_get_app, Hnew. simpl. rewrite Z.eqb_refl. reflexivity.
  - cbn. split; [exact Hclock |]. rewrite Hclock. unfold dt_gt. apply Z.ltb_irrefl.
Qed.

(* ===================================================================== *)
(** ** Admission and the registry *)
(* ===================================================================== *)

(** C6 as stated fails: a study time outside [1,120] is not always
    answered with InvalidConfig.  On a channel without occupants the
    command with 0 study minutes answers ChannelEmpty; the emptiness of the
    channel is checked first. *)
Lemma out_of_range_on_empty_channel_is_channel_empty :
  ~ (1 <= 0 <= 120) /\
  pomodoro_slash empty_env (start empty_env) {| user_voice := Some library |} 0 5
    initial_world
  = (Ok tt, only_notified (ChannelIsEmpty library) initial_world) /\
  start_error (ChannelIsEmpty library) = Some ChannelEmpty /\
  start_error (ChannelIsEmpty library) <> Some InvalidConfig.
Proof.
  split; [lia |]. split; [reflexivity |]. split; [reflexivity | discriminate].
Qed.

(** C6, amended.  The command checks in this order and answers the first
    check that fails: the caller is in no voice channel; the channel has
    no non-bot occupant (ChannelEmpty); the channel already has an active
    session (Conflict); the study time is outside [1,120] or the break
    time is outside [0,60] (InvalidConfig).  A rejected command sends its
    notice and does nothing else: no session is created or run, no handle
    is added, and the registry, the handles of active sessions included,
    and the database are as they were. *)
Theorem start_rejections_in_order
    (env : Env) (run : PomodoroSession -> M PomodoroSession)
    (interaction : Interaction) (s b : Z) (w : World) :
  let answer := pomodoro_slash env run interaction s b w in
  (user_voice interaction = None -> answer = (Ok tt, only_notified MustBeInVoice w)) /\
  (forall c, user_voice interaction = Some c ->
     (occupants_at_command env w c = [] ->
      answer = (Ok tt, only_notified (ChannelIsEmpty c) w)) /\
     (occupants_at_command env w c <> [] ->
      is_Some (active_sessions w !! channel_id c) ->
      answer = (Ok tt, only_notified (AlreadyActive c) w)) /\
     (occupants_at_command env w c <> [] ->
      active_sessions w !! channel_id c = None ->
      s < 1 \/ 120 < s \/ b < 0 \/ 60 < b ->
      exists n, start_error n = Some InvalidConfig /\
                answer = (Ok tt, only_notified n w))) /\
  (forall n, active_sessions (only_notified n w) = active_sessions w /\
             study_sessions (only_notified n w) = study_sessions w /\
             monthly_stats (only_notified n w) = monthly_stats w /\
             phases (only_notified n w) = phases w /\
             outbox (only_notified n w) = outbox w ++ [n]).
Proof.
  intros answer. subst answer. split; [| split].
  - apply pomodoro_slash_not_in_voice.
  - intros c Hc. split; [| split].
    + apply pomodoro_slash_empty, Hc.
    + apply pomodoro_slash_conflict, Hc.
    + intros He Ha Hrange.
      destruct (Z_lt_dec s 1) as [Hs1 | Hs1];
        [| destruct (Z_lt_dec 120 s) as [Hs2 | Hs2]].
      * exists StudyTimeRange. split; [reflexivity |].
        apply (pomodoro_slash_study_range env run interaction c); auto.
      * exists StudyTimeRange. split; [reflexivity |].
        apply (pomodoro_slash_study_range env run interaction c); auto.
      * exists BreakTimeRange. split; [reflexivity |].
        apply (pomodoro_slash_break_range env run interaction c); auto; lia.
  - intros n. repeat split.
Qed.

Lemma start_rejections_in_order_witness :
  (user_voice {| user_voice := Some library |} = Some library /\
   occupants_at_command library_env initial_world library <> [] /\
   active_sessions initial_world !! channel_id library = None /\
   (0 < 1 \/ 120 < 0 \/ 5 < 0 \/ 60 < 5) /\
   occupants_at_command empty_env initial_world library = [] /\
   is_Some (active_sessions (admitted_world library 25 5 initial_world)
              !! channel_id library)) /\
  (exists n, start_error n = Some InvalidConfig /\
     pomodoro_slash library_env (start library_env) {| user_voice := Some library |} 0 5
       initial_world = (Ok tt, only_notified n initial_world)) /\
  pomodoro_slash library_env (start library_env) {| user_voice := None |} 25 5
    initial_world = (Ok tt, only_notified MustBeInVoice initial_world) /\
  pomodoro_slash empty_env (start empty_env) {| user_voice := Some library |} 25 5
    initial_world = (Ok tt, only_notified (ChannelIsEmpty library) initial_world) /\
  pomodoro_slash library_env (start library_env) {| user_voice := Some library |} 25 5
    (admitted_world library 25 5 initial_world)
  = (Ok tt, only_notified (AlreadyActive library) (admitted_world library 25 5 initial_world)).
Proof.
  assert (H1 : user_voice {| user_voice := Some library |} = Some library) by reflexivity.
  assert (H2 : occupants_at_command library_env initial_world library <> [])
    by (vm_compute; discriminate).
  assert (H3 : active_sessions initial_world !! channel_id library = None)
    by apply lookup_empty.
  assert (H4 : 0 < 1 \/ 120 < 0 \/ 5 < 0 \/ 60 < 5) by (left; lia).
  assert (H5 : occupants_at_command empty_env initial_world library = []) by reflexivity.
  assert (H6 : is_Some (active_sessions (admitted_world library 25 5 initial_world)
                          !! channel_id library))
    by (eexists; apply lookup_insert_eq).
  assert (H7 : occupants_at_command library_env (admitted_world library 25 5 initial_world)
                 library <> []) by (vm_compute; discriminate).
  split; [auto 10 |]. split; [| split; [| split]].
  - exact (proj2 (proj2 (proj1 (proj2
      (start_rejections_in_order library_env (start library_env)
         {| user_voice := Some library |} 0 5 initial_world)) library H1)) H2 H3 H4).
  - exact (proj1 (start_rejections_in_order library_env (start library_env)
                    {| user_voice := None |} 25 5 initial_world) eq_refl).
  - exact (proj1 (proj1 (proj2
      (start_rejections_in_order empty_env (start empty_env)
         {| user_voice := Some library |} 25 5 initial_world)) library H1) H5).
  - exact (proj1 (proj2 (proj1 (proj2
      (start_rejections_in_order library_env (start library_env)
         {| user_voice := Some library |} 25 5
         (admitted_world library 25 5 initial_world))) library H1)) H7 H6).
Defined.

(** C8.  Once a command is admitted the handle of its channel is in the
    registry while the session runs, and it is removed when the session's
    control flow leaves, however it leaves: [start] returning at the end,
    [start] returning at once (abort), or an exception; the exception, if
    any, is passed on.  The registry holds one handle per channel id: a
    further command on the channel is refused while the handle is there,
    and is admitted again afterwards. *)
Theorem handle_retired_on_every_exit
    (env : Env) (run : PomodoroSession -> M PomodoroSession)
    (interaction : Interaction) (c : Channel) (s b : Z) (w : World) :
  user_voice interaction = Some c ->
  occupants_at_command env w c <> [] ->
  active_sessions w !! channel_id c = None ->
  1 <= s <= 120 ->
  0 <= b <= 60 ->
  let exit := run (new_session c s b) (admitted_world c s b w) in
  active_sessions (admitted_world c s b w) !! channel_id c = Some (new_session c s b) /\
  exists w',
    pomodoro_slash env run interaction s b w =
      (match fst exit with Ok _ => Ok tt | Raise e => Raise e end, w') /\
    active_sessions w' = delete (channel_id c) (active_sessions (snd exit)) /\
    active_sessions w' !! channel_id c = None /\
    (forall run' s' b' w_live,
       occupants_at_command env w_live c <> [] ->
       is_Some (active_sessions w_live !! channel_id c) ->
       pomodoro_slash env run' interaction s' b' w_live =
       (Ok tt, only_notified (AlreadyActive c) w_live)) /\
    (forall run' s' b',
       occupants_at_command env w' c <> [] -> 1 <= s' <= 120 -> 0 <= b' <= 60 ->
       pomodoro_slash env run' interaction s' b' w' =
       try_finally (run' (new_session c s' b') ;;; ret tt) (retire c)
         (admitted_world c s' b' w')).
Proof.
  intros Hc He Ha Hs Hb exit.
  split; [apply lookup_insert_eq |].
  rewrite (pomodoro_slash_admitted env run interaction c s b w Hc He Ha Hs Hb).
  destruct (run (new_session c s b) (admitted_world c s b w)) as [outcome w_exit] eqn:Erun.
  assert (Ebody : (run (new_session c s b) ;;; ret tt) (admitted_world c s b w) =
                  (match outcome with Ok _ => Ok tt | Raise e => Raise e end, w_exit)).
  { unfold bind. rewrite Erun. destruct outcome; reflexivity. }
  destruct (try_finally_retire _ c _ _ _ Ebody) as (w' & Efin & Hreg & _).
  subst exit. cbn [fst snd].
  assert (Hgone : active_sessions w' !! channel_id c = None)
    by (rewrite Hreg; apply lookup_delete_eq).
  exists w'. split; [exact Efin |]. split; [exact Hreg |]. split; [exact Hgone |].
  split.
  - intros run' s' b' w_live He' Hlive.
    apply (pomodoro_slash_conflict env run' interaction c); assumption.
  - intros run' s' b' He' Hs' Hb'.
    apply (pomodoro_slash_admitted env run' interaction c); assumption.
Qed.

Lemma handle_retired_on_every_exit_witness :
  (user_voice {| user_voice := Some library |} = Some library /\
   occupants_at_command library_env initial_world library <> [] /\
   active_sessions initial_world !! channel_id library = None /\
   1 <= 25 <= 120 /\ 0 <= 5 <= 60) /\
  exists w',
    pomodoro_slash library_env (start library_env) {| user_voice := Some library |}
      25 5 initial_world = (Ok tt, w') /\
    active_sessions w' !! channel_id library = None /\
    pomodoro_slash library_env (start library_env) {| user_voice := Some library |}
      30 10 w' =
    try_finally (start library_env (new_session library 30 10) ;;; ret tt)
      (retire library) (admitted_world library 30 10 w').
Proof.
  assert (H1 : user_voice {| user_voice := Some library |} = Some library) by reflexivity.
  assert (H2 : occupants_at_command library_env initial_world library <> [])
    by (vm_compute; discriminate).
  assert (H3 : active_sessions initial_world !! channel_id library = None)
    by apply lookup_empty.
  assert (H4 : 1 <= 25 <= 120) by lia.
  assert (H5 : 0 <= 5 <= 60) by lia.
  split; [auto |].
  destruct (handle_retired_on_every_exit library_env (start library_env)
              {| user_voice := Some library |} library 25 5 initial_world H1 H2 H3 H4 H5)
    as (_ & w' & Erun & _ & Hgone & _ & Hagain).
  exists w'. split; [| split; [exact Hgone |]].
  - rewrite Erun.
    destruct (start_returns library_env (new_session library 25 5)
                (admitted_world library 25 5 initial_world) eq_refl) as (s' & w1 & E & _).
    rewrite E. reflexivity.
  - apply Hagain; [vm_compute; discriminate | lia | lia].
Defined.

(* ===================================================================== *)
(** ** Session State Machine *)
(* ===================================================================== *)

(** C9 as stated fails for the Studying state.  Alice is in the library
    when the session starts and leaves at once; every progress tick of the
    study period counts 0 occupants, and the session goes on to Settling,
    OnBreak and Completed.  It never enters Aborted, and writes no record. *)
Lemma empty_channel_while_studying_is_not_aborted :
  let w := snd (start deserted_env (new_session library 1 1) initial_world) in
  outbox w =
    [SessionStarted 1 1 1; StudyTimerPosted; StudyTimerEdit 60 0; StudyTimerEdit 30 0;
     StudyComplete; BreakPosted []; BreakTimerEdit 60; BreakTimerEdit 45;
     BreakTimerEdit 30; BreakTimerEdit 15; SessionComplete] /\
  phases w = [Starting; Studying; Settling; OnBreak; Completed] /\
  ~ In Aborted (phases w) /\
  study_sessions w = ∅.
Proof.
  vm_compute. split; [reflexivity |]. split; [reflexivity |]. split; [| reflexivity].
  intros H. repeat (destruct H as [H | H]; [discriminate H |]). exact H.
Qed.

(** C9, amended.  A session aborts in the Starting state only: when the
    channel has no non-bot occupant at the moment [start] looks at it, the
    session goes from Starting to Aborted, touches neither the registry
    nor the database, and enters no other phase.  Otherwise it goes through
    Studying, Settling, OnBreak and Completed whatever the occupants of the
    channel are from then on; the study period ends by its timer. *)
Theorem aborted_only_from_starting
    (env : Env) (c : Channel) (study_minutes break_minutes : Z) (w : World) :
  exists self' w',
    start env (new_session c study_minutes break_minutes) w = (Ok self', w') /\
    active_sessions w' = active_sessions w /\
    match occupants_at_start env w c with
    | [] =>
        phases w' = phases w ++ [Starting; Aborted] /\
        study_sessions w' = study_sessions w /\ monthly_stats w' = monthly_stats w
    | _ :: _ =>
        phases w' = phases w ++ [Starting; Studying; Settling; OnBreak; Completed]
    end.
Proof.
  destruct (start_returns env (new_session c study_minutes break_minutes) w eq_refl)
    as (self' & w' & E & Hreg & Hphases).
  exists self', w'. split; [exact E |]. split; [exact Hreg | exact Hphases].
Qed.

(* ===================================================================== *)
(** ** File-system database: session files *)
(* ===================================================================== *)

Lemma get_user_sessions_run uid year month w :
  get_user_sessions uid year month w =
  (Ok (snd <$> filter (fun f => session_file_selected uid year month (fst f) = true)
                 (map_to_list (study_sessions w))), w).
Proof. reflexivity. Qed.

Lemma selected_file_is_returned uid year month (files : gmap string Doc.t) file_name d :
  files !! file_name = Some d ->
  session_file_selected uid year month file_name = true ->
  d ∈ snd <$> filter (fun f => session_file_selected uid year month (fst f) = true)
                (map_to_list files).
Proof.
  intros Hl Hs. apply list_elem_of_fmap. exists (file_name, d). split; [reflexivity |].
  apply list_elem_of_filter. split; [exact Hs |]. apply elem_of_map_to_list, Hl.
Qed.

(** X1.  A record that [save_study_session] has written is found again:
    [get_user_sessions] returns it for its user, for the month of the
    record and also when no month is asked for. *)
Theorem saved_session_is_found (env : Env) (d : Doc.t) (uid : Z) (w : World) :
  0 <= uid -> Doc.user_id d = str uid ->
  0 < Doc.year d -> 1 <= Doc.month d <= 12 ->
  0 <= dt_day (Doc.session_start d) ->
  calendar_ok (clock env (ticks w)) ->
  exists w' of_month all,
    save_study_session env d w = (Ok true, w') /\
    get_user_sessions uid (Some (Doc.year d)) (Some (Doc.month d)) w' = (Ok of_month, w') /\
    get_user_sessions uid None None w' = (Ok all, w') /\
    d ∈ of_month /\ d ∈ all.
Proof.
  intros Huid Hd Hy Hm Hday Ht.
  rewrite save_study_session_run. eexists _, _, _.
  split; [reflexivity |]. rewrite !get_user_sessions_run.
  split; [reflexivity |]. split; [reflexivity |].
  cbn [study_sessions set_study_sessions set_ticks].
  assert (Hsel : session_file_selected uid (Some (Doc.year d)) (Some (Doc.month d))
                   (session_file_name d (strftime_stamp (clock env (ticks w)))) = true).
  { apply (session_file_selected_spec uid uid); auto; lia. }
  split.
  - eapply selected_file_is_returned; [apply lookup_insert_eq | exact Hsel].
  - eapply selected_file_is_returned; [apply lookup_insert_eq |].
    unfold session_file_selected in *. apply andb_true_iff in Hsel as [Hin _].
    rewrite Hin. reflexivity.
Qed.

Lemma saved_session_is_found_witness :
  exists w' of_month all,
    save_study_session library_env alice_record initial_world = (Ok true, w') /\
    get_user_sessions 7 (Some 2024) (Some 5) w' = (Ok of_month, w') /\
    get_user_sessions 7 None None w' = (Ok all, w') /\
    alice_record ∈ of_month /\ alice_record ∈ all.
Proof.
  apply (saved_session_is_found library_env alice_record 7 initial_world);
    [lia | reflexivity | cbn; lia | cbn; lia | cbn; lia | unfold calendar_ok; cbn; lia].
Defined.

(** Two strings that are cut at a separator which their heads lack. *)
Lemma cut_at_separator c : forall A A' R R',
  lacks c A -> lacks c A' ->
  A +:+ String c R = A' +:+ String c R' -> A = A' /\ R = R'.
Proof.
  induction A as [| a A IH]; intros [| a' A'] R R' HA HA';
    rewrite ?append_nil, ?append_cons; simpl in *.
  - intros [= ->]. auto.
  - intros [= <- _]. destruct HA' as [Hne _]. contradiction.
  - intros [= -> _]. destruct HA as [Hne _]. contradiction.
  - intros [= -> E]. destruct HA as [_ HA], HA' as [_ HA'].
    destruct (IH A' R R' HA HA' E) as [-> ->]. auto.
Qed.

Lemma date_prefix_lacks_underscore d :
  0 <= Doc.year d -> 0 <= Doc.month d -> 0 <= dt_day (Doc.session_start d) ->
  lacks "_" (str (Doc.year d) +:+ String "-" (fmt02d (Doc.month d) +:+
             String "-" (fmt02d (dt_day (Doc.session_start d))))).
Proof.
  intros Hy Hm Hd.
  apply lacks_app; [apply digits_lacks; [reflexivity | apply str_digits, Hy] |].
  split; [discriminate |].
  apply lacks_app; [apply digits_lacks; [reflexivity | apply fmt02d_digits, Hm] |].
  split; [discriminate |].
  apply digits_lacks; [reflexivity | apply fmt02d_digits, Hd].
Qed.

Lemma session_file_name_shape d stamp :
  session_file_name d stamp =
  (str (Doc.year d) +:+ String "-" (fmt02d (Doc.month d) +:+
     String "-" (fmt02d (dt_day (Doc.session_start d)))))
  +:+ String "_" (Doc.user_id d +:+ String "_" (stamp +:+ ".pkl")).
Proof.
  unfold session_file_name.
  repeat (rewrite append_assoc || rewrite append_cons || rewrite append_nil).
  reflexivity.
Qed.

(** The file name tells the user: two names that agree are of one user. *)
Lemma session_file_name_owner d d' stamp stamp' owner owner' :
  0 <= owner -> 0 <= owner' ->
  Doc.user_id d = str owner -> Doc.user_id d' = str owner' ->
  0 <= Doc.year d -> 0 <= Doc.month d -> 0 <= dt_day (Doc.session_start d) ->
  0 <= Doc.year d' -> 0 <= Doc.month d' -> 0 <= dt_day (Doc.session_start d') ->
  session_file_name d stamp = session_file_name d' stamp' -> owner = owner'.
Proof.
  intros Ho Ho' Hd Hd' Hy Hm Hday Hy' Hm' Hday' E.
  rewrite !session_file_name_shape in E.
  apply (cut_at_separator "_") in E as [_ E];
    [| apply date_prefix_lacks_underscore; assumption
     | apply date_prefix_lacks_underscore; assumption].
  rewrite Hd, Hd' in E.
  apply (cut_at_separator "_") in E as [E _];
    [| apply digits_lacks; [reflexivity | apply str_digits; assumption]
     | apply digits_lacks; [reflexivity | apply str_digits; assumption]].
  apply str_inj, E.
Qed.

(** X2.  Saving a record of one user never replaces a file of another
    user: the file name holds the user id between its first two
    underscores, so the names of two users differ. *)
Theorem save_keeps_other_users_records
    (env : Env) (d : Doc.t) (uid : Z) (w : World)
    (file_name : string) (d' : Doc.t) (owner : Z) :
  0 <= uid -> Doc.user_id d = str uid ->
  0 <= Doc.year d -> 0 <= Doc.month d -> 0 <= dt_day (Doc.session_start d) ->
  study_sessions w !! file_name = Some d' ->
  written_for owner file_name d' ->
  owner <> uid ->
  exists w', save_study_session env d w = (Ok true, w') /\
             study_sessions w' !! file_name = Some d'.
Proof.
  intros Huid Hd Hy Hm Hday Hl (t & -> & Ho & Hd' & Hy' & Hm' & Hday' & _) Hne.
  rewrite save_study_session_run. eexists. split; [reflexivity |].
  cbn [study_sessions set_study_sessions set_ticks].
  rewrite lookup_insert_ne; [exact Hl |].
  intros E. apply Hne. symmetry.
  eapply (session_file_name_owner d d'); eauto; lia.
Qed.

Lemma save_keeps_other_users_records_witness :
  (study_sessions after_bobs_save !! bobs_file = Some bob_record /\
   written_for 20240503 bobs_file bob_record) /\
  exists w',
    save_study_session library_env alice_record after_bobs_save = (Ok true, w') /\
    study_sessions w' !! bobs_file = Some bob_record.
Proof.
  assert (H1 : study_sessions after_bobs_save !! bobs_file = Some bob_record)
    by apply lookup_singleton_eq.
  assert (H2 : written_for 20240503 bobs_file bob_record).
  { exists (on_3_may 0 14 15). unfold calendar_ok. cbn.
    repeat split; try lia; reflexivity. }
  split; [auto |].
  apply (save_keeps_other_users_records library_env alice_record 7 after_bobs_save
           bobs_file bob_record 20240503);
    [lia | reflexivity | cbn; lia | cbn; lia | cbn; lia | exact H1 | exact H2 | lia].
Defined.

(** X3.  The file name tells the time of the write to the second only.
    Two records of one user and one day that are saved within the same
    second share a file name, and the second save replaces the first
    record: the database then holds the second record alone under that
    name. *)
Theorem same_second_saves_overwrite (env : Env) (d1 d2 : Doc.t) (w : World) :
  Doc.user_id d1 = Doc.user_id d2 ->
  Doc.year d1 = Doc.year d2 -> Doc.month d1 = Doc.month d2 ->
  dt_day (Doc.session_start d1) = dt_day (Doc.session_start d2) ->
  strftime_stamp (clock env (ticks w)) = strftime_stamp (clock env (S (ticks w))) ->
  exists w1 w2,
    save_study_session env d1 w = (Ok true, w1) /\
    save_study_session env d2 w1 = (Ok true, w2) /\
    study_sessions w2 =
      <[session_file_name d2 (strftime_stamp (clock env (S (ticks w)))) := d2]>
        (study_sessions w).
Proof.
  intros Hu Hy Hm Hday Hstamp.
  rewrite save_study_session_run. eexists _, _. split; [reflexivity |].
  rewrite save_study_session_run. split; [reflexivity |].
  cbn [study_sessions set_study_sessions set_ticks ticks].
  assert (E : session_file_name d1 (strftime_stamp (clock env (ticks w))) =
              session_file_name d2 (strftime_stamp (clock env (S (ticks w))))).
  { unfold session_file_name. rewrite Hu, Hy, Hm, Hday, Hstamp. reflexivity. }
  rewrite E, insert_insert_eq. reflexivity.
Qed.

Lemma same_second_saves_overwrite_witness :
  strftime_stamp (clock library_env 0) = strftime_stamp (clock library_env 1) /\
  exists w1 w2,
    save_study_session library_env alice_record initial_world = (Ok true, w1) /\
    save_study_session library_env alice_short_record w1 = (Ok true, w2) /\
    study_sessions w2 =
      <[session_file_name alice_short_record (strftime_stamp (clock library_env 1)) :=
          alice_short_record]> (study_sessions initial_world).
Proof.
  split; [reflexivity |].
  apply (same_second_saves_overwrite library_env alice_record alice_short_record
           initial_world); reflexivity.
Defined.

(** X4.  [get_user_sessions] reads and changes nothing.  With a year and
    a month it returns those records of its selection without a month
    that are of this year and month, and no other. *)
Theorem month_filter_is_exact (uid y m : Z) (w : World) :
  0 <= uid -> 0 < y -> 1 <= m <= 12 ->
  (forall file_name d, study_sessions w !! file_name = Some d ->
     exists owner, written_for owner file_name d) ->
  exists of_month all,
    get_user_sessions uid (Some y) (Some m) w = (Ok of_month, w) /\
    get_user_sessions uid None None w = (Ok all, w) /\
    (forall d, d ∈ of_month -> Doc.year d = y /\ Doc.month d = m /\ d ∈ all) /\
    (forall d, d ∈ all -> Doc.year d = y -> Doc.month d = m -> d ∈ of_month).
Proof.
  intros Huid Hy Hm Hfiles. rewrite !get_user_sessions_run.
  eexists _, _. split; [reflexivity |]. split; [reflexivity |]. split.
  - intros d Hd. apply list_elem_of_fmap in Hd as ([file_name d'] & -> & Hin).
    apply list_elem_of_filter in Hin as [Hsel Hin]. cbn [fst snd] in *.
    apply elem_of_map_to_list in Hin.
    destruct (Hfiles _ _ Hin) as (owner & t & -> & Ho & Hd' & Hdy & Hdm & Hday & Ht).
    pose proof Hsel as Hsel'.
    apply (session_file_selected_spec uid owner y m d' t) in Hsel'; try assumption.
    destruct Hsel' as (_ & Ey & Em). split; [exact Ey |]. split; [exact Em |].
    eapply selected_file_is_returned; [exact Hin |].
    unfold session_file_selected in *. apply andb_true_iff in Hsel as [Hu _].
    rewrite Hu. reflexivity.
  - intros d Hd Ey Em. apply list_elem_of_fmap in Hd as ([file_name d'] & -> & Hin).
    apply list_elem_of_filter in Hin as [Hsel Hin]. cbn [fst snd] in *.
    apply elem_of_map_to_list in Hin.
    destruct (Hfiles _ _ Hin) as (owner & t & -> & Ho & Hd' & Hdy & Hdm & Hday & Ht).
    eapply selected_file_is_returned; [exact Hin |].
    assert (Hown : session_file_selected owner (Some y) (Some m)
                     (session_file_name d' (strftime_stamp t)) = true).
    { apply (session_file_selected_spec owner owner y m d' t); try assumption. auto. }
    unfold session_file_selected in *.
    apply andb_true_iff in Hsel as [Hu _]. apply andb_true_iff in Hown as [_ Hp].
    rewrite Hu, Hp. reflexivity.
Qed.

Lemma month_filter_is_exact_witness :
  exists of_month all,
    get_user_sessions 20240503 (Some 2024) (Some 5) after_bobs_save =
      (Ok of_month, after_bobs_save) /\
    get_user_sessions 20240503 None None after_bobs_save = (Ok all, after_bobs_save) /\
    (forall d, d ∈ of_month -> Doc.year d = 2024 /\ Doc.month d = 5 /\ d ∈ all) /\
    (forall d, d ∈ all -> Doc.year d = 2024 -> Doc.month d = 5 -> d ∈ of_month).
Proof.
  apply (month_filter_is_exact 20240503 2024 5 after_bobs_save); [lia | lia | lia |].
  intros file_name d H.
  change (({[ bobs_file := bob_record ]} : gmap string Doc.t) !! file_name = Some d) in H.
  apply lookup_singleton_Some in H as [<- <-].
  exists 20240503, (on_3_may 0 14 15). unfold calendar_ok. cbn.
  repeat split; try lia; reflexivity.
Defined.

(* ===================================================================== *)
(** ** File-system database: monthly statistics *)
(* ===================================================================== *)

(** The organizations of the default aggregate: the ten of
    [ORGANIZATIONS], each with no minutes. *)
Lemma default_stats_organizations (mid : month_id) (t : datetime) (org : string) :
  Stats.organizations (default_stats mid t) !! org =
  if decide (org ∈ ORGANIZATIONS) then Some {| total_minutes := 0 |} else None.
Proof.
  cbn [Stats.organizations default_stats]. destruct (decide (org ∈ ORGANIZATIONS)) as [Hin | Hnot].
  - apply elem_of_list_to_map.
    + apply (bool_decide_unpack _). vm_compute. exact I.
    + apply list_elem_of_fmap. exists org. split; [reflexivity | exact Hin].
  - apply not_elem_of_list_to_map.
    rewrite <- list_fmap_compose. intros Hin.
    apply list_elem_of_fmap in Hin as (o & -> & Ho). contradiction.
Qed.

(** X5.  The first fold of a month starts from the default aggregate of
    [get_monthly_stats]: when the month has no statistics file, the fold
    leaves one with the month id, with the ten organizations of
    [ORGANIZATIONS] and the named one (an eleventh when it is none of
    them, as ["None"] is for a member without organization), every total
    0 except that of the named one, which is the minutes of the fold, and
    with the entry of the user alone on the leaderboard. *)
Theorem first_fold_of_a_month
    (env : Env) (org : string) (minutes user_id : Z) (username : string) (w : World) :
  let mid := strftime_Ym (clock env (ticks w)) in
  monthly_stats w !! mid = None ->
  exists w' after,
    update_monthly_stats env org minutes user_id username w = (Ok true, w') /\
    monthly_stats w' !! mid = Some after /\
    Stats._id after = mid /\
    (forall other, is_Some (Stats.organizations after !! other) <->
                   other ∈ ORGANIZATIONS \/ other = org) /\
    (forall other, org_total after other = if decide (other = org) then minutes else 0) /\
    Stats.top_individuals after =
      [{| Ind.user_id := str user_id; Ind.username := username; Ind.org := org;
          Ind.minutes := selected_total (study_sessions w) user_id mid |}].
Proof.
  intros mid Hmiss.
  destruct (update_monthly_stats_run env org minutes user_id username w) as (n & t & E).
  fold mid in E. unfold loaded_stats in E. rewrite Hmiss in E.
  eexists _, _. split; [exact E |].
  cbn [monthly_stats set_monthly_stats]. split; [apply lookup_insert_eq |].
  split; [reflexivity |].
  cbn [Stats.organizations Stats.top_individuals Stats._id].
  split; [| split; [| reflexivity]].
  - intros other. destruct (decide (other = org)) as [-> | Hne].
    + rewrite add_org_minutes_lookup. split; [auto | eauto].
    + rewrite add_org_minutes_other by exact Hne.
      rewrite default_stats_organizations.
      destruct (decide (other ∈ ORGANIZATIONS)) as [Hin | Hnot].
      * split; [auto | eauto].
      * split; [intros [? ?]; discriminate | intros [? | ?]; contradiction].
  - intros other. unfold org_total. cbn [Stats.organizations].
    destruct (decide (other = org)) as [-> | Hne].
    + rewrite add_org_minutes_lookup, default_stats_organizations. cbn [total_minutes].
      destruct (decide (org ∈ ORGANIZATIONS)); cbn [total_minutes]; lia.
    + rewrite add_org_minutes_other by exact Hne. rewrite default_stats_organizations.
      destruct (decide (other ∈ ORGANIZATIONS)); reflexivity.
Qed.

Lemma first_fold_of_a_month_witness :
  exists w' after,
    update_monthly_stats library_env "None" 25 7 "alice" initial_world = (Ok true, w') /\
    monthly_stats w' !! (2024, 5) = Some after /\
    Stats._id after = (2024, 5) /\
    (forall other, is_Some (Stats.organizations after !! other) <->
                   other ∈ ORGANIZATIONS \/ other = "None"%string) /\
    (forall other, org_total after other =
                   if decide (other = "None"%string) then 25 else 0) /\
    Stats.top_individuals after =
      [{| Ind.user_id := str 7; Ind.username := "alice"; Ind.org := "None";
          Ind.minutes := selected_total (study_sessions initial_world) 7 (2024, 5) |}].
Proof.
  apply (first_fold_of_a_month library_env "None" 25 7 "alice" initial_world).
  reflexivity.
Defined.

Lemma save_monthly_stats_run env mid stats w :
  save_monthly_stats env mid stats w =
  (Ok true,
   set_monthly_stats
     (<[mid := {| Stats._id := Stats._id stats;
                  Stats.organizations := Stats.organizations stats;
                  Stats.top_individuals := Stats.top_individuals stats;
                  Stats.last_updated := clock env (ticks w) |}]> (monthly_stats w))
     (set_ticks (S (ticks w)) w)).
Proof. reflexivity. Qed.

(** X6.  What [save_monthly_stats] writes, [get_monthly_stats] reads
    back: the same id, organizations and leaderboard, with [last_updated]
    set to the time of the save.  The read changes nothing, and the save
    touches neither the other months nor the session files. *)
Theorem monthly_stats_round_trip (env : Env) (mid : month_id) (stats : Stats.t) (w : World) :
  exists w1 w2 loaded,
    save_monthly_stats env mid stats w = (Ok true, w1) /\
    get_monthly_stats env mid w1 = (Ok loaded, w2) /\
    Stats._id loaded = Stats._id stats /\
    Stats.organizations loaded = Stats.organizations stats /\
    Stats.top_individuals loaded = Stats.top_individuals stats /\
    Stats.last_updated loaded = clock env (ticks w) /\
    w2 = w1 /\
    study_sessions w1 = study_sessions w /\
    forall mid', mid' <> mid -> monthly_stats w1 !! mid' = monthly_stats w !! mid'.
Proof.
  rewrite save_monthly_stats_run. eexists _, _, _. split; [reflexivity |].
  unfold get_monthly_stats, bind, get. cbn [monthly_stats set_monthly_stats set_ticks].
  rewrite lookup_insert_eq. split; [reflexivity |].
  repeat (split; [reflexivity |]).
  intros mid' Hne. apply lookup_insert_ne. congruence.
Qed.

Lemma sorted_sort_desc {A} (key : A -> Z) (l : list A) :
  StronglySorted (descending key) l -> sort_desc key l = l.
Proof.
  induction l as [| x l IH]; intros Hs; [reflexivity |].
  apply StronglySorted_inv in Hs as [Hl Hx]. simpl. rewrite (IH Hl).
  destruct l as [| y l']; [reflexivity |]. simpl.
  apply Forall_inv in Hx. unfold descending in Hx.
  replace (key y <=? key x) with true by (symmetry; apply Z.leb_le; exact Hx).
  reflexivity.
Qed.

Lemma sorted_snoc {A} (key : A -> Z) (l : list A) (e : A) :
  StronglySorted (descending key) l ->
  Forall (fun x => key e <= key x) l ->
  StronglySorted (descending key) (l ++ [e]).
Proof.
  induction l as [| x l IH]; intros Hs Hall; simpl.
  - constructor; constructor.
  - apply StronglySorted_inv in Hs as [Hl Hx].
    apply Forall_cons in Hall as [Hex Hall].
    constructor; [apply IH; assumption |].
    apply Forall_app. split; [exact Hx |]. constructor; [exact Hex | constructor].
Qed.

Lemma filter_all {A} (P : A -> Prop) `{forall x, Decision (P x)} (l : list A) :
  Forall P l -> filter P l = l.
Proof.
  induction l as [| x l IH]; intros Hall; [reflexivity |].
  apply Forall_cons in Hall as [Hx Hall]. rewrite filter_cons.
  destruct (decide (P x)); [| contradiction]. rewrite (IH Hall). reflexivity.
Qed.

(** The entries of the other users go through an upsert as they are. *)
Lemma upsert_individual_others entry top ind :
  Ind.user_id ind <> Ind.user_id entry ->
  (ind ∈ upsert_individual entry top -> ind ∈ top) /\
  ((length top < 100)%nat -> ind ∈ top -> ind ∈ upsert_individual entry top).
Proof.
  intros Hne. unfold upsert_individual. split.
  - intros Hin. apply (fun H => elem_of_sublist _ _ _ H (sublist_take _ _)) in Hin.
    rewrite sort_desc_perm in Hin. apply elem_of_app in Hin as [Hin | Hin].
    + apply list_elem_of_filter in Hin. tauto.
    + apply list_elem_of_singleton in Hin. subst. contradiction.
  - intros Hlen Hin. rewrite take_ge.
    + rewrite sort_desc_perm. apply elem_of_app. left.
      apply list_elem_of_filter. split; [exact Hne | exact Hin].
    + rewrite sort_desc_perm, length_app. simpl.
      pose proof (length_filter (fun i => Ind.user_id i <> Ind.user_id entry) top). lia.
Qed.

(** X7.  [update_monthly_stats] for one user adds no entry of another
    user to the leaderboard, and while the leaderboard has fewer than 100
    entries it removes none either. *)
Theorem fold_keeps_other_entries
    (env : Env) (org : string) (minutes user_id : Z) (username : string) (w : World) :
  let mid := strftime_Ym (clock env (ticks w)) in
  let before := Stats.top_individuals (loaded_stats env w mid) in
  exists w' after,
    update_monthly_stats env org minutes user_id username w = (Ok true, w') /\
    monthly_stats w' !! mid = Some after /\
    (forall ind, Ind.user_id ind <> str user_id ->
       ind ∈ Stats.top_individuals after -> ind ∈ before) /\
    ((length before < 100)%nat ->
     forall ind, Ind.user_id ind <> str user_id ->
       ind ∈ before -> ind ∈ Stats.top_individuals after).
Proof.
  intros mid before.
  destruct (update_monthly_stats_run env org minutes user_id username w) as (n & t & E).
  fold mid in E. eexists _, _. split; [exact E |].
  cbn [monthly_stats set_monthly_stats]. split; [apply lookup_insert_eq |].
  cbn [Stats.top_individuals]. split.
  - intros ind Hne. apply upsert_individual_others. exact Hne.
  - intros Hlen ind Hne. apply upsert_individual_others; assumption.
Qed.

Lemma sorted_of_constant {A} (key : A -> Z) (c : Z) (l : list A) :
  Forall (fun x => key x = c) l -> StronglySorted (descending key) l.
Proof.
  induction 1 as [| x l Hx Hl IH]; constructor; [exact IH |].
  eapply Forall_impl; [exact Hl |]. intros y Hy. unfold descending. cbn in *. lia.
Qed.

(** X8.  On a leaderboard of 100 entries a newcomer whose total does not
    exceed any of theirs is cut off by the slice: the sort is stable, the
    new entry goes last, and the leaderboard stays as it was. *)
Theorem full_board_drops_newcomer
    (env : Env) (org : string) (minutes user_id : Z) (username : string) (w : World) :
  let mid := strftime_Ym (clock env (ticks w)) in
  let before := Stats.top_individuals (loaded_stats env w mid) in
  length before = 100%nat ->
  StronglySorted (descending Ind.minutes) before ->
  Forall (fun ind => Ind.user_id ind <> str user_id /\
                     selected_total (study_sessions w) user_id mid <= Ind.minutes ind)
         before ->
  exists w' after,
    update_monthly_stats env org minutes user_id username w = (Ok true, w') /\
    monthly_stats w' !! mid = Some after /\
    Stats.top_individuals after = before.
Proof.
  intros mid before Hlen Hsorted Hall.
  destruct (update_monthly_stats_run env org minutes user_id username w) as (n & t & E).
  fold mid in E. eexists _, _. split; [exact E |].
  cbn [monthly_stats set_monthly_stats]. split; [apply lookup_insert_eq |].
  cbn [Stats.top_individuals]. fold before. unfold upsert_individual.
  cbn [Ind.user_id].
  rewrite filter_all by (eapply Forall_impl; [exact Hall |]; intros ? [? ?]; assumption).
  rewrite sorted_sort_desc.
  - rewrite take_app_length' by (symmetry; exact Hlen). reflexivity.
  - apply sorted_snoc; [exact Hsorted |].
    eapply Forall_impl; [exact Hall |]. intros ? [_ ?]. assumption.
Qed.

Lemma full_board_drops_newcomer_witness :
  (length full_board = 100%nat /\
   StronglySorted (descending Ind.minutes) full_board /\
   Forall (fun ind => Ind.user_id ind <> str 7 /\
                      selected_total (study_sessions full_board_world) 7 (2024, 5) <=
                        Ind.minutes ind) full_board) /\
  exists w' after,
    update_monthly_stats library_env "VTK" 25 7 "alice" full_board_world = (Ok true, w') /\
    monthly_stats w' !! (2024, 5) = Some after /\
    Stats.top_individuals after = full_board.
Proof.
  assert (H1 : length full_board = 100%nat) by reflexivity.
  assert (H2 : StronglySorted (descending Ind.minutes) full_board).
  { apply (sorted_of_constant Ind.minutes 50).
    apply Forall_fmap, Forall_forall. intros i _. reflexivity. }
  assert (H3 : Forall (fun ind => Ind.user_id ind <> str 7 /\
                 selected_total (study_sessions full_board_world) 7 (2024, 5) <=
                   Ind.minutes ind) full_board).
  { apply Forall_fmap, Forall_forall. intros i _. split.
    - intros E. apply (str_inj (1000 + Z.of_nat i) 7) in E. lia.
    - vm_compute. discriminate. }
  split; [auto |].
  exact (full_board_drops_newcomer library_env "VTK" 25 7 "alice" full_board_world
           H1 H2 H3).
Defined.

(** X9.  [update_monthly_stats] is not idempotent for the organization:
    the same call made twice adds the minutes twice to the organization
    total, while the entry of the user holds the total of the session
    files after the first call and after the second. *)
Theorem repeated_fold_counts_organization_twice
    (env : Env) (org : string) (minutes user_id : Z) (username : string) (w : World)
    (mid : month_id) :
  (forall i, strftime_Ym (clock env i) = mid) ->
  exists w1 w2 once twice,
    update_monthly_stats env org minutes user_id username w = (Ok true, w1) /\
    update_monthly_stats env org minutes user_id username w1 = (Ok true, w2) /\
    monthly_stats w1 !! mid = Some once /\
    monthly_stats w2 !! mid = Some twice /\
    org_total twice org = org_total (loaded_stats env w mid) org + 2 * minutes /\
    (forall ind, ind ∈ Stats.top_individuals twice -> Ind.user_id ind = str user_id ->
       Ind.minutes ind = selected_total (study_sessions w) user_id mid) /\
    (forall ind, ind ∈ Stats.top_individuals once -> Ind.user_id ind = str user_id ->
       Ind.minutes ind = selected_total (study_sessions w) user_id mid).
Proof.
  intros Hmonth.
  destruct (update_monthly_stats_run env org minutes user_id username w) as (n1 & t1 & E1).
  rewrite (Hmonth (ticks w)) in E1.
  match type of E1 with _ = (_, ?w1) =>
    destruct (update_monthly_stats_run env org minutes user_id username w1)
      as (n2 & t2 & E2)
  end.
  rewrite (Hmonth _) in E2.
  eexists _, _, _, _. split; [exact E1 |]. split; [exact E2 |].
  cbn [monthly_stats set_monthly_stats set_ticks].
  split; [apply lookup_insert_eq |]. split; [apply lookup_insert_eq |].
  set (L := loaded_stats env w mid) in *.
  unfold loaded_stats. cbn [monthly_stats set_monthly_stats set_ticks].
  rewrite lookup_insert_eq. cbn [Stats.organizations Stats.top_individuals study_sessions
                                 set_monthly_stats set_ticks].
  split; [| split].
  - unfold org_total. cbn [Stats.organizations].
    rewrite !add_org_minutes_lookup. cbn [total_minutes]. lia.
  - intros ind Hin Hid. apply upsert_individual_entry in Hin; [| exact Hid].
    subst ind. reflexivity.
  - intros ind Hin Hid. apply upsert_individual_entry in Hin; [| exact Hid].
    subst ind. reflexivity.
Qed.

Lemma repeated_fold_counts_organization_twice_witness :
  exists w1 w2 once twice,
    update_monthly_stats library_env "VTK" 25 7 "alice" initial_world = (Ok true, w1) /\
    update_monthly_stats library_env "VTK" 25 7 "alice" w1 = (Ok true, w2) /\
    monthly_stats w1 !! (2024, 5) = Some once /\
    monthly_stats w2 !! (2024, 5) = Some twice /\
    org_total twice "VTK" =
      org_total (loaded_stats library_env initial_world (2024, 5)) "VTK" + 2 * 25 /\
    (forall ind, ind ∈ Stats.top_individuals twice -> Ind.user_id ind = str 7 ->
       Ind.minutes ind = selected_total (study_sessions initial_world) 7 (2024, 5)) /\
    (forall ind, ind ∈ Stats.top_individuals once -> Ind.user_id ind = str 7 ->
       Ind.minutes ind = selected_total (study_sessions initial_world) 7 (2024, 5)).
Proof.
  apply (repeated_fold_counts_organization_twice library_env "VTK" 25 7 "alice"
           initial_world (2024, 5)).
  intros i. unfold library_env. cbn [clock]. destruct (i <? 3)%nat; reflexivity.
Defined.

(* ===================================================================== *)
(** ** Organization of a member and credit arithmetic *)
(* ===================================================================== *)

(** X10.  [get_user_org] returns the name of the first role of the member
    that is an organization, in the order of the member's roles, and
    ["None"], which is no organization, exactly when no role is one. *)
Theorem get_user_org_first_organization_role (member : Member) :
  (get_user_org member ∈ ORGANIZATIONS \/ get_user_org member = "None"%string) /\
  (get_user_org member = "None"%string <->
   Forall (fun r => role_name r ∉ ORGANIZATIONS) (roles member)) /\
  (forall before role after,
     roles member = before ++ role :: after ->
     Forall (fun r => role_name r ∉ ORGANIZATIONS) before ->
     role_name role ∈ ORGANIZATIONS ->
     get_user_org member = role_name role).
Proof.
  unfold get_user_org.
  assert (Hnone : "None"%string ∉ ORGANIZATIONS).
  { apply (bool_decide_unpack _). vm_compute. exact I. }
  induction (roles member) as [| r rs IH]; simpl.
  - split; [right; reflexivity |]. split; [split; [constructor | reflexivity] |].
    intros [| ? ?] ? ? E; discriminate E.
  - destruct IH as (IH1 & IH2 & IH3). case_bool_decide as Hin.
    + split; [left; exact Hin |]. split.
      * split.
        -- intros E. rewrite E in Hin. contradiction.
        -- intros Hall. apply Forall_cons in Hall as [Hr _]. contradiction.
      * intros [| b before] role after E Hb Hrole; simpl in E.
        -- injection E as -> _. reflexivity.
        -- injection E as -> _. apply Forall_cons in Hb as [Hb _]. contradiction.
    + split; [exact IH1 |]. split.
      * rewrite IH2. split; [intros H; constructor; assumption |].
        intros Hall. apply Forall_cons in Hall as [_ Hall]. exact Hall.
      * intros [| b before] role after E Hb Hrole; simpl in E.
        -- injection E as -> _. contradiction.
        -- injection E as _ E. apply Forall_cons in Hb as [_ Hb].
           eapply IH3; eauto.
Qed.

Lemma minutes_between_mono a a' b b' :
  micros a <= micros a' -> micros b' <= micros b ->
  minutes_between a b <= minutes_between a' b'.
Proof.
  intros Ha Hb. unfold minutes_between. apply Z.quot_le_mono; lia.
Qed.

(** X11.  A participant who joined less than a minute after the start of
    the session and who has been in the session for the whole study time
    when it ends is awarded the whole study time, whether recorded as
    late or not: the late flag that [add_participant] sets for a seeded
    participant costs no credit. *)
Theorem full_credit_within_first_minute
    (data : Participant.t) (started study_end : datetime) (studyMinutes : Z) :
  0 <= studyMinutes ->
  micros started <= micros (Participant.join_time data) < micros started + 60000000 ->
  micros (Participant.join_time data) + studyMinutes * 60000000 <= micros study_end ->
  minutes_to_award data (Some started) study_end studyMinutes = Ok studyMinutes.
Proof.
  intros Hd Hjoin Hend. unfold minutes_to_award, minutes_between.
  assert (H1 : studyMinutes <=
               Z.quot (micros study_end - micros (Participant.join_time data)) 60000000).
  { rewrite Z.quot_div_nonneg by lia. apply Z.div_le_lower_bound; lia. }
  assert (H2 : Z.quot (micros (Participant.join_time data) - micros started) 60000000 = 0).
  { apply Z.quot_small. lia. }
  rewrite H2. destruct (Participant.late_join data); f_equal; lia.
Qed.

Lemma full_credit_within_first_minute_witness :
  minutes_to_award seeded_a_microsecond_late (Some (on_3_may 0 14 15))
    (on_3_may 1500000001 14 40) 25 = Ok 25.
Proof.
  apply (full_credit_within_first_minute seeded_a_microsecond_late (on_3_may 0 14 15)
           (on_3_may 1500000001 14 40) 25); cbn; lia.
Defined.

(** X12.  The award is monotone: of two participants recorded by
    [add_participant] the one who joined later is awarded no more, and a
    later end of the study period awards no less. *)
Theorem later_join_never_earns_more
    (early late : Participant.t) (started study_end study_end' : datetime)
    (studyMinutes : Z) :
  micros (Participant.join_time early) <= micros (Participant.join_time late) ->
  Participant.late_join early = dt_gt (Participant.join_time early) started ->
  Participant.late_join late = dt_gt (Participant.join_time late) started ->
  micros study_end <= micros study_end' ->
  exists m_late m_early m_longer,
    minutes_to_award late (Some started) study_end studyMinutes = Ok m_late /\
    minutes_to_award early (Some started) study_end studyMinutes = Ok m_early /\
    minutes_to_award early (Some started) study_end' studyMinutes = Ok m_longer /\
    m_late <= m_early /\ m_early <= m_longer.
Proof.
  intros Hjoin He Hl Hend. unfold minutes_to_award. rewrite He, Hl. unfold dt_gt.
  pose proof (minutes_between_mono study_end study_end
                (Participant.join_time late) (Participant.join_time early)
                (Z.le_refl _) Hjoin) as M1.
  pose proof (minutes_between_mono (Participant.join_time early) (Participant.join_time late)
                started started Hjoin (Z.le_refl _)) as M2.
  pose proof (minutes_between_mono study_end study_end'
                (Participant.join_time early) (Participant.join_time early)
                Hend (Z.le_refl _)) as M3.
  destruct (Z.ltb_spec (micros started) (micros (Participant.join_time early))) as [Le | Le];
    destruct (Z.ltb_spec (micros started) (micros (Participant.join_time late))) as [Ll | Ll];
    try lia; eexists _, _, _; repeat (split; [reflexivity |]); lia.
Qed.

Lemma later_join_never_earns_more_witness :
  exists m_late m_early m_longer,
    minutes_to_award ten_minutes_late (Some (on_3_may 0 14 15))
      (on_3_may 1500000000 14 40) 25 = Ok m_late /\
    minutes_to_award on_time (Some (on_3_may 0 14 15))
      (on_3_may 1500000000 14 40) 25 = Ok m_early /\
    minutes_to_award on_time (Some (on_3_may 0 14 15))
      (on_3_may 1560000000 14 41) 25 = Ok m_longer /\
    m_late <= m_early /\ m_early <= m_longer.
Proof.
  apply (later_join_never_earns_more on_time ten_minutes_late (on_3_may 0 14 15)
           (on_3_may 1500000000 14 40) (on_3_may 1560000000 14 41) 25);
    [cbn; lia | reflexivity | reflexivity | cbn; lia].
Defined.

(* ===================================================================== *)
(** ** Late joiners and the tallies of a settlement *)
(* ===================================================================== *)

Section Scan.
Context (env : Env).

Lemma scan_late_joiners_adds members : forall self started w,
  session_start self = Some started ->
  exists self' w',
    scan_late_joiners env members self w = (Ok self', w') /\
    session_start self' = Some started /\
    (forall uid data, dict_get uid (participants self) = Some data ->
                      dict_get uid (participants self') = Some data) /\
    (forall m, m ∈ members -> is_Some (dict_get (id m) (participants self'))) /\
    (forall uid data, dict_get uid (participants self') = Some data ->
       dict_get uid (participants self) = Some data \/
       exists m, m ∈ members /\ record_of m uid data).
Proof.
  induction members as [| member rest IH]; intros self started w Hs; simpl.
  - exists self, w. split; [reflexivity |]. split; [exact Hs |].
    split; [auto |]. split; [intros m Hm; inversion Hm | auto].
  - destruct (dict_get (id member) (participants self)) as [known |] eqn:Hget.
    + destruct (IH self started w Hs) as (self' & w' & E & Hs' & Hkeep & Hin & Hfrom).
      exists self', w'. split; [exact E |]. split; [exact Hs' |]. split; [exact Hkeep |].
      split.
      * intros m Hm. apply elem_of_cons in Hm as [-> | Hm]; [| apply Hin, Hm].
        exists known. apply Hkeep, Hget.
      * intros uid data Hd. destruct (Hfrom uid data Hd) as [? | (m & Hm & Hr)]; [auto |].
        right. exists m. split; [apply elem_of_cons; auto | exact Hr].
    + unfold bind at 1. rewrite (add_participant_new env member self started w Hget Hs).
      unfold bind at 1, now. cbn [session_start set_participants]. rewrite Hs.
      unfold bind at 1. rewrite send_run.
      match goal with
      | |- context [scan_late_joiners env rest ?s1 ?w1] =>
          destruct (IH s1 started w1 Hs) as (self' & w' & E & Hs' & Hkeep & Hin & Hfrom)
      end.
      exists self', w'. split; [exact E |]. split; [exact Hs' |].
      cbn [participants set_participants] in Hkeep, Hfrom.
      split; [| split].
      * intros uid data Hd. apply Hkeep. rewrite dict_get_app, Hd. reflexivity.
      * intros m Hm. apply elem_of_cons in Hm as [-> | Hm]; [| apply Hin, Hm].
        eexists. apply Hkeep. rewrite dict_get_app, Hget. simpl.
        rewrite Z.eqb_refl. reflexivity.
      * intros uid data Hd. destruct (Hfrom uid data Hd) as [Hold | (m & Hm & Hr)].
        -- rewrite dict_get_app in Hold.
           destruct (dict_get uid (participants self)) as [x |] eqn:Hx; [left; exact Hold |].
           simpl in Hold. destruct (id member =? uid) eqn:Eid; [| discriminate].
           injection Hold as <-. apply Z.eqb_eq in Eid.
           right. exists member. split; [apply elem_of_cons; auto |].
           unfold record_of. cbn. auto.
        -- right. exists m. split; [apply elem_of_cons; auto | exact Hr].
Qed.

(** X13.  After a scan of the monitor task over the members of the
    channel every one of them is a participant, the records known before
    the scan are unchanged, and every other record is the one that
    [add_participant] makes for one of these members: filed under the
    member's id, with the organization of the member's roles. *)
Theorem scan_makes_members_participants
    (members : list Member) (self : PomodoroSession) (w : World) :
  is_Some (session_start self) ->
  exists self' w',
    scan_late_joiners env members self w = (Ok self', w') /\
    (forall m, m ∈ members -> is_Some (dict_get (id m) (participants self'))) /\
    (forall uid data, dict_get uid (participants self) = Some data ->
                      dict_get uid (participants self') = Some data) /\
    (forall uid data, dict_get uid (participants self') = Some data ->
       dict_get uid (participants self) = Some data \/
       exists m, m ∈ members /\ record_of m uid data).
Proof.
  intros [started Hs].
  destruct (scan_late_joiners_adds members self started w Hs)
    as (self' & w' & E & _ & Hkeep & Hin & Hfrom).
  exists self', w'. auto.
Qed.

Lemma award_one_tallies self current study_end acc item w :
  is_Some (session_start self) ->
  returns (award_one env self current study_end acc item) w
    (fun acc' _ => tallies_step self 1 acc acc').
Proof.
  intros [started Hs]. destruct item as [user_id data]. unfold award_one, tallies_step.
  destruct (existsb _ current).
  - assert (Hok : exists m,
      minutes_to_award data (session_start self) study_end (duration self) = Ok m /\
      m <= duration self).
    { unfold minutes_to_award. rewrite Hs.
      destruct (Participant.late_join data); eexists; split; try reflexivity; lia. }
    destruct Hok as (m & Hm & Hle).
    apply returns_bind. unfold lift_result. rewrite Hm.
    eexists _, _. split; [reflexivity |]. cbn beta.
    destruct (Z.ltb_spec 0 m) as [Hpos | Hneg].
    + unfold returns, bind, now. rewrite save_study_session_run.
      match goal with
      | |- context [update_monthly_stats env ?o ?mi ?u ?n ?w0] =>
          destruct (update_monthly_stats_run env o mi u n w0) as (n' & t' & ->)
      end.
      eexists _, _. split; [reflexivity |]. cbn [awarded_users left_early credit_details].
      rewrite !length_app. simpl. split; [lia |]. split; [lia |]. split; [lia |].
      intros Hall. apply Forall_app. split; [exact Hall |].
      constructor; [cbn; lia | constructor].
    + apply returns_ret. cbn. rewrite length_app. simpl.
      split; [lia |]. split; [lia |]. split; [lia | auto].
  - apply returns_ret. cbn. split; [lia |]. split; [lia |]. split; [lia | auto].
Qed.

Lemma award_all_tallies self current study_end items : forall acc w,
  is_Some (session_start self) ->
  returns (award_all env self current study_end acc items) w
    (fun acc' _ => tallies_step self (length items) acc acc').
Proof.
  induction items as [| item rest IH]; intros acc w Hs; simpl.
  - apply returns_ret. unfold tallies_step.
    split; [lia |]. split; [lia |]. split; [lia | auto].
  - step_by award_one_tallies. intros acc1 w1 (T1 & E1 & L1 & F1).
    eapply returns_weaken; [apply IH; exact Hs |].
    intros acc2 w2 (T2 & E2 & L2 & F2). unfold tallies_step.
    split; [lia |]. split; [lia |]. split; [lia | auto].
Qed.

(** X14.  The loop of [award_credit] counts every participant once, as
    awarded or as having left early; it writes a credit line for awarded
    users only, and each line holds more than 0 minutes and no more than
    the study time. *)
Theorem settlement_counts_everyone_once
    (self : PomodoroSession) (current : list Member) (study_end : datetime) (w : World) :
  is_Some (session_start self) ->
  exists acc w',
    award_all env self current study_end
      {| credit_details := []; awarded_users := []; left_early := 0 |}
      (participants self) w = (Ok acc, w') /\
    Z.of_nat (length (awarded_users acc)) + left_early acc =
      Z.of_nat (length (participants self)) /\
    0 <= left_early acc /\
    (length (credit_details acc) <= length (awarded_users acc))%nat /\
    Forall (fun c => 0 < Credit.minutes c <= duration self) (credit_details acc).
Proof.
  intros Hs.
  destruct (award_all_tallies self current study_end (participants self)
              {| credit_details := []; awarded_users := []; left_early := 0 |} w Hs)
    as (acc & w' & E & T & E0 & L & F).
  cbn in T, E0, L, F. exists acc, w'. split; [exact E |]. split; [lia |].
  split; [lia |]. split; [lia |]. apply F. constructor.
Qed.
End Scan.

Lemma scan_makes_members_participants_witness :
  exists self' w',
    scan_late_joiners library_env [alice; bob] running_session initial_world =
      (Ok self', w') /\
    (forall m, m ∈ [alice; bob] -> is_Some (dict_get (id m) (participants self'))) /\
    (forall uid data, dict_get uid (participants running_session) = Some data ->
                      dict_get uid (participants self') = Some data) /\
    (forall uid data, dict_get uid (participants self') = Some data ->
       dict_get uid (participants running_session) = Some data \/
       exists m, m ∈ [alice; bob] /\ record_of m uid data).
Proof.
  apply (scan_makes_members_participants library_env [alice; bob] running_session
           initial_world).
  exists (on_3_may 0 14 15). reflexivity.
Defined.

Lemma settlement_counts_everyone_once_witness :
  exists acc w',
    award_all library_env running_session [alice; bob] (on_3_may 1500000000 14 40)
      {| credit_details := []; awarded_users := []; left_early := 0 |}
      (participants running_session) initial_world = (Ok acc, w') /\
    Z.of_nat (length (awarded_users acc)) + left_early acc =
      Z.of_nat (length (participants running_session)) /\
    0 <= left_early acc /\
    (length (credit_details acc) <= length (awarded_users acc))%nat /\
    Forall (fun c => 0 < Credit.minutes c <= duration running_session) (credit_details acc).
Proof.
  apply (settlement_counts_everyone_once library_env running_session [alice; bob]
           (on_3_may 1500000000 14 40) initial_world).
  exists (on_3_may 0 14 15). reflexivity.
Defined.

(* ===================================================================== *)
(** ** What a settlement writes *)
(* ===================================================================== *)

Section Settlement.
Context (env : Env).

Lemma award_one_writes self current study_end acc user_id data w :
  is_Some (session_start self) ->
  returns (award_one env self current study_end acc (user_id, data)) w
    (fun _ w' =>
       forall file_name d, study_sessions w' !! file_name = Some d ->
         study_sessions w !! file_name = Some d \/
         settled_record self current study_end [(user_id, data)] d).
Proof.
  intros [started Hs]. unfold award_one.
  destruct (existsb _ current) eqn:Hin; [| apply returns_ret; auto].
  assert (Hok : exists m,
    minutes_to_award data (session_start self) study_end (duration self) = Ok m /\
    m <= duration self).
  { unfold minutes_to_award. rewrite Hs.
    destruct (Participant.late_join data); eexists; split; try reflexivity; lia. }
  destruct Hok as (m & Hm & Hle).
  apply returns_bind. unfold lift_result. rewrite Hm.
  eexists _, _. split; [reflexivity |]. cbn beta.
  destruct (Z.ltb_spec 0 m) as [Hpos | Hneg]; [| apply returns_ret; auto].
  unfold returns, bind, now. rewrite save_study_session_run.
  match goal with
  | |- context [update_monthly_stats env ?o ?mi ?u ?n ?w0] =>
      destruct (update_monthly_stats_run env o mi u n w0) as (n' & t' & ->)
  end.
  eexists _, _. split; [reflexivity |].
  cbn [study_sessions set_study_sessions set_monthly_stats set_ticks].
  intros file_name d. rewrite lookup_insert. case_decide as Hname; [| auto].
  intros [= <-]. right. exists user_id, data.
  split; [apply list_elem_of_singleton; reflexivity |]. cbn. repeat split; auto; lia.
Qed.

Lemma settled_record_more self current study_end items items' d :
  (forall item, item ∈ items -> item ∈ items') ->
  settled_record self current study_end items d ->
  settled_record self current study_end items' d.
Proof.
  intros Hsub (user_id & data & Hin & H). exists user_id, data. split; [auto | exact H].
Qed.

Lemma award_all_writes self current study_end items : forall acc w,
  is_Some (session_start self) ->
  returns (award_all env self current study_end acc items) w
    (fun _ w' =>
       forall file_name d, study_sessions w' !! file_name = Some d ->
         study_sessions w !! file_name = Some d \/
         settled_record self current study_end items d).
Proof.
  induction items as [| [user_id data] rest IH]; intros acc w Hs; simpl.
  - apply returns_ret. auto.
  - step_by award_one_writes. intros acc1 w1 H1.
    eapply returns_weaken; [apply IH; exact Hs |].
    intros acc2 w2 H2 file_name d Hd.
    destruct (H2 file_name d Hd) as [Hd1 | Hr].
    + destruct (H1 file_name d Hd1) as [? | Hr]; [auto |].
      right. eapply settled_record_more; [| exact Hr].
      intros item Hi. apply list_elem_of_singleton in Hi as ->. apply list_elem_of_here.
    + right. eapply settled_record_more; [| exact Hr].
      intros item Hi. apply list_elem_of_further, Hi.
Qed.

(** X15.  Every session file that the loop of [award_credit] writes is
    the record of a participant who is in the channel when the study
    period ends: it holds the participant's id, join time, late flag and
    organization, the end of the study period, and a credit of more than
    0 and at most the study time.  Every other file is as it was. *)
Theorem settlement_writes_only_earned_records
    (self : PomodoroSession) (current : list Member) (study_end : datetime)
    (acc : AwardAcc) (w : World) :
  is_Some (session_start self) ->
  exists acc' w',
    award_all env self current study_end acc (participants self) w = (Ok acc', w') /\
    forall file_name d, study_sessions w' !! file_name = Some d ->
      study_sessions w !! file_name = Some d \/
      settled_record self current study_end (participants self) d.
Proof.
  intros Hs.
  destruct (award_all_writes self current study_end (participants self) acc w Hs)
    as (acc' & w' & E & H).
  exists acc', w'. auto.
Qed.

Lemma award_all_nobody_present self study_end items : forall acc w,
  award_all env self [] study_end acc items w =
  (Ok {| credit_details := credit_details acc; awarded_users := awarded_users acc;
         left_early := left_early acc + Z.of_nat (length items) |}, w).
Proof.
  induction items as [| [user_id data] rest IH]; intros acc w.
  - simpl. unfold ret. destruct acc; cbn. do 2 f_equal. f_equal. lia.
  - cbn [award_all]. unfold bind, award_one. cbn [existsb]. unfold ret.
    rewrite IH. cbn. do 2 f_equal. f_equal. lia.
Qed.

(** X16.  When nobody is in the channel at the end of the study period,
    [award_credit] takes one reading of the clock and does nothing else:
    no file is written, no statistics change and no notice is sent. *)
Theorem settlement_of_deserted_channel (self : PomodoroSession) (w : World) :
  is_running self = true ->
  occupants_at_start env w (channel self) = [] ->
  award_credit env self w =
  (Ok self, set_ticks (S (ticks w)) (set_phases (phases w ++ [Settling]) w)).
Proof.
  intros Hrun Hempty. unfold award_credit. rewrite Hrun. cbn [negb].
  unfold bind at 1, enter, modify. unfold bind at 1, non_bot_members, get.
  cbn [epoch set_phases]. unfold occupants_at_start in Hempty. rewrite Hempty.
  unfold bind at 1, now. unfold bind at 1. rewrite award_all_nobody_present.
  reflexivity.
Qed.
End Settlement.

Lemma settlement_writes_only_earned_records_witness :
  exists acc' w',
    award_all library_env running_session [alice; bob] (on_3_may 1500000000 14 40)
      empty_acc (participants running_session) initial_world = (Ok acc', w') /\
    forall file_name d, study_sessions w' !! file_name = Some d ->
      study_sessions initial_world !! file_name = Some d \/
      settled_record running_session [alice; bob] (on_3_may 1500000000 14 40)
        (participants running_session) d.
Proof.
  apply (settlement_writes_only_earned_records library_env running_session [alice; bob]
           (on_3_may 1500000000 14 40) empty_acc initial_world).
  exists (on_3_may 0 14 15). reflexivity.
Defined.

Lemma settlement_of_deserted_channel_witness :
  award_credit empty_env running_session initial_world =
  (Ok running_session, set_ticks 1 (set_phases [Settling] initial_world)).
Proof.
  apply (settlement_of_deserted_channel empty_env running_session initial_world);
    reflexivity.
Defined.

(* ===================================================================== *)
(** ** Invariants of a session *)
(* ===================================================================== *)

Lemma returns_conj {A} (m : M A) w (P Q : A -> World -> Prop) :
  returns m w P -> returns m w Q -> returns m w (fun a w' => P a w' /\ Q a w').
Proof.
  intros (a & w' & E & HP) (a' & w'' & E' & HQ). rewrite E in E'. injection E' as <- <-.
  exists a, w'. auto.
Qed.

Lemma carries_trans s1 s2 s3 : carries s1 s2 -> carries s2 s3 -> carries s1 s3.
Proof.
  unfold carries. intros (?&?&?&?&?&HP) (?&?&?&?&?&HP').
  repeat split; try congruence. intros uid data H'. apply HP', HP, H'.
Qed.

Lemma flows_refl self w : flows self w self w.
Proof. unfold flows. split; [apply carries_refl | auto]. Qed.

Lemma flows_trans s1 w1 s2 w2 s3 w3 :
  flows s1 w1 s2 w2 -> flows s2 w2 s3 w3 -> flows s1 w1 s3 w3.
Proof.
  intros (C1 & P1 & L1 & A1) (C2 & P2 & L2 & A2).
  split; [eapply carries_trans; eauto |]. split; [auto |]. split; [auto | congruence].
Qed.

Lemma stable_leaderboards self w self' w' :
  stable self w self' w' -> leaderboards_ok w -> leaderboards_ok w'.
Proof.
  intros (_&_&_&_&_&_&_&_&Hm&_) Hok mid stats. rewrite Hm. apply Hok.
Qed.

Lemma stable_flows self w self' w' :
  stable self w self' w' -> (participants_ok self -> participants_ok self') ->
  flows self w self' w'.
Proof.
  intros St Hp. split; [eapply stable_carries, St |]. split; [exact Hp |].
  split; [eapply stable_leaderboards, St |]. destruct St as (_&_&_&_&_&_&_&_&_&Ha&_).
  exact Ha.
Qed.

Section Invariant.
Context (env : Env).

Lemma add_participant_ok member self w r w' :
  bot member = false ->
  add_participant env member self w = (r, w') ->
  match r with
  | Ok self' => participants_ok self -> participants_ok self'
  | Raise _ => True
  end.
Proof.
  intros Hbot. unfold add_participant.
  destruct (dict_get (id member) (participants self)); [intros [= <- <-]; auto |].
  unfold bind, now. destruct (session_start self); [| intros [= <- <-]; exact I].
  intros [= <- <-]. unfold participants_ok. cbn [participants set_participants].
  intros Hok. apply Forall_app. split; [exact Hok |].
  constructor; [cbn; auto | constructor].
Qed.

Lemma add_participants_ok members : forall self w,
  Forall (fun m => bot m = false) members ->
  is_Some (session_start self) ->
  returns (add_participants env members self) w
    (fun self' w' =>
       stable self w self' w' /\
       (participants_ok self -> participants_ok self') /\
       forall m, m ∈ members -> is_Some (dict_get (id m) (participants self'))).
Proof.
  induction members as [| member rest IH]; intros self w Hbots Hs; simpl.
  - apply returns_ret. split; [apply stable_refl |]. split; [auto |].
    intros m Hm. inversion Hm.
  - apply Forall_cons in Hbots as [Hbot Hbots].
    destruct (add_participant env member self w) as [r1 w1] eqn:E1.
    pose proof (add_participant_ok _ _ _ _ _ Hbot E1) as Hok1.
    pose proof (add_participant_stable env _ _ _ _ _ E1) as (_&_&_&_&Hr1).
    destruct r1 as [self1 | e]; [| destruct Hs as [? Hs]; congruence].
    destruct Hr1 as [St1 _].
    assert (Hs1 : is_Some (session_start self1)).
    { destruct St1 as (_&_&_&E&_). rewrite E. exact Hs. }
    assert (Hmem : is_Some (dict_get (id member) (participants self1))).
    { revert E1. unfold add_participant.
      destruct (dict_get (id member) (participants self)) eqn:Hget.
      - intros [= <- <-]. rewrite Hget. eauto.
      - unfold bind, now. destruct (session_start self); [| discriminate].
        intros [= <- <-]. cbn [participants set_participants].
        rewrite dict_get_app, Hget. simpl. rewrite Z.eqb_refl. eauto. }
    apply returns_bind. exists self1, w1. split; [exact E1 |].
    eapply returns_weaken; [apply (IH self1 w1 Hbots Hs1) |].
    intros self2 w2 (St2 & Hok2 & Hin2).
    split; [eapply stable_trans; eauto |]. split; [auto |].
    intros m Hm. apply elem_of_cons in Hm as [-> | Hm]; [| apply Hin2, Hm].
    destruct Hmem as [data Hdata]. exists data.
    destruct St2 as (_&_&_&_&_&_&Hkeep&_). apply Hkeep, Hdata.
Qed.

Lemma scan_late_joiners_ok members : forall self w r w',
  Forall (fun m => bot m = false) members ->
  scan_late_joiners env members self w = (r, w') ->
  match r with
  | Ok self' => participants_ok self -> participants_ok self'
  | Raise _ => True
  end.
Proof.
  induction members as [| member rest IH]; intros self w r w' Hbots; simpl.
  - intros [= <- <-]. auto.
  - apply Forall_cons in Hbots as [Hbot Hbots].
    destruct (dict_get (id member) (participants self)) eqn:Hget; [apply IH, Hbots |].
    unfold bind at 1.
    destruct (add_participant env member self w) as [r1 w1] eqn:E1.
    pose proof (add_participant_ok _ _ _ _ _ Hbot E1) as Hok1.
    destruct r1 as [self1 | e]; [| intros [= <- <-]; exact I].
    unfold bind at 1, now. destruct (session_start self1); [| intros [= <- <-]; exact I].
    unfold bind at 1. rewrite send_run. intros E. apply IH in E; [| exact Hbots].
    destruct r; [auto | exact I].
Qed.

Lemma non_bot_members_are_not_bots (l : list Member) :
  Forall (fun m => bot m = false) (filter (fun m => bot m = false) l).
Proof.
  apply Forall_forall. intros m Hm. apply list_elem_of_filter in Hm. tauto.
Qed.

Lemma monitor_step_ok self w :
  returns (monitor_late_joiners_step env self) w
    (fun self' _ => participants_ok self -> participants_ok self').
Proof.
  unfold monitor_late_joiners_step. destruct (monitor_task self).
  - apply returns_ret. auto.
  - apply returns_ret. auto.
  - unfold returns, bind, non_bot_members, get. cbn beta iota.
    match goal with
    | |- context [scan_late_joiners env ?l self w] =>
        destruct (scan_late_joiners env l self w) as [r w'] eqn:E
    end.
    apply scan_late_joiners_ok in E; [| apply non_bot_members_are_not_bots].
    destruct r as [self' | e]; eexists _, _; (split; [reflexivity |]); auto.
  - apply returns_ret. auto.
Qed.

Lemma monitor_late_joiners_ok steps : forall self w,
  returns (monitor_late_joiners env steps self) w
    (fun self' _ => participants_ok self -> participants_ok self').
Proof.
  induction steps as [| steps IH]; intros self w; simpl.
  - apply returns_ret. auto.
  - step_by monitor_step_ok. intros s1 w1 H1.
    eapply returns_weaken; [apply IH |]. cbn beta. auto.
Qed.

Lemma await_flows self w : returns (await env self) w (flows self w).
Proof.
  eapply returns_weaken.
  - apply returns_conj; [apply await_returns |].
    unfold await. apply returns_bind, returns_modify. apply returns_bind, returns_get.
    apply monitor_late_joiners_ok.
  - intros self' w' [St Hp]. apply stable_flows; assumption.
Qed.

Lemma await_send_flows n self w : returns (await_send env n self) w (flows self w).
Proof.
  eapply returns_weaken.
  - apply returns_conj; [apply await_send_returns |].
    unfold await_send. apply returns_bind, returns_modify.
    unfold await. apply returns_bind, returns_modify. apply returns_bind, returns_get.
    apply monitor_late_joiners_ok.
  - intros self' w' [St Hp]. apply stable_flows; assumption.
Qed.

Lemma study_ticks_flows total_sec elapseds : forall self w,
  returns (study_ticks env total_sec elapseds self) w (flows self w).
Proof.
  induction elapseds as [| elapsed rest IH]; intros self w; simpl.
  - apply returns_ret, flows_refl.
  - destruct (negb (is_running self)); [apply returns_ret, flows_refl |].
    apply returns_bind, returns_get.
    step_by await_send_flows. intros s1 w1 F1.
    step_by await_flows. intros s2 w2 F2.
    eapply returns_weaken; [apply IH |]. intros s3 w3 F3.
    eapply flows_trans; [| exact F3]. eapply flows_trans; eauto.
Qed.

Lemma break_ticks_flows total_sec elapseds : forall self w,
  returns (break_ticks env total_sec elapseds self) w (flows self w).
Proof.
  induction elapseds as [| elapsed rest IH]; intros self w; simpl.
  - apply returns_ret, flows_refl.
  - destruct (negb (is_running self)); [apply returns_ret, flows_refl |].
    step_by await_send_flows. intros s1 w1 F1.
    step_by await_flows. intros s2 w2 F2.
    eapply returns_weaken; [apply IH |]. intros s3 w3 F3.
    eapply flows_trans; [| exact F3]. eapply flows_trans; eauto.
Qed.

Lemma flows_set_phases self w p self' w' :
  flows self (set_phases p w) self' w' -> flows self w self' w'.
Proof. intros H. exact H. Qed.

Lemma flows_study_flag b self w self' w' :
  flows (set_is_study_period b self) w self' w' -> flows self w self' w'.
Proof.
  intros ((C1&C2&C3&C4&C5&C6) & P & L & A). split; [| auto].
  unfold carries. cbn in *. auto 10.
Qed.

Lemma flows_monitor_flag pc self w self' w' :
  flows (set_monitor_task pc self) w self' w' -> flows self w self' w'.
Proof. intros H. exact H. Qed.

Lemma flows_then_study_flag b self w self' w' :
  flows self w self' w' -> flows self w (set_is_study_period b self') w'.
Proof.
  intros ((C1&C2&C3&C4&C5&C6) & P & L & A). split; [| auto].
  unfold carries. cbn in *. auto 10.
Qed.

Lemma study_period_flows self w : returns (study_period env self) w (flows self w).
Proof.
  unfold study_period. apply returns_bind, returns_modify.
  step_by await_send_flows. intros s1 w1 F1.
  apply flows_study_flag, flows_set_phases in F1.
  step_by study_ticks_flows. intros s2 w2 F2.
  pose proof (flows_then_study_flag false _ _ _ _ (flows_trans _ _ _ _ _ _ F1 F2)) as F.
  destruct (is_running (set_is_study_period false s2)).
  - eapply returns_weaken; [apply await_send_flows |]. intros s3 w3 F3.
    eapply flows_trans; eauto.
  - apply returns_ret. exact F.
Qed.

Lemma break_period_flows self w : returns (break_period env self) w (flows self w).
Proof.
  unfold break_period. destruct (negb (is_running self)); [apply returns_ret, flows_refl |].
  apply returns_bind, returns_modify. apply returns_bind, returns_get.
  step_by await_send_flows. intros s1 w1 F1. apply flows_set_phases in F1.
  step_by break_ticks_flows. intros s2 w2 F2.
  pose proof (flows_trans _ _ _ _ _ _ F1 F2) as F.
  destruct (is_running s2); [| apply returns_ret; exact F].
  apply returns_bind, returns_get.
  step_by await_send_flows. intros s3 w3 F3.
  pose proof (flows_trans _ _ _ _ _ _ F F3) as F'.
  match goal with |- returns (match ?l with _ => _ end) _ _ => destruct l end.
  - apply returns_ret; exact F'.
  - eapply returns_weaken; [apply await_send_flows |]. intros s4 w4 F4.
    eapply flows_trans; eauto.
Qed.

Lemma award_one_keeps_leaderboards self current study_end acc item w :
  is_Some (session_start self) ->
  returns (award_one env self current study_end acc item) w
    (fun _ w' => (leaderboards_ok w -> leaderboards_ok w') /\
                 active_sessions w' = active_sessions w).
Proof.
  intros [started Hs]. destruct item as [user_id data]. unfold award_one.
  destruct (existsb _ current); [| apply returns_ret; auto].
  assert (Hok : exists m,
    minutes_to_award data (session_start self) study_end (duration self) = Ok m).
  { unfold minutes_to_award. rewrite Hs. destruct (Participant.late_join data); eauto. }
  destruct Hok as [m Hm].
  apply returns_bind. unfold lift_result. rewrite Hm.
  eexists _, _. split; [reflexivity |]. cbn beta.
  destruct (0 <? m); [| apply returns_ret; auto].
  apply returns_bind. unfold now at 1. eexists _, _. split; [reflexivity |]. cbn beta.
  apply returns_bind. unfold now at 1. eexists _, _. split; [reflexivity |]. cbn beta.
  apply returns_bind. eexists _, _. split; [apply save_study_session_run |]. cbn beta.
  apply returns_bind.
  match goal with
  | |- returns (update_monthly_stats env ?o ?mi ?u ?n) ?w0 _ =>
      destruct (update_monthly_stats_run env o mi u n w0) as (n' & t' & E);
      pose proof (update_monthly_stats_keeps_leaderboards env o mi u n w0) as K
  end.
  eexists _, _. split; [exact E |]. apply returns_ret. split.
  - intros Hok. destruct (K Hok) as (b & w' & E' & Hok'). rewrite E in E'.
    injection E' as _ <-. exact Hok'.
  - reflexivity.
Qed.

Lemma award_all_keeps_leaderboards self current study_end items : forall acc w,
  is_Some (session_start self) ->
  returns (award_all env self current study_end acc items) w
    (fun _ w' => (leaderboards_ok w -> leaderboards_ok w') /\
                 active_sessions w' = active_sessions w).
Proof.
  induction items as [| item rest IH]; intros acc w Hs; simpl.
  - apply returns_ret; auto.
  - step_by award_one_keeps_leaderboards. intros acc1 w1 (L1 & A1).
    eapply returns_weaken; [apply IH; exact Hs |].
    intros acc2 w2 (L2 & A2). split; [auto | congruence].
Qed.

Lemma award_credit_flows self w :
  is_Some (session_start self) ->
  returns (award_credit env self) w (flows self w).
Proof.
  intros Hs. unfold award_credit.
  destruct (negb (is_running self)); [apply returns_ret, flows_refl |].
  apply returns_bind, returns_modify. apply returns_bind, returns_get.
  apply returns_bind. unfold now at 1. eexists _, _. split; [reflexivity |]. cbn beta.
  step_by award_all_keeps_leaderboards.
  intros acc w1 (L1 & A1).
  assert (F : flows self w self w1).
  { split; [apply carries_refl |]. split; [auto |]. split; [exact L1 | exact A1]. }
  destruct (awarded_users acc); [apply returns_ret; exact F |].
  eapply returns_weaken; [apply await_send_flows |]. intros s2 w2 F2.
  eapply flows_trans; eauto.
Qed.

(** The whole of [start]. *)
Lemma start_flows self w :
  returns (start env self) w
    (fun self' w' =>
       (leaderboards_ok w -> leaderboards_ok w') /\
       (participants_ok self -> participants_ok self') /\
       forall m, m ∈ occupants_at_start env w (channel self) ->
                 is_Some (dict_get (id m) (participants self'))).
Proof.
  unfold start, occupants_at_start. apply returns_bind, returns_modify.
  apply returns_bind, returns_get. cbn [epoch set_phases].
  pose proof (non_bot_members_are_not_bots
                (presence env (epoch w) (channel_id (channel self)))) as Hbots.
  destruct (filter _ _) as [| m ms] eqn:Hocc.
  - step_by await_send_flows. intros s1 w1 (_ & P1 & L1 & _).
    apply returns_bind, returns_modify. apply returns_ret.
    split; [exact L1 |]. split; [exact P1 |]. intros x Hx. inversion Hx.
  - apply returns_bind. unfold now at 1. eexists _, _. split; [reflexivity |]. cbn beta.
    apply returns_bind.
    eapply returns_weaken; [apply add_participants_ok; [exact Hbots | cbn; eauto] |].
    intros s1 w1 (St1 & P1 & In1). cbn beta.
    pose proof (stable_flows _ _ _ _ St1 P1) as F1.
    step_by await_send_flows. intros s2 w2 F2.
    pose proof (flows_trans _ _ _ _ _ _ F1 F2) as F12.
    step_by study_period_flows. intros s3 w3 F3. apply flows_monitor_flag in F3.
    pose proof (flows_trans _ _ _ _ _ _ F12 F3) as F13.
    assert (Hs3 : is_Some (session_start s3)).
    { destruct F13 as ((_&_&_&E&_) & _). rewrite E. cbn. eauto. }
    apply returns_bind.
    eapply returns_weaken; [apply award_credit_flows; exact Hs3 |].
    intros s4 w4 F4. cbn beta.
    step_by break_period_flows. intros s5 w5 F5.
    pose proof (flows_trans _ _ _ _ _ _ F2
                  (flows_trans _ _ _ _ _ _ F3 (flows_trans _ _ _ _ _ _ F4 F5)))
      as ((_&_&_&_&_&Hkeep) & _).
    pose proof (flows_trans _ _ _ _ _ _ F13 (flows_trans _ _ _ _ _ _ F4 F5))
      as (_ & P & L & _).
    apply returns_bind, returns_modify. apply returns_ret.
    split; [exact L |]. split; [exact P |].
    intros x Hx. destruct (In1 x Hx) as [data Hdata].
    exists data. cbn [participants set_monitor_task set_is_running].
    apply Hkeep, Hdata.
Qed.

End Invariant.

(* ===================================================================== *)
(** ** Timers *)
(* ===================================================================== *)

Lemma welcomed_refl w : welcomed w w.
Proof. exists []. split; [symmetry; apply app_nil_r | constructor]. Qed.

Lemma welcomed_trans w1 w2 w3 : welcomed w1 w2 -> welcomed w2 w3 -> welcomed w1 w3.
Proof.
  intros (l1 & E1 & F1) (l2 & E2 & F2). exists (l1 ++ l2).
  split; [rewrite E2, E1, app_assoc; reflexivity | apply Forall_app; auto].
Qed.

Lemma welcomes_no_timer l :
  Forall is_welcome l -> study_timer_values l = [] /\ break_timer_values l = [].
Proof.
  induction 1 as [| n l Hn _ [IH1 IH2]]; [auto |].
  destruct n; try contradiction. simpl. auto.
Qed.

Lemma study_timer_values_app a b :
  study_timer_values (a ++ b) = study_timer_values a ++ study_timer_values b.
Proof. apply omap_app. Qed.

Lemma break_timer_values_app a b :
  break_timer_values (a ++ b) = break_timer_values a ++ break_timer_values b.
Proof. apply omap_app. Qed.

Lemma welcomed_timers w w' :
  welcomed w w' ->
  study_timer_values (outbox w') = study_timer_values (outbox w) /\
  break_timer_values (outbox w') = break_timer_values (outbox w).
Proof.
  intros (l & E & F). rewrite E, study_timer_values_app, break_timer_values_app.
  destruct (welcomes_no_timer l F) as [-> ->]. rewrite !app_nil_r. auto.
Qed.

Section Timers.
Context (env : Env).

Lemma add_participant_outbox member self w r w' :
  add_participant env member self w = (r, w') -> outbox w' = outbox w.
Proof.
  unfold add_participant. destruct (dict_get _ _); [intros [= <- <-]; reflexivity |].
  unfold bind, now. destruct (session_start self); intros [= <- <-]; reflexivity.
Qed.

Lemma scan_late_joiners_welcomed members : forall self w r w',
  scan_late_joiners env members self w = (r, w') -> welcomed w w'.
Proof.
  induction members as [| member rest IH]; intros self w r w'; simpl.
  - intros [= <- <-]. apply welcomed_refl.
  - destruct (dict_get (id member) (participants self)); [apply IH |].
    unfold bind at 1.
    destruct (add_participant env member self w) as [r1 w1] eqn:E1.
    apply add_participant_outbox in E1.
    assert (W1 : welcomed w w1).
    { exists []. split; [rewrite app_nil_r; exact E1 | constructor]. }
    destruct r1 as [self1 | e]; [| intros [= <- <-]; exact W1].
    unfold bind at 1, now.
    destruct (session_start self1);
      [| intros [= <- <-]; destruct W1 as (l & E & F); exists l; auto].
    unfold bind at 1. rewrite send_run. intros E. apply IH in E.
    eapply welcomed_trans; [| exact E].
    eexists [_]. cbn. split; [rewrite E1; reflexivity |]. constructor; [exact I | constructor].
Qed.

Lemma monitor_step_welcomed self w :
  returns (monitor_late_joiners_step env self) w (fun _ w' => welcomed w w').
Proof.
  unfold monitor_late_joiners_step. destruct (monitor_task self);
    try (apply returns_ret, welcomed_refl).
  unfold returns, bind, non_bot_members, get. cbn beta iota.
  match goal with
  | |- context [scan_late_joiners env ?l self w] =>
      destruct (scan_late_joiners env l self w) as [r w'] eqn:E
  end.
  apply scan_late_joiners_welcomed in E.
  destruct r; eexists _, _; (split; [reflexivity | exact E]).
Qed.

Lemma monitor_late_joiners_welcomed steps : forall self w,
  returns (monitor_late_joiners env steps self) w (fun _ w' => welcomed w w').
Proof.
  induction steps as [| steps IH]; intros self w; simpl.
  - apply returns_ret, welcomed_refl.
  - step_by monitor_step_welcomed. intros s1 w1 W1.
    eapply returns_weaken; [apply IH |]. intros s2 w2 W2.
    eapply welcomed_trans; eauto.
Qed.

Lemma await_welcomed self w :
  returns (await env self) w (fun _ w' => welcomed w w').
Proof.
  unfold await. apply returns_bind, returns_modify. apply returns_bind, returns_get.
  eapply returns_weaken; [apply monitor_late_joiners_welcomed |].
  intros s' w' W. exact W.
Qed.

Lemma await_send_welcomed n self w :
  returns (await_send env n self) w
    (fun _ w' => welcomed (set_outbox (outbox w ++ [n]) w) w').
Proof.
  unfold await_send. apply returns_bind, returns_modify.
  eapply returns_weaken; [apply await_welcomed |]. auto.
Qed.

Lemma study_ticks_timer total_sec elapseds : forall self w,
  is_running self = true ->
  returns (study_ticks env total_sec elapseds self) w
    (fun self' w' =>
       stable self w self' w' /\
       study_timer_values (outbox w') =
         study_timer_values (outbox w) ++ ((fun e => total_sec - e) <$> elapseds) /\
       break_timer_values (outbox w') = break_timer_values (outbox w)).
Proof.
  induction elapseds as [| elapsed rest IH]; intros self w Hrun; simpl.
  - apply returns_ret. rewrite app_nil_r. split; [apply stable_refl | auto].
  - rewrite Hrun. cbn [negb]. apply returns_bind, returns_get. apply returns_bind.
    eapply returns_weaken;
      [apply returns_conj; [apply await_send_returns | apply await_send_welcomed] |].
    intros s1 w1 [St1 W1]. cbn beta. apply returns_bind.
    eapply returns_weaken;
      [apply returns_conj; [apply await_returns | apply await_welcomed] |].
    intros s2 w2 [St2 W2]. cbn beta.
    pose proof (stable_trans _ _ _ _ _ _ St1 St2) as St.
    assert (Hrun2 : is_running s2 = true).
    { destruct St as (_&_&_&_&E&_). rewrite E. exact Hrun. }
    eapply returns_weaken; [apply (IH s2 w2 Hrun2) |].
    intros s3 w3 (St3 & T3 & B3).
    split; [eapply stable_trans; eauto |].
    apply welcomed_timers in W1 as [T1 B1]. apply welcomed_timers in W2 as [T2 B2].
    cbn [outbox set_outbox] in T1, B1.
    rewrite study_timer_values_app in T1. rewrite break_timer_values_app in B1.
    cbn in T1, B1. rewrite app_nil_r in B1.
    split.
    + rewrite T3, T2, T1, <- app_assoc. reflexivity.
    + rewrite B3, B2, B1. reflexivity.
Qed.

Lemma break_ticks_timer total_sec elapseds : forall self w,
  is_running self = true ->
  returns (break_ticks env total_sec elapseds self) w
    (fun self' w' =>
       stable self w self' w' /\
       break_timer_values (outbox w') =
         break_timer_values (outbox w) ++ ((fun e => total_sec - e) <$> elapseds) /\
       study_timer_values (outbox w') = study_timer_values (outbox w)).
Proof.
  induction elapseds as [| elapsed rest IH]; intros self w Hrun; simpl.
  - apply returns_ret. rewrite app_nil_r. split; [apply stable_refl | auto].
  - rewrite Hrun. cbn [negb]. apply returns_bind.
    eapply returns_weaken;
      [apply returns_conj; [apply await_send_returns | apply await_send_welcomed] |].
    intros s1 w1 [St1 W1]. cbn beta. apply returns_bind.
    eapply returns_weaken;
      [apply returns_conj; [apply await_returns | apply await_welcomed] |].
    intros s2 w2 [St2 W2]. cbn beta.
    pose proof (stable_trans _ _ _ _ _ _ St1 St2) as St.
    assert (Hrun2 : is_running s2 = true).
    { destruct St as (_&_&_&_&E&_). rewrite E. exact Hrun. }
    eapply returns_weaken; [apply (IH s2 w2 Hrun2) |].
    intros s3 w3 (St3 & B3 & T3).
    split; [eapply stable_trans; eauto |].
    apply welcomed_timers in W1 as [T1 B1]. apply welcomed_timers in W2 as [T2 B2].
    cbn [outbox set_outbox] in T1, B1.
    rewrite study_timer_values_app in T1. rewrite break_timer_values_app in B1.
    cbn in T1, B1. rewrite app_nil_r in T1.
    split.
    + rewrite B3, B2, B1, <- app_assoc. reflexivity.
    + rewrite T3, T2, T1. reflexivity.
Qed.

(** [range(0, 60 * minutes, step)] when [step] divides 60. *)
Lemma py_range_minutes minutes step per_minute :
  0 <= minutes -> 0 < step -> step * per_minute = 60 ->
  (fun e => minutes * 60 - e) <$> py_range (minutes * 60) step =
  (fun i => minutes * 60 - step * Z.of_nat i) <$> seq 0 (Z.to_nat (per_minute * minutes)).
Proof.
  intros Hm Hs Hdiv. unfold py_range. rewrite <- list_fmap_compose.
  replace ((minutes * 60 + step - 1) / step) with (per_minute * minutes).
  - apply list_fmap_ext. intros i x _. cbn. lia.
  - apply Z.div_unique with (r := step - 1); nia.
Qed.

(** X17.  During a study period of [duration] minutes the timer message
    is edited 2 * [duration] times, every 30 seconds of the plan, to the
    remaining seconds 60 * [duration], 60 * [duration] - 30, ... , 30,
    whoever joins or leaves in between. *)
Theorem study_timer_counts_down (self : PomodoroSession) (w : World) :
  is_running self = true -> 0 <= duration self ->
  exists self' w',
    study_period env self w = (Ok self', w') /\
    study_timer_values (outbox w') =
      study_timer_values (outbox w) ++
      ((fun i => duration self * 60 - 30 * Z.of_nat i) <$>
         seq 0 (Z.to_nat (2 * duration self))).
Proof.
  intros Hrun Hd. unfold study_period.
  assert (H : returns
    (enter Studying ;;;
     (self0 <- await_send env StudyTimerPosted (set_is_study_period true self) ;;
      self1 <- study_ticks env (duration self0 * 60)
                 (py_range (duration self0 * 60) 30) self0 ;;
      if is_running (set_is_study_period false self1)
      then await_send env StudyComplete (set_is_study_period false self1)
      else ret (set_is_study_period false self1))) w
    (fun _ w' => study_timer_values (outbox w') =
       study_timer_values (outbox w) ++
       ((fun i => duration self * 60 - 30 * Z.of_nat i) <$>
          seq 0 (Z.to_nat (2 * duration self))))).
  { apply returns_bind, returns_modify. apply returns_bind.
    eapply returns_weaken;
      [apply returns_conj; [apply await_send_returns | apply await_send_welcomed] |].
    intros s1 w1 [St1 W1]. cbn beta.
    assert (Hd1 : duration s1 = duration self) by (destruct St1 as (_&E&_); exact E).
    assert (Hrun1 : is_running s1 = true).
    { destruct St1 as (_&_&_&_&E&_). rewrite E. exact Hrun. }
    apply welcomed_timers in W1 as [T1 _]. cbn [outbox set_outbox set_phases] in T1.
    rewrite study_timer_values_app in T1. cbn in T1. rewrite app_nil_r in T1.
    apply returns_bind.
    eapply returns_weaken; [apply (study_ticks_timer _ _ s1 w1 Hrun1) |].
    intros s2 w2 (St2 & T2 & _). cbn beta.
    rewrite Hd1 in T2. rewrite (py_range_minutes _ 30 2) in T2 by lia.
    assert (Hfin : forall w3, welcomed (set_outbox (outbox w2 ++ [StudyComplete]) w2) w3 ->
              study_timer_values (outbox w3) =
              study_timer_values (outbox w) ++
              ((fun i => duration self * 60 - 30 * Z.of_nat i) <$>
                 seq 0 (Z.to_nat (2 * duration self)))).
    { intros w3 W3. apply welcomed_timers in W3 as [T3 _].
      cbn [outbox set_outbox] in T3. rewrite study_timer_values_app in T3. cbn in T3.
      rewrite app_nil_r in T3. rewrite T3, T2, T1. reflexivity. }
    destruct (is_running (set_is_study_period false s2)).
    - eapply returns_weaken; [apply await_send_welcomed |]. intros s3 w3 W3.
      apply Hfin, W3.
    - apply returns_ret. rewrite T2, T1. reflexivity. }
  destruct H as (self' & w' & E & T). exists self', w'. split; [exact E | exact T].
Qed.

(** X18.  During a break of [break_time] minutes the break message is
    edited 4 * [break_time] times to the remaining seconds
    60 * [break_time], 60 * [break_time] - 15, ... , 15; a break of 0
    minutes has no edit at all. *)
Theorem break_timer_counts_down (self : PomodoroSession) (w : World) :
  is_running self = true -> 0 <= break_time self ->
  exists self' w',
    break_period env self w = (Ok self', w') /\
    break_timer_values (outbox w') =
      break_timer_values (outbox w) ++
      ((fun i => break_time self * 60 - 15 * Z.of_nat i) <$>
         seq 0 (Z.to_nat (4 * break_time self))).
Proof.
  intros Hrun Hb. unfold break_period. rewrite Hrun. cbn [negb].
  match goal with
  | |- exists self' w', ?m w = _ /\ @?Q w' =>
      assert (H : returns m w (fun _ w' => Q w'))
  end.
  { apply returns_bind, returns_modify. apply returns_bind, returns_get. apply returns_bind.
    eapply returns_weaken;
      [apply returns_conj; [apply await_send_returns | apply await_send_welcomed] |].
    intros s1 w1 [St1 W1]. cbn beta.
    assert (Hb1 : break_time s1 = break_time self) by (destruct St1 as (_&_&E&_); exact E).
    assert (Hrun1 : is_running s1 = true).
    { destruct St1 as (_&_&_&_&E&_). rewrite E. exact Hrun. }
    apply welcomed_timers in W1 as [_ B1]. cbn [outbox set_outbox set_phases] in B1.
    rewrite break_timer_values_app in B1. cbn in B1. rewrite app_nil_r in B1.
    apply returns_bind.
    eapply returns_weaken; [apply (break_ticks_timer _ _ s1 w1 Hrun1) |].
    intros s2 w2 (St2 & B2 & _). cbn beta.
    rewrite Hb1 in B2. rewrite (py_range_minutes _ 15 4) in B2 by lia.
    assert (Hfin : forall n w3, welcomed (set_outbox (outbox w2 ++ [n]) w2) w3 ->
              break_timer_values [n] = [] ->
              break_timer_values (outbox w3) = break_timer_values (outbox w2)).
    { intros n w3 W3 Hn. apply welcomed_timers in W3 as [_ B3].
      cbn [outbox set_outbox] in B3. rewrite break_timer_values_app, Hn, app_nil_r in B3.
      exact B3. }
    destruct (is_running s2); [| apply returns_ret; rewrite B2, B1; reflexivity].
    apply returns_bind, returns_get. apply returns_bind.
    eapply returns_weaken;
      [apply returns_conj; [apply await_send_returns | apply await_send_welcomed] |].
    intros s3 w3 [St3 W3]. cbn beta.
    apply Hfin in W3; [| reflexivity].
    destruct (filter _ _).
    - apply returns_ret. rewrite W3, B2, B1. reflexivity.
    - eapply returns_weaken; [apply await_send_welcomed |]. intros s4 w4 W4.
      apply welcomed_timers in W4 as [_ B4]. cbn [outbox set_outbox] in B4.
      rewrite break_timer_values_app in B4. cbn in B4. rewrite app_nil_r in B4.
      rewrite B4, W3, B2, B1. reflexivity. }
  destruct H as (self' & w' & E & T). exists self', w'. split; [exact E | exact T].
Qed.

End Timers.

Lemma study_timer_counts_down_witness :
  exists self' w',
    study_period library_env running_session initial_world = (Ok self', w') /\
    study_timer_values (outbox w') =
      study_timer_values (outbox initial_world) ++
      ((fun i => duration running_session * 60 - 30 * Z.of_nat i) <$>
         seq 0 (Z.to_nat (2 * duration running_session))).
Proof.
  apply (study_timer_counts_down library_env running_session initial_world);
    [reflexivity | cbn; lia].
Defined.

Lemma break_timer_counts_down_witness :
  exists self' w',
    break_period library_env running_session initial_world = (Ok self', w') /\
    break_timer_values (outbox w') =
      break_timer_values (outbox initial_world) ++
      ((fun i => break_time running_session * 60 - 15 * Z.of_nat i) <$>
         seq 0 (Z.to_nat (4 * break_time running_session))).
Proof.
  apply (break_timer_counts_down library_env running_session initial_world);
    [reflexivity | cbn; lia].
Defined.

(* ===================================================================== *)
(** ** A whole session and a whole command *)
(* ===================================================================== *)

Section Whole.
Context (env : Env).

Lemma dict_get_elem {V} (k : Z) (v : V) (d : list (Z * V)) :
  dict_get k d = Some v -> (k, v) ∈ d.
Proof.
  induction d as [| [k' v'] d IH]; simpl; [discriminate |].
  destruct (k' =? k) eqn:E.
  - intros [= ->]. apply Z.eqb_eq in E as ->. left.
  - intros H. right. apply IH, H.
Qed.

(** X19.  A whole session keeps the leaderboards well formed: [start]
    returns, and when every leaderboard of the database has at most 100
    entries, one entry per user and descending minutes before, so it has
    afterwards. *)
Theorem session_keeps_leaderboards_well_formed (self : PomodoroSession) (w : World) :
  leaderboards_ok w ->
  exists self' w', start env self w = (Ok self', w') /\ leaderboards_ok w'.
Proof.
  intros Hok. destruct (start_flows env self w) as (self' & w' & E & HL & _).
  exists self', w'. split; [exact E | apply HL, Hok].
Qed.

(** X20.  [start] returns with every non-bot member whom it found in the
    channel among the participants of the session, and every participant
    of the session, seeded or found by the monitor task, is a non-bot
    member filed under the member's id with the organization of the
    member's roles. *)
Theorem participants_are_the_non_bot_members
    (c : Channel) (study_minutes break_minutes : Z) (w : World) :
  exists self' w',
    start env (new_session c study_minutes break_minutes) w = (Ok self', w') /\
    (forall m, m ∈ occupants_at_start env w c ->
               is_Some (dict_get (id m) (participants self'))) /\
    (forall uid data, dict_get uid (participants self') = Some data ->
       uid = id (Participant.user data) /\
       bot (Participant.user data) = false /\
       Participant.organization data = get_user_org (Participant.user data)).
Proof.
  destruct (start_flows env (new_session c study_minutes break_minutes) w)
    as (self' & w' & E & _ & HP & Hin).
  exists self', w'. split; [exact E |]. split; [exact Hin |].
  intros uid data Hget.
  assert (Hok : participants_ok self') by (apply HP; constructor).
  unfold participants_ok in Hok. rewrite Forall_forall in Hok.
  apply dict_get_elem in Hget. specialize (Hok _ Hget). cbn in Hok. tauto.
Qed.

(** X21.  An admitted /pomodoro command, run with [start] itself, goes
    through Starting, Studying, Settling, OnBreak and Completed, returns
    without an exception, leaves the registry of active sessions as it
    found it and keeps the leaderboards well formed. *)
Theorem admitted_command_runs_to_completion
    (interaction : Interaction) (c : Channel) (study_minutes break_minutes : Z) (w : World) :
  user_voice interaction = Some c ->
  occupants_at_command env w c <> [] ->
  active_sessions w !! channel_id c = None ->
  1 <= study_minutes <= 120 ->
  0 <= break_minutes <= 60 ->
  exists w',
    pomodoro_slash env (start env) interaction study_minutes break_minutes w = (Ok tt, w') /\
    active_sessions w' = active_sessions w /\
    phases w' = phases w ++ [Starting; Studying; Settling; OnBreak; Completed] /\
    (leaderboards_ok w -> leaderboards_ok w').
Proof.
  intros Hv Hocc Hreg Hs Hb.
  rewrite (pomodoro_slash_admitted env (start env) interaction c _ _ w Hv Hocc Hreg Hs Hb).
  set (w0 := admitted_world c study_minutes break_minutes w).
  set (self := new_session c study_minutes break_minutes).
  destruct (start_returns env self w0 eq_refl) as (self' & w1 & E & Hreg1 & Hph).
  destruct (start_flows env self w0) as (self'' & w1' & E' & HL & _).
  rewrite E in E'. injection E' as <- <-.
  assert (Hbody : (start env self ;;; ret tt) w0 = (Ok tt, w1)).
  { unfold bind. rewrite E. reflexivity. }
  destruct (try_finally_retire _ c w0 _ _ Hbody)
    as (w' & Et & Ha & Hd & Hm & _ & _ & _ & Hp).
  exists w'. split; [exact Et |].
  split.
  { rewrite Ha, Hreg1. unfold w0, admitted_world. cbn [active_sessions set_active_sessions].
    rewrite delete_insert_eq. apply delete_id, Hreg. }
  split.
  { rewrite Hp. change (occupants_at_start env w0 (channel self))
      with (occupants_at_command env w c) in Hph.
    destruct (occupants_at_command env w c); [contradiction | exact Hph]. }
  intros Hok. 
  assert (Hok1 : leaderboards_ok w1) by (apply HL; exact Hok).
  intros mid stats. rewrite Hm. apply Hok1.
Qed.

End Whole.

Lemma session_keeps_leaderboards_well_formed_witness :
  leaderboards_ok initial_world /\
  exists self' w',
    start library_env (new_session library 25 5) initial_world = (Ok self', w') /\
    leaderboards_ok w'.
Proof.
  assert (H : leaderboards_ok initial_world).
  { intros mid stats Hl. cbn in Hl. rewrite lookup_empty in Hl. discriminate Hl. }
  split; [exact H |].
  exact (session_keeps_leaderboards_well_formed library_env (new_session library 25 5)
           initial_world H).
Defined.

Lemma admitted_command_runs_to_completion_witness :
  exists w',
    pomodoro_slash library_env (start library_env) {| user_voice := Some library |} 25 5
      initial_world = (Ok tt, w') /\
    active_sessions w' = active_sessions initial_world /\
    phases w' = phases initial_world ++ [Starting; Studying; Settling; OnBreak; Completed] /\
    (leaderboards_ok initial_world -> leaderboards_ok w').
Proof.
  apply (admitted_command_runs_to_completion library_env {| user_voice := Some library |}
           library 25 5 initial_world);
    [reflexivity | vm_compute; discriminate | reflexivity | lia | lia].
Defined.

(* ===================================================================== *)
(** ** The /dashboard command *)
(* ===================================================================== *)

(** A list in descending order is its positive entries followed by the
    others. *)
Lemma sorted_positive_first {A} (key : A -> Z) (l : list A) :
  StronglySorted (descending key) l ->
  exists shown rest,
    l = shown ++ rest /\
    Forall (fun x => 0 < key x) shown /\ Forall (fun x => key x <= 0) rest.
Proof.
  induction 1 as [| x l Hl (shown & rest & -> & Hs & Hr) Hx].
  - exists [], []. repeat split; constructor.
  - destruct (Z.ltb_spec 0 (key x)) as [Hpos | Hneg].
    + exists (x :: shown), rest. split; [reflexivity |]. split; [constructor; assumption |].
      exact Hr.
    + exists [], (x :: shown ++ rest). split; [reflexivity |]. split; [constructor |].
      constructor; [exact Hneg |]. eapply Forall_impl; [exact Hx |].
      intros y Hy. unfold descending in Hy. lia.
Qed.

Lemma org_lines_app (a b : list (string * OrgStats)) : forall idx,
  org_lines idx (a ++ b) = org_lines idx a ++ org_lines (idx + length a) b.
Proof.
  induction a as [| [org data] a IH]; intros idx; cbn [org_lines app length].
  - rewrite Nat.add_0_r. reflexivity.
  - rewrite IH, <- app_assoc. do 3 f_equal. lia.
Qed.

Lemma org_lines_none (l : list (string * OrgStats)) : forall idx,
  Forall (fun item => org_minutes item <= 0) l -> org_lines idx l = [].
Proof.
  induction l as [| [org data] l IH]; intros idx Hall; [reflexivity |].
  apply Forall_cons in Hall as [Hd Hall]. cbn [org_lines].
  unfold org_minutes in Hd. cbn in Hd.
  replace (0 <? total_minutes data) with false by (symmetry; apply Z.ltb_ge; lia).
  apply IH, Hall.
Qed.

Lemma org_lines_all (l : list (string * OrgStats)) : forall idx,
  Forall (fun item => 0 < org_minutes item) l ->
  org_lines idx l =
    imap (fun i item => {| org_idx := idx + i; org_name := fst item;
                           org_hours := org_minutes item / 60;
                           org_mins := org_minutes item mod 60 |}) l.
Proof.
  induction l as [| [org data] l IH]; intros idx Hall; [reflexivity |].
  apply Forall_cons in Hall as [Hd Hall]. cbn [org_lines imap].
  unfold org_minutes in Hd. cbn in Hd.
  replace (0 <? total_minutes data) with true by (symmetry; apply Z.ltb_lt; lia).
  cbn [app]. rewrite (IH (S idx) Hall). f_equal.
  - f_equal. lia.
  - apply imap_ext. intros i item _. cbn. f_equal. lia.
Qed.

Lemma student_lines_app (a b : list Ind.t) : forall i,
  student_lines i (a ++ b) = student_lines i a ++ student_lines (i + length a) b.
Proof.
  induction a as [| s a IH]; intros i; cbn [student_lines app length].
  - rewrite Nat.add_0_r. reflexivity.
  - rewrite IH, <- app_assoc. do 3 f_equal. lia.
Qed.

Lemma student_lines_none (l : list Ind.t) : forall i,
  Forall (fun s => Ind.minutes s <= 0) l -> student_lines i l = [].
Proof.
  induction l as [| s l IH]; intros i Hall; [reflexivity |].
  apply Forall_cons in Hall as [Hd Hall]. cbn [student_lines].
  replace (0 <? Ind.minutes s) with false by (symmetry; apply Z.ltb_ge; lia).
  apply IH, Hall.
Qed.

Lemma student_lines_all (l : list Ind.t) : forall i,
  Forall (fun s => 0 < Ind.minutes s) l ->
  student_lines i l =
    imap (fun k s => {| student_idx := i + k; student_name := Ind.username s;
                        student_org := Ind.org s;
                        student_hours := Ind.minutes s / 60;
                        student_mins := Ind.minutes s mod 60 |}) l.
Proof.
  induction l as [| s l IH]; intros i Hall; [reflexivity |].
  apply Forall_cons in Hall as [Hd Hall]. cbn [student_lines imap].
  replace (0 <? Ind.minutes s) with true by (symmetry; apply Z.ltb_lt; lia).
  cbn [app]. rewrite (IH (S i) Hall). f_equal.
  - f_equal. lia.
  - apply imap_ext. intros k x _. cbn. f_equal. lia.
Qed.

(** The lines made of the first [n] entries of a list in descending
    order: one line for each positive entry among them, in their order. *)
Lemma lines_of_sorted {A B} (key : A -> Z) (line : nat -> A -> B) (n : nat) (l : list A) :
  StronglySorted (descending key) l ->
  exists shown,
    prefix shown l /\ (length shown <= n)%nat /\
    Forall (fun x => 0 < key x) shown /\
    StronglySorted (descending key) shown /\
    (forall x, x ∈ l -> 0 < key x ->
       x ∈ shown \/ (length shown = n /\ forall y, y ∈ shown -> key x <= key y)) /\
    forall lines_of : nat -> list A -> list B,
      (forall a b i, lines_of i (a ++ b) = lines_of i a ++ lines_of (i + length a)%nat b) ->
      (forall a i, Forall (fun x => key x <= 0) a -> lines_of i a = []) ->
      (forall a i, Forall (fun x => 0 < key x) a ->
                   lines_of i a = imap (fun k x => line (i + k)%nat x) a) ->
      lines_of 0%nat (take n l) = imap line shown.
Proof.
  intros Hsorted.
  destruct (sorted_positive_first key (take n l) (take_sorted key n l Hsorted))
    as (shown & rest & E & Hpos & Hneg).
  exists shown.
  assert (Hpre : shown `prefix_of` take n l) by (exists rest; exact E).
  assert (Hlen : (length shown <= n)%nat).
  { apply prefix_length in Hpre. rewrite length_take in Hpre. lia. }
  split; [etrans; [exact Hpre | apply prefix_take] |]. split; [exact Hlen |].
  split; [exact Hpos |]. split.
  { apply (sorted_app_inv key shown rest). rewrite <- E. apply take_sorted, Hsorted. }
  split.
  - intros x Hx Hkx. rewrite <- (take_drop n l) in Hx.
    apply elem_of_app in Hx as [Hx | Hx].
    + left. rewrite E in Hx. apply elem_of_app in Hx as [Hx | Hx]; [exact Hx |].
      rewrite Forall_forall in Hneg. specialize (Hneg x Hx). lia.
    + right.
      assert (Hall : forall y, y ∈ take n l -> key x <= key y).
      { intros y Hy. rewrite <- (take_drop n l) in Hsorted.
        exact (proj2 (sorted_app_inv key _ _ Hsorted) y x Hy Hx). }
      assert (Hrest : rest = []).
      { destruct rest as [| r rest]; [reflexivity |]. exfalso.
        apply Forall_cons in Hneg as [Hr _].
        assert (Hin : r ∈ take n l) by (rewrite E; apply elem_of_app; right; left).
        specialize (Hall r Hin). lia. }
      subst rest. rewrite app_nil_r in E.
      split.
      * rewrite <- E. apply length_take_le.
        destruct (Nat.le_gt_cases n (length l)) as [? | Hlt]; [assumption |].
        rewrite drop_ge in Hx by lia. inversion Hx.
      * intros y Hy. apply Hall. rewrite E. exact Hy.
  - intros lines_of Happ Hnone Hall. rewrite E, Happ.
    rewrite (Hnone rest _ Hneg), app_nil_r. rewrite (Hall shown 0%nat Hpos).
    reflexivity.
Qed.

Lemma existsb_positive (items : list (string * OrgStats)) :
  existsb (fun d => 0 <? total_minutes d) (snd <$> items) = true <->
  exists item, item ∈ items /\ 0 < org_minutes item.
Proof.
  induction items as [| item items IH]; cbn.
  - split; [discriminate | intros (item & Hin & _); inversion Hin].
  - rewrite orb_true_iff, IH. split.
    + intros [H | (i & Hi & Hp)].
      * exists item. split; [left | apply Z.ltb_lt, H].
      * exists i. split; [right; exact Hi | exact Hp].
    + intros (i & Hi & Hp). apply elem_of_cons in Hi as [-> | Hi].
      * left. apply Z.ltb_lt, Hp.
      * right. exists i. auto.
Qed.

Lemma imap_indices {A B} (f : nat -> A -> B) (idx : B -> nat) (l : list A) :
  (forall i x, idx (f i x) = i) -> idx <$> imap f l = seq 0 (length l).
Proof.
  intros Hidx. apply list_eq. intros i.
  rewrite list_lookup_fmap, list_lookup_imap.
  destruct (l !! i) as [x |] eqn:E; cbn.
  - rewrite Hidx. symmetry. apply lookup_seq. split; [reflexivity |].
    apply lookup_lt_Some in E. exact E.
  - symmetry. apply lookup_seq_ge. apply lookup_ge_None in E. exact E.
Qed.

(** Lines made in the order of a sorted list are sorted. *)
Lemma imap_sorted {A B} (key : A -> Z) (key' : B -> Z) (f : nat -> A -> B) (l : list A) :
  (forall i x, key' (f i x) = key x) ->
  StronglySorted (descending key) l -> StronglySorted (descending key') (imap f l).
Proof.
  intros Hkey Hs. revert f Hkey.
  induction Hs as [| x l Hl IH Hx]; intros f Hkey; cbn; constructor.
  - apply IH. intros i y. apply Hkey.
  - apply Forall_forall. intros b Hb.
    apply elem_of_lookup_imap in Hb as (i & y & -> & Hy).
    rewrite Forall_forall in Hx. specialize (Hx y (list_elem_of_lookup_2 _ _ _ Hy)).
    unfold descending in *. cbn. rewrite !Hkey. exact Hx.
Qed.

Lemma hours_and_minutes (m : Z) : m / 60 * 60 + m mod 60 = m /\ 0 <= m mod 60 < 60.
Proof.
  split; [| apply Z.mod_pos_bound; lia].
  pose proof (Z.div_mod m 60 ltac:(lia)). lia.
Qed.

Section DashboardRuns.
Context (env : Env) (dict_items : gmap string OrgStats -> list (string * OrgStats)).

(** What the command reads: the aggregate of the month of its first
    reading of the clock. *)
Lemma dashboard_slash_run w :
  let stats := loaded_stats env w (strftime_Ym (clock env (ticks w))) in
  let items := dict_items (Stats.organizations stats) in
  exists n t',
    dashboard_slash env dict_items w =
    (Ok (if negb (existsb (fun d => 0 <? total_minutes d) (snd <$> items))
         then NoDataYet
         else Competition (strftime_Ym t')
                (org_lines 0 (take 10 (sort_desc org_minutes items)))
                (student_lines 0 (take 3 (Stats.top_individuals stats)))),
     set_epoch (S (epoch w)) (set_ticks n w)).
Proof.
  intros stats items. subst stats items. unfold loaded_stats, dashboard_slash.
  unfold bind at 1, now at 1. unfold bind at 1, get_monthly_stats.
  unfold bind at 1, get. cbn [monthly_stats set_ticks ticks].
  destruct (monthly_stats w !! strftime_Ym (clock env (ticks w))) as [stats0 |].
  - unfold ret at 1. destruct (negb _).
    + exists (S (ticks w)), (clock env 0). reflexivity.
    + exists (S (S (ticks w))), (clock env (S (ticks w))). reflexivity.
  - unfold bind at 1, now at 1, ret at 1. cbn [ticks set_ticks].
    destruct (negb _).
    + exists (S (S (ticks w))), (clock env 0). reflexivity.
    + exists (S (S (S (ticks w)))), (clock env (S (S (ticks w)))). reflexivity.
Qed.

Lemma item_is_entry (orgs : gmap string OrgStats) (item : string * OrgStats) :
  lists_items dict_items ->
  item ∈ dict_items orgs <-> orgs !! fst item = Some (snd item).
Proof.
  intros Hitems. rewrite (Hitems orgs). destruct item as [org data].
  apply elem_of_map_to_list.
Qed.

Lemma some_minutes_iff (stats : Stats.t) :
  lists_items dict_items ->
  existsb (fun d => 0 <? total_minutes d) (snd <$> dict_items (Stats.organizations stats))
    = true <->
  exists org, 0 < org_total stats org.
Proof.
  intros Hitems. rewrite existsb_positive. unfold org_total. split.
  - intros ([org data] & Hin & Hpos). apply item_is_entry in Hin; [| exact Hitems].
    exists org. cbn in Hin. rewrite Hin. exact Hpos.
  - intros (org & Hpos).
    destruct (Stats.organizations stats !! org) as [data |] eqn:E; [| lia].
    exists (org, data). split; [| exact Hpos]. apply item_is_entry; [exact Hitems | exact E].
Qed.

(** X22.  The /dashboard command only reads: session files, statistics,
    registry and outbox are as before.  It answers "No data yet!" exactly
    when no organization has a positive total in the aggregate of the
    current month, whatever the leaderboard of the individuals holds. *)
Theorem dashboard_no_data_iff_no_minutes (w : World) :
  lists_items dict_items ->
  let stats := loaded_stats env w (strftime_Ym (clock env (ticks w))) in
  exists answer w',
    dashboard_slash env dict_items w = (Ok answer, w') /\
    study_sessions w' = study_sessions w /\ monthly_stats w' = monthly_stats w /\
    active_sessions w' = active_sessions w /\ outbox w' = outbox w /\
    (answer = NoDataYet <-> forall org, org_total stats org <= 0).
Proof.
  intros Hitems stats. destruct (dashboard_slash_run w) as (n & t' & E).
  fold stats in E. eexists _, _. split; [exact E |].
  repeat (split; [reflexivity |]).
  pose proof (some_minutes_iff stats Hitems) as Hsome.
  destruct (existsb _ _); cbn [negb].
  - split; [discriminate |]. intros Hall.
    destruct (proj1 Hsome eq_refl) as (org & Hpos). specialize (Hall org). lia.
  - split; [| reflexivity]. intros _ org.
    destruct (Z.le_gt_cases (org_total stats org) 0) as [? | Hpos]; [assumption |].
    assert (H : false = true) by (apply Hsome; exists org; lia). discriminate H.
Qed.

(** X23.  When an organization has a positive total, the dashboard has a
    field "Organizations" of at least one and at most 10 lines, at the
    consecutive positions 0, 1, ... (the medals first), in descending
    order of minutes.  Each line shows an organization of the aggregate
    with its positive total as hours and minutes below 60, and an
    organization with a positive total is missing only when ten lines
    with at least as many minutes are shown. *)
Theorem dashboard_ranks_organizations (w : World) :
  lists_items dict_items ->
  let stats := loaded_stats env w (strftime_Ym (clock env (ticks w))) in
  (exists org, 0 < org_total stats org) ->
  exists description organizations top_students w',
    dashboard_slash env dict_items w =
      (Ok (Competition description organizations top_students), w') /\
    organizations <> [] /\
    (length organizations <= 10)%nat /\
    org_idx <$> organizations = seq 0 (length organizations) /\
    StronglySorted (descending org_line_minutes) organizations /\
    (forall line, line ∈ organizations ->
       0 < org_line_minutes line /\ 0 <= org_mins line < 60 /\
       Stats.organizations stats !! org_name line =
         Some {| total_minutes := org_line_minutes line |}) /\
    (forall org, 0 < org_total stats org ->
       (exists line, line ∈ organizations /\ org_name line = org /\
                     org_line_minutes line = org_total stats org) \/
       (length organizations = 10%nat /\
        forall line, line ∈ organizations -> org_total stats org <= org_line_minutes line)).
Proof.
  intros Hitems stats Hsome. destruct (dashboard_slash_run w) as (n & t' & E).
  fold stats in E. apply (some_minutes_iff stats Hitems) in Hsome as Hex.
  rewrite Hex in E. cbn [negb] in E.
  set (items := dict_items (Stats.organizations stats)) in *.
  set (line := fun (i : nat) (item : string * OrgStats) =>
                 {| org_idx := i; org_name := fst item;
                    org_hours := org_minutes item / 60;
                    org_mins := org_minutes item mod 60 |}).
  destruct (lines_of_sorted org_minutes line 10 (sort_desc org_minutes items)
              (sort_desc_sorted org_minutes items))
    as (shown & Hpre & Hlen & Hpos & Hsorted & Hcut & Hlines).
  specialize (Hlines org_lines org_lines_app org_lines_none org_lines_all).
  rewrite Hlines in E. eexists _, _, _, _. split; [exact E |].
  assert (Hmin : forall i item, org_line_minutes (line i item) = org_minutes item).
  { intros i item. unfold org_line_minutes, line. cbn. apply hours_and_minutes. }
  assert (Hitem : forall item, item ∈ shown ->
            Stats.organizations stats !! fst item = Some (snd item)).
  { intros item Hin. apply (item_is_entry _ item Hitems). fold items.
    rewrite <- (sort_desc_perm org_minutes items).
    destruct Hpre as [k ->]. apply elem_of_app. left. exact Hin. }
  assert (Hentry : forall org, 0 < org_total stats org ->
            exists item, item ∈ sort_desc org_minutes items /\ fst item = org /\
                         org_minutes item = org_total stats org).
  { intros org Hp. unfold org_total in *.
    destruct (Stats.organizations stats !! org) as [data |] eqn:El; [| lia].
    exists (org, data). split; [| split; reflexivity].
    rewrite (sort_desc_perm org_minutes items). apply item_is_entry; assumption. }
  split.
  { destruct Hsome as (org & Hp). destruct (Hentry org Hp) as (item & Hin & _ & Hm).
    intros Hnil. apply (f_equal length) in Hnil. rewrite length_imap in Hnil.
    destruct (Hcut item Hin ltac:(lia)) as [Hs | [Hl _]].
    - destruct shown; [inversion Hs | discriminate Hnil].
    - cbn in Hnil. lia. }
  split; [rewrite length_imap; exact Hlen |].
  split; [rewrite length_imap; apply imap_indices; reflexivity |].
  split; [apply (imap_sorted org_minutes); [exact Hmin | exact Hsorted] |].
  split.
  - intros l Hl. apply elem_of_lookup_imap in Hl as (i & item & -> & Hi).
    apply list_elem_of_lookup_2 in Hi. rewrite Hmin.
    rewrite Forall_forall in Hpos. split; [apply Hpos, Hi |].
    unfold line. cbn [org_name org_mins].
    split; [apply hours_and_minutes |].
    rewrite (Hitem item Hi). destruct item as [org [m]]. reflexivity.
  - intros org Hp. destruct (Hentry org Hp) as (item & Hin & Hname & Hm).
    destruct (Hcut item Hin ltac:(lia)) as [Hs | [Hl Hall]].
    + left. apply list_elem_of_lookup in Hs as [i Hi].
      exists (line i item). split; [apply elem_of_lookup_imap; eauto |].
      split; [exact Hname |]. rewrite Hmin. exact Hm.
    + right. split; [rewrite length_imap; exact Hl |].
      intros l Hl'. apply elem_of_lookup_imap in Hl' as (i & y & -> & Hi).
      apply list_elem_of_lookup_2 in Hi. rewrite Hmin, <- Hm. apply Hall, Hi.
Qed.

(** X24.  On a well-formed leaderboard the field "Top Students" has at
    most three lines at the consecutive positions 0, 1, 2; each line
    shows the entry of the leaderboard at its position, which has more
    than 0 minutes, as hours and minutes below 60; an entry with more
    than 0 minutes is missing only when three lines with at least as many
    minutes are shown. *)
Theorem dashboard_shows_top_students (w : World) :
  lists_items dict_items ->
  leaderboards_ok w ->
  let stats := loaded_stats env w (strftime_Ym (clock env (ticks w))) in
  (exists org, 0 < org_total stats org) ->
  exists description organizations top_students w',
    dashboard_slash env dict_items w =
      (Ok (Competition description organizations top_students), w') /\
    (length top_students <= 3)%nat /\
    student_idx <$> top_students = seq 0 (length top_students) /\
    (forall line, line ∈ top_students ->
       exists ind,
         Stats.top_individuals stats !! student_idx line = Some ind /\
         student_name line = Ind.username ind /\ student_org line = Ind.org ind /\
         student_line_minutes line = Ind.minutes ind /\
         0 < Ind.minutes ind /\ 0 <= student_mins line < 60) /\
    (forall ind, ind ∈ Stats.top_individuals stats -> 0 < Ind.minutes ind ->
       (exists line, line ∈ top_students /\ student_name line = Ind.username ind /\
                     student_org line = Ind.org ind /\
                     student_line_minutes line = Ind.minutes ind) \/
       (length top_students = 3%nat /\
        forall line, line ∈ top_students -> Ind.minutes ind <= student_line_minutes line)).
Proof.
  intros Hitems Hok stats Hsome. destruct (dashboard_slash_run w) as (n & t' & E).
  fold stats in E. apply (some_minutes_iff stats Hitems) in Hsome as Hex.
  rewrite Hex in E. cbn [negb] in E.
  assert (Htop : StronglySorted (descending Ind.minutes) (Stats.top_individuals stats)).
  { unfold stats, loaded_stats.
    destruct (monthly_stats w !! strftime_Ym (clock env (ticks w))) as [stored |] eqn:El.
    - apply (Hok _ _ El).
    - constructor. }
  set (line := fun (i : nat) (s : Ind.t) =>
                 {| student_idx := i; student_name := Ind.username s;
                    student_org := Ind.org s;
                    student_hours := Ind.minutes s / 60;
                    student_mins := Ind.minutes s mod 60 |}).
  destruct (lines_of_sorted Ind.minutes line 3 (Stats.top_individuals stats) Htop)
    as (shown & Hpre & Hlen & Hpos & Hsorted & Hcut & Hlines).
  specialize (Hlines student_lines student_lines_app student_lines_none student_lines_all).
  rewrite Hlines in E. eexists _, _, _, _. split; [exact E |].
  assert (Hmin : forall i s, student_line_minutes (line i s) = Ind.minutes s).
  { intros i s. unfold student_line_minutes, line. cbn. apply hours_and_minutes. }
  split; [rewrite length_imap; exact Hlen |].
  split; [rewrite length_imap; apply imap_indices; reflexivity |].
  split.
  - intros l Hl. apply elem_of_lookup_imap in Hl as (i & s & -> & Hi).
    exists s. split; [cbn; eapply prefix_lookup_Some; eauto |].
    split; [reflexivity |]. split; [reflexivity |]. split; [apply Hmin |].
    rewrite Forall_forall in Hpos.
    split; [apply Hpos; eapply list_elem_of_lookup_2; eauto | apply hours_and_minutes].
  - intros ind Hin Hp. destruct (Hcut ind Hin Hp) as [Hs | [Hl Hall]].
    + left. apply list_elem_of_lookup in Hs as [i Hi].
      exists (line i ind). split; [apply elem_of_lookup_imap; eauto |].
      split; [reflexivity |]. split; [reflexivity | apply Hmin].
    + right. split; [rewrite length_imap; exact Hl |].
      intros l Hl'. apply elem_of_lookup_imap in Hl' as (i & y & -> & Hi).
      apply list_elem_of_lookup_2 in Hi. rewrite Hmin. apply Hall, Hi.
Qed.

End DashboardRuns.

Lemma dashboard_no_data_iff_no_minutes_witness :
  lists_items map_to_list /\
  exists answer w',
    dashboard_slash library_env map_to_list initial_world = (Ok answer, w') /\
    study_sessions w' = study_sessions initial_world /\
    monthly_stats w' = monthly_stats initial_world /\
    active_sessions w' = active_sessions initial_world /\
    outbox w' = outbox initial_world /\
    (answer = NoDataYet <->
     forall org, org_total (loaded_stats library_env initial_world (2024, 5)) org <= 0).
Proof.
  assert (H : lists_items map_to_list) by (intros orgs; reflexivity).
  split; [exact H |].
  exact (dashboard_no_data_iff_no_minutes library_env map_to_list initial_world H).
Defined.

Lemma dashboard_ranks_organizations_witness :
  (lists_items map_to_list /\
   exists org, 0 < org_total (loaded_stats library_env world_in_may (2024, 5)) org) /\
  exists description organizations top_students w',
    dashboard_slash library_env map_to_list world_in_may =
      (Ok (Competition description organizations top_students), w') /\
    organizations <> [] /\
    (length organizations <= 10)%nat /\
    org_idx <$> organizations = seq 0 (length organizations) /\
    StronglySorted (descending org_line_minutes) organizations /\
    (forall line, line ∈ organizations ->
       0 < org_line_minutes line /\ 0 <= org_mins line < 60 /\
       Stats.organizations (loaded_stats library_env world_in_may (2024, 5))
         !! org_name line = Some {| total_minutes := org_line_minutes line |}) /\
    (forall org, 0 < org_total (loaded_stats library_env world_in_may (2024, 5)) org ->
       (exists line, line ∈ organizations /\ org_name line = org /\
                     org_line_minutes line =
                       org_total (loaded_stats library_env world_in_may (2024, 5)) org) \/
       (length organizations = 10%nat /\
        forall line, line ∈ organizations ->
          org_total (loaded_stats library_env world_in_may (2024, 5)) org <=
          org_line_minutes line)).
Proof.
  assert (H1 : lists_items map_to_list) by (intros orgs; reflexivity).
  assert (H2 : exists org,
            0 < org_total (loaded_stats library_env world_in_may (2024, 5)) org)
    by (exists "VTK"%string; vm_compute; reflexivity).
  split; [auto |].
  exact (dashboard_ranks_organizations library_env map_to_list world_in_may H1 H2).
Defined.

Lemma dashboard_shows_top_students_witness :
  (lists_items map_to_list /\ leaderboards_ok world_in_may /\
   exists org, 0 < org_total (loaded_stats library_env world_in_may (2024, 5)) org) /\
  exists description organizations top_students w',
    dashboard_slash library_env map_to_list world_in_may =
      (Ok (Competition description organizations top_students), w') /\
    (length top_students <= 3)%nat /\
    student_idx <$> top_students = seq 0 (length top_students) /\
    (forall line, line ∈ top_students ->
       exists ind,
         Stats.top_individuals (loaded_stats library_env world_in_may (2024, 5))
           !! student_idx line = Some ind /\
         student_name line = Ind.username ind /\ student_org line = Ind.org ind /\
         student_line_minutes line = Ind.minutes ind /\
         0 < Ind.minutes ind /\ 0 <= student_mins line < 60) /\
    (forall ind,
       ind ∈ Stats.top_individuals (loaded_stats library_env world_in_may (2024, 5)) ->
       0 < Ind.minutes ind ->
       (exists line, line ∈ top_students /\ student_name line = Ind.username ind /\
                     student_org line = Ind.org ind /\
                     student_line_minutes line = Ind.minutes ind) \/
       (length top_students = 3%nat /\
        forall line, line ∈ top_students -> Ind.minutes ind <= student_line_minutes line)).
Proof.
  assert (H1 : lists_items map_to_list) by (intros orgs; reflexivity).
  assert (H2 : leaderboards_ok world_in_may).
  { intros mid stats Hl.
    change (({[ (2024, 5) := may_stats ]} : gmap month_id Stats.t) !! mid = Some stats) in Hl.
    apply lookup_singleton_Some in Hl as [<- <-].
    split; [cbn; lia |]. split; repeat constructor. set_solver. }
  assert (H3 : exists org,
            0 < org_total (loaded_stats library_env world_in_may (2024, 5)) org)
    by (exists "VTK"%string; vm_compute; reflexivity).
  split; [auto |].
  exact (dashboard_shows_top_students library_env map_to_list world_in_may H1 H2 H3).
Defined.
